(** * Brand Reputation Monitor: scraper and dashboard

    A shallow embedding of [scrape_data.py] (the three pagination drivers
    and the snapshot assembly) and of [app.py] (month range, label
    normalisation, the three dashboard views), with the properties of the
    specification stated and proved over it.

    Conventions.
    - A Rocq [string] stands for a Python [str] whose code points are
      below 256; [ascii] is one such code point.
    - Python integers are [Z].
    - A Python call that may raise returns a [result]; [None] is [option].
    - The network, [float], [urljoin], [urlparse], [pd.to_datetime] and
      the sentiment pipeline are outside the two source files: they are the
      members of the classes [Site], [Lib] and [AppLib].  A page is given
      as the elements BeautifulSoup's selectors return on it.
    - What the drivers print is not part of the model; the requests and
      the pauses between them are logged as events.
    - An answer is given as the drivers read it when no library call
      raises: a body that parses, a JSON object wherever the drivers call
      [.get] on one, an href [urljoin] accepts.  On other answers the
      program raises inside a library call; those runs are not runs of
      the model, and the properties of a returned snapshot are stated of
      runs that return one. *)

From Stdlib Require Import ZArith Lia Ascii String List Bool.
From stdpp Require Import base option list strings gmap sorting.
Import ListNotations.

Local Open Scope Z_scope.

(* ===================================================================== *)
(** ** Exceptions *)
(* ===================================================================== *)

Inductive exn :=
  | ValueError
  | KeyError (key : string)
  | TypeError
  | OverflowError.

Inductive result (A : Type) :=
  | Ok (a : A)
  | Raise (e : exn).
Arguments Ok {A} a.
Arguments Raise {A} e.

Definition is_ok {A} (r : result A) : bool :=
  match r with Ok _ => true | Raise _ => false end.

Definition rbind {A B} (r : result A) (k : A -> result B) : result B :=
  match r with Ok a => k a | Raise e => Raise e end.

Notation "'let!' x ':=' r 'in' k" := (rbind r (fun x => k))
  (at level 10, x name, r at level 100, k at level 200).

(** [try: ... except: None] *)
Definition try_none {A} (r : result A) : option A :=
  match r with Ok a => Some a | Raise _ => None end.

(* ===================================================================== *)
(** ** Python strings *)
(* ===================================================================== *)

Module PyStr.

Definition chars (s : string) : list ascii := list_ascii_of_string s.
Definition of_chars (l : list ascii) : string := string_of_list_ascii l.

Definition ord (c : ascii) : Z := Z.of_N (N_of_ascii c).
Definition chr (n : Z) : ascii := ascii_of_N (Z.to_N n).

(** [str.isspace] on one code point below 256: TAB..CR, FS..US, SPACE,
    NEL and NBSP.  [str.strip] and the regex class [\s] use the same
    test. *)
Definition isspace (c : ascii) : bool :=
  let n := ord c in
  ((9 <=? n) && (n <=? 13)) || ((28 <=? n) && (n <=? 32))
  || (n =? 133) || (n =? 160).

(** The regex class [\d] and the digits [int] accepts, below 256. *)
Definition isdigit (c : ascii) : bool :=
  let n := ord c in (48 <=? n) && (n <=? 57).

Definition digit_val (c : ascii) : Z := ord c - 48.
Definition digit_chr (n : Z) : ascii := chr (48 + n).

(** [c.lower()] for code points whose lower case is an ASCII letter. *)
Definition lower (c : ascii) : ascii :=
  let n := ord c in
  if (65 <=? n) && (n <=? 90) then chr (n + 32) else c.

Fixpoint lstrip_chars (l : list ascii) : list ascii :=
  match l with
  | c :: l' => if isspace c then lstrip_chars l' else l
  | [] => []
  end.

Definition strip_chars (l : list ascii) : list ascii :=
  rev (lstrip_chars (rev (lstrip_chars l))).

(** [s.strip()] *)
Definition strip (s : string) : string := of_chars (strip_chars (chars s)).

(** [s.replace(c, "")] for a one-character [c]. *)
Definition remove_char (c : ascii) (s : string) : string :=
  of_chars (filter (fun x => x <> c) (chars s)).

(** [s.startswith(w)], returning what follows [w]. *)
Fixpoint m_word_exact (w s : list ascii) : option (list ascii) :=
  match w, s with
  | [], _ => Some s
  | c :: w', x :: s' => if Ascii.eqb x c then m_word_exact w' s' else None
  | _ :: _, [] => None
  end.

(** Truth value of a [str]: the empty string is false. *)
Definition truthy (s : string) : bool :=
  match s with EmptyString => false | String _ _ => true end.

(** Truth value of [d.get(k)] when the value, if any, is a [str]. *)
Definition truthy_opt (o : option string) : bool :=
  match o with Some s => truthy s | None => false end.

End PyStr.

(* ===================================================================== *)
(** ** [datetime] *)
(* ===================================================================== *)

Module PyDatetime.
Import PyStr.

Record datetime := mk_datetime {
  year : Z; month : Z; day : Z;
  hour : Z; minute : Z; second : Z; microsecond : Z
}.

Definition MINYEAR : Z := 1.
Definition MAXYEAR : Z := 9999.

Definition is_leap (y : Z) : bool :=
  (y mod 4 =? 0) && (negb (y mod 100 =? 0) || (y mod 400 =? 0)).

Definition days_in_month (y m : Z) : Z :=
  if m =? 2 then (if is_leap y then 29 else 28)
  else if (m =? 4) || (m =? 6) || (m =? 9) || (m =? 11) then 30
  else 31.

(** The field check of the [date] and [datetime] constructors. *)
Definition check_date_fields (y m d : Z) : bool :=
  (MINYEAR <=? y) && (y <=? MAXYEAR) && (1 <=? m) && (m <=? 12)
  && (1 <=? d) && (d <=? days_in_month y m).

Definition check_time_fields (hh mi ss us : Z) : bool :=
  (0 <=? hh) && (hh <=? 23) && (0 <=? mi) && (mi <=? 59)
  && (0 <=? ss) && (ss <=? 59) && (0 <=? us) && (us <=? 999999).

Definition valid (t : datetime) : bool :=
  check_date_fields (year t) (month t) (day t)
  && check_time_fields (hour t) (minute t) (second t) (microsecond t).

Definition midnight (y m d : Z) : datetime := mk_datetime y m d 0 0 0 0.

(** [datetime(y, m, d)]: midnight of that day, [ValueError] when the
    fields are out of range. *)
Definition new_datetime (y m d : Z) : result datetime :=
  if check_date_fields y m d then Ok (midnight y m d)
  else Raise ValueError.

(** [dt.replace(year=y, month=m, day=d)]: the time of day is kept, the
    new date is checked. *)
Definition replace (t : datetime) (y m d : Z) : result datetime :=
  if check_date_fields y m d
  then Ok (mk_datetime y m d (hour t) (minute t) (second t) (microsecond t))
  else Raise ValueError.

(** Comparison of two naive datetimes: lexicographic on the fields. *)
Fixpoint lex_compare (a b : list Z) : comparison :=
  match a, b with
  | x :: a', y :: b' =>
      match x ?= y with Eq => lex_compare a' b' | c => c end
  | [], [] => Eq
  | [], _ :: _ => Lt
  | _ :: _, [] => Gt
  end.

Definition fields (t : datetime) : list Z :=
  [year t; month t; day t; hour t; minute t; second t; microsecond t].

Definition compare (a b : datetime) : comparison :=
  lex_compare (fields a) (fields b).

Definition ltb (a b : datetime) : bool :=
  match compare a b with Lt => true | _ => false end.
Definition leb (a b : datetime) : bool :=
  match compare a b with Gt => false | _ => true end.

(** *** [strptime]

    [_strptime] turns the format into a regular expression, matches it
    at the start of the text, and raises [ValueError] when there is no
    match or when text remains after the match.  A directive is modelled
    as the list of its matches in the order the backtracking matcher
    tries them; the first element of the composed list is the match
    found. *)

Definition matcher (A : Type) := list ascii -> list (A * list ascii).

Definition m_bind {A B} (p : matcher A) (k : A -> matcher B) : matcher B :=
  fun s => concat (map (fun '(a, rest) => k a rest) (p s)).

Definition m_ret {A} (a : A) : matcher A := fun s => [(a, s)].

Definition m_lit (c : ascii) : matcher unit :=
  fun s => match s with
           | x :: rest => if Ascii.eqb x c then [(tt, rest)] else []
           | [] => []
           end.

(** [%Y]: [\d\d\d\d] *)
Definition re_Y : matcher Z :=
  fun s => match s with
           | a :: b :: c :: d :: rest =>
               if isdigit a && isdigit b && isdigit c && isdigit d
               then [(1000 * digit_val a + 100 * digit_val b
                      + 10 * digit_val c + digit_val d, rest)]
               else []
           | _ => []
           end.

Definition in_range (lo hi : Z) (c : ascii) : bool :=
  (lo <=? digit_val c) && (digit_val c <=? hi) && isdigit c.

(** One alternative made of two characters. *)
Definition alt2 (p q : ascii -> bool) (v : ascii -> ascii -> Z)
  : matcher Z :=
  fun s => match s with
           | a :: b :: rest => if p a && q b then [(v a b, rest)] else []
           | _ => []
           end.

(** One alternative made of one character. *)
Definition alt1 (p : ascii -> bool) (v : ascii -> Z) : matcher Z :=
  fun s => match s with
           | a :: rest => if p a then [(v a, rest)] else []
           | _ => []
           end.

Definition m_alts {A} (ps : list (matcher A)) : matcher A :=
  fun s => concat (map (fun p => p s) ps).

Definition two_digits (a b : ascii) : Z := 10 * digit_val a + digit_val b.

(** [%m]: [1[0-2]|0[1-9]|[1-9]] *)
Definition re_m : matcher Z :=
  m_alts [ alt2 (in_range 1 1) (in_range 0 2) two_digits;
           alt2 (in_range 0 0) (in_range 1 9) two_digits;
           alt1 (in_range 1 9) digit_val ].

(** [%d]: [3[0-1]|[1-2]\d|0[1-9]|[1-9]| [1-9]] *)
Definition re_d : matcher Z :=
  m_alts [ alt2 (in_range 3 3) (in_range 0 1) two_digits;
           alt2 (in_range 1 2) isdigit two_digits;
           alt2 (in_range 0 0) (in_range 1 9) two_digits;
           alt1 (in_range 1 9) digit_val;
           alt2 (Ascii.eqb " ") (in_range 1 9) (fun _ b => digit_val b) ].

(** The abbreviated month names of the C locale, lower-cased, as
    [LocaleTime.a_month] holds them (index 0 is the empty name). *)
Definition a_month : list string :=
  [ ""; "jan"; "feb"; "mar"; "apr"; "may"; "jun";
    "jul"; "aug"; "sep"; "oct"; "nov"; "dec" ]%string.

(** A literal word matched ignoring case. *)
Fixpoint m_word_nocase (w : list ascii) (s : list ascii)
  : option (list ascii) :=
  match w, s with
  | [], _ => Some s
  | c :: w', x :: s' =>
      if Ascii.eqb (lower x) c then m_word_nocase w' s' else None
  | _ :: _, [] => None
  end.

(** [%b]: the alternation of the month names; the value is the index of
    the matched name in [a_month]. *)
Definition re_b : matcher Z :=
  m_alts (imap (fun i name => fun s =>
                  match m_word_nocase (chars name) s with
                  | Some rest => [(Z.of_nat (S i), rest)]
                  | None => []
                  end) (tail a_month)).

(** [\s+], greedy: the longest run first, then each shorter one. *)
Fixpoint re_spaces_from (s : list ascii) : list (unit * list ascii) :=
  match s with
  | c :: s' => if isspace c then re_spaces_from s' ++ [(tt, s')] else []
  | [] => []
  end.
Definition re_spaces : matcher unit := re_spaces_from.

(** The end of [_strptime]: the first match, which must reach the end of
    the text. *)
Definition whole_match {A} (ms : list (A * list ascii)) : result A :=
  match ms with
  | [] => Raise ValueError
  | (a, []) :: _ => Ok a
  | (_, _ :: _) :: _ => Raise ValueError
  end.

(** [datetime.strptime(s, "%Y-%m-%d")] *)
Definition strptime_Y_m_d (s : string) : result datetime :=
  let! ymd := whole_match
    (m_bind re_Y (fun y => m_bind (m_lit "-") (fun _ =>
     m_bind re_m (fun m => m_bind (m_lit "-") (fun _ =>
     m_bind re_d (fun d => m_ret (y, m, d)))))) (chars s)) in
  let '(y, m, d) := ymd in new_datetime y m d.

(** [datetime.strptime(s, "%b %Y")]: the blank of the format stands for
    [\s+]; the day defaults to 1. *)
Definition strptime_b_Y (s : string) : result datetime :=
  let! my := whole_match
    (m_bind re_b (fun m => m_bind re_spaces (fun _ =>
     m_bind re_Y (fun y => m_ret (m, y)))) (chars s)) in
  let '(m, y) := my in new_datetime y m 1.

(** [d.isoformat()] of a [date]: ["%04d-%02d-%02d"]. *)
Definition fmt_02d (n : Z) : list ascii :=
  [digit_chr (n / 10 mod 10); digit_chr (n mod 10)].
Definition fmt_04d (n : Z) : list ascii :=
  [digit_chr (n / 1000 mod 10); digit_chr (n / 100 mod 10);
   digit_chr (n / 10 mod 10); digit_chr (n mod 10)].

Definition date_isoformat (t : datetime) : string :=
  of_chars (fmt_04d (year t) ++ "-"%char :: fmt_02d (month t)
            ++ "-"%char :: fmt_02d (day t)).

End PyDatetime.

(* ===================================================================== *)
(** ** The part of pandas the two programs use *)
(* ===================================================================== *)

Module Pandas.

(** A value held in a column. [CFloat z] is the float equal to the
    integer [z]; [CNaN] is the missing value of a float column, [CNone]
    the [None] of an object column. *)
Inductive cell :=
  | CNone
  | CNaN
  | CInt (z : Z)
  | CFloat (z : Z)
  | CStr (s : string).

Global Instance cell_eq_dec : EqDecision cell.
Proof. solve_decision. Defined.

Definition cell_of_str (o : option string) : cell :=
  match o with Some s => CStr s | None => CNone end.

(** The records a frame is built from: dictionaries with the same keys. *)
Class DictRecord (A : Type) := {
  keys : list string;
  get_cell : string -> A -> option cell
}.

Record DataFrame (A : Type) := mk_frame {
  columns : list string;
  rows : list A
}.
Arguments mk_frame {A} columns rows.
Arguments columns {A} _.
Arguments rows {A} _.

(** [pd.DataFrame(records)]: no column at all when the list is empty. *)
Definition from_records {A} {rec : DictRecord A} (l : list A) : DataFrame A :=
  match l with
  | [] => mk_frame [] []
  | _ :: _ => mk_frame keys l
  end.

(** [df.empty]: some axis has length 0. *)
Definition empty {A} (df : DataFrame A) : bool :=
  match columns df, rows df with
  | _ :: _, _ :: _ => false
  | _, _ => true
  end.

(** [df.duplicated(subset, keep="first")] on the key values: a row is
    marked when an earlier row has the same key. *)
Fixpoint duplicated_from {K} `{EqDecision K} (seen ks : list K)
  : list bool :=
  match ks with
  | [] => []
  | k :: ks' => bool_decide (k ∈ seen) :: duplicated_from (k :: seen) ks'
  end.

Definition duplicated {K} `{EqDecision K} (ks : list K) : list bool :=
  duplicated_from [] ks.

(** [df[~mask]] *)
Fixpoint drop_marked {A} (mask : list bool) (l : list A) : list A :=
  match mask, l with
  | b :: mask', x :: l' =>
      if b then drop_marked mask' l' else x :: drop_marked mask' l'
  | _, _ => []
  end.

(** The key of a row for [subset]: the values of those columns. *)
Definition subset_key {A} {rec : DictRecord A} (subset : list string) (x : A)
  : list (option cell) :=
  map (fun c => get_cell c x) subset.

(** [df.drop_duplicates(subset=...)]: an empty frame is returned as it
    is, before the columns of [subset] are looked up; otherwise a column
    of [subset] the frame does not have raises [KeyError]. *)
Definition drop_duplicates {A} {rec : DictRecord A} (subset : list string)
    (df : DataFrame A) : result (DataFrame A) :=
  if empty df then Ok df
  else
    match filter (fun c => c ∉ columns df) subset with
    | missing :: _ => Raise (KeyError missing)
    | [] =>
        Ok (mk_frame (columns df)
              (drop_marked (duplicated (map (subset_key subset) (rows df)))
                           (rows df)))
    end.

(** [df.to_dict(orient="records")] *)
Definition to_dict_records {A} (df : DataFrame A) : list A := rows df.

(** The dtype a column of optional integers gets: [int64] when no value
    is missing, [float64] with [NaN] when some are, [object] holding
    [None] when all are. *)
Definition int_column (col : list (option Z)) : list cell :=
  if forallb (fun o => bool_decide (is_Some o)) col
  then map (fun o => match o with Some z => CInt z | None => CNone end) col
  else if forallb (fun o => bool_decide (o = None)) col
  then map (fun _ => CNone) col
  else map (fun o => match o with Some z => CFloat z | None => CNaN end) col.

End Pandas.

(* ===================================================================== *)
(** ** [scrape_data.py] *)
(* ===================================================================== *)

Module Scrape.
Import PyStr PyDatetime Pandas.

Definition BASE : string := "https://web-scraping.dev".

(** *** What comes from outside the program *)

(** A response as the drivers read it: the status and the parsed body
    (the elements a selector returns, or the decoded JSON). *)
Record response (B : Type) := mk_response {
  status_code : Z;
  body : B
}.
Arguments mk_response {B} status_code body.
Arguments status_code {B} _.
Arguments body {B} _.

(** A [div.row.product] of the listing, through the selectors of the
    loop body. *)
Record anchor := mk_anchor {
  a_href : string;            (* a["href"] *)
  a_text : string             (* a.get_text(strip=True) *)
}.
Record product_row := mk_product_row {
  row_a : option anchor;                  (* ".description h3 a[href]" *)
  row_img_src : option string;            (* ".thumbnail img[src]", src *)
  row_short_description : option string;  (* get_text(" ", strip=True) *)
  row_price : option string               (* get_text(strip=True) *)
}.

(** A [div.testimonial]. *)
Record card := mk_card {
  card_identicon : option (option string); (* identicon-svg, its username *)
  card_text : option string;               (* "p.text", get_text(" ", strip=True) *)
  card_stars : Z                           (* len(select(".rating svg")) *)
}.

(** The JSON of the GraphQL answer, read with the defaults of the
    [.get] calls: an absent level reads as empty. *)
Record node := mk_node {
  n_rid : option string;
  n_text : option string;
  n_rating : option Z;
  n_date : option string
}.
Record edge := mk_edge {
  e_node : option node;
  e_cursor : option string
}.
Record gql := mk_gql {
  has_errors : bool;               (* "errors" in data *)
  edges : list edge;
  hasNextPage : option bool;       (* page_info.get("hasNextPage") *)
  endCursor : option string        (* page_info.get("endCursor") *)
}.

(** Library functions the drivers call. *)
Class Lib (F : Type) := {
  py_float : string -> result F;            (* float(txt) *)
  urljoin : string -> string -> string;
  urlparse_path : string -> string          (* urlparse(url).path *)
}.

(** The site, with a state [W] of its own: each request returns the
    answer and the next state. *)
Class Site (W : Type) := {
  get_products : Z -> W -> W * response (list product_row);
  get_testimonials : Z -> W -> W * response (list card);
  post_graphql : Z -> option string -> W -> W * response gql
}.

(** What a driver does, in order. *)
Inductive event :=
  | EvGetProducts (page : Z) (r : response (list product_row))
  | EvGetTestimonials (page : Z) (r : response (list card))
  | EvPostGraphql (first : Z) (after : option string) (r : response gql)
  | EvSleep.

(** *** Products *)

Record product (F : Type) := mk_product {
  p_title : string;
  p_url : string;
  p_page : Z;
  p_image_url : option string;
  p_price : option F;
  p_description : option string
}.
Arguments mk_product {F}.
Arguments p_title {F} _.
Arguments p_url {F} _.
Arguments p_page {F} _.
Arguments p_image_url {F} _.
Arguments p_price {F} _.
Arguments p_description {F} _.

(** [re.search(r"^/product/\d+/?$", path) is not None]; [$] also matches
    before a final newline. *)
Fixpoint drop_digits (l : list ascii) : list ascii :=
  match l with
  | c :: l' => if isdigit c then drop_digits l' else l
  | [] => []
  end.

Definition newline : ascii := chr 10.

Definition product_path_ok (path : string) : bool :=
  match m_word_exact (chars "/product/") (chars path) with
  | Some (c :: rest) =>
      isdigit c &&
      bool_decide (drop_digits rest ∈
                     [ []; ["/"%char]; [newline]; ["/"%char; newline] ])
  | _ => false
  end.

(** The price text without ["$"] and [","], through [float]. *)
Definition clean_price {F} {lib : Lib F} (price_text : string) : option F :=
  let txt := remove_char "," (remove_char "$" price_text) in
  try_none (py_float txt).

Record products_state (F : Type) := mk_pstate {
  products : list (product F);
  seen_urls : gset string;
  page_added : Z
}.
Arguments mk_pstate {F}.
Arguments products {F} _.
Arguments seen_urls {F} _.
Arguments page_added {F} _.

(** The body of [for row in rows]. *)
Definition scrape_row {F} {lib : Lib F} (page : Z) (st : products_state F)
    (row : product_row) : products_state F :=
  match row_a row with
  | None => st
  | Some a =>
      let url := urljoin BASE (strip (a_href a)) in
      let path := urlparse_path url in
      if negb (product_path_ok path) then st
      else if bool_decide (url ∈ seen_urls st) then st
      else
        let title := a_text a in
        let image_url :=
          match row_img_src row with
          | Some src =>
              if truthy src then Some (urljoin BASE (strip src)) else None
          | None => None
          end in
        let description := row_short_description row in
        let price :=
          match row_price row with
          | Some price_text => clean_price price_text
          | None => None
          end in
        mk_pstate
          (products st ++ [mk_product title url page image_url price description])
          ({[ url ]} ∪ seen_urls st)
          (page_added st + 1)
  end.

Definition scrape_rows {F} {lib : Lib F} (page : Z) (st : products_state F)
    (rows : list product_row) : products_state F :=
  foldl (scrape_row page)
        (mk_pstate (products st) (seen_urls st) 0) rows.

(** [for page in range(1, max_pages + 1)], on the pages still to fetch. *)
Fixpoint products_loop {F W} {lib : Lib F} {site : Site W} (pages : list Z)
    (st : products_state F) (w : W) (log : list event)
  : products_state F * W * list event :=
  match pages with
  | [] => (st, w, log)
  | page :: pages' =>
      let '(w', r) := get_products page w in
      let log' := log ++ [EvGetProducts page r] in
      if negb (status_code r =? 200) then (st, w', log')
      else
        match body r with
        | [] => (st, w', log')
        | _ :: _ =>
            let st' := scrape_rows page st (body r) in
            if page_added st' =? 0 then (st', w', log')
            else products_loop pages' st' w' (log' ++ [EvSleep])
        end
  end.

(** [scrape_products_html] *)
Definition scrape_products_html {F W} {lib : Lib F} {site : Site W} (max_pages : Z)
    (w : W) : list (product F) * W * list event :=
  let '(st, w', log) :=
    products_loop (seqZ 1 max_pages) (mk_pstate [] ∅ 0) w [] in
  (products st, w', log).

(** *** Testimonials *)

Record testimonial := mk_testimonial {
  t_page : Z;
  t_idx : Z;
  t_username : option string;
  t_text : string;
  t_rating : Z
}.

Global Instance testimonial_record : DictRecord testimonial := {|
  keys := ["page"; "idx"; "username"; "text"; "rating"];
  get_cell c t :=
    if String.eqb c "page" then Some (CInt (t_page t))
    else if String.eqb c "idx" then Some (CInt (t_idx t))
    else if String.eqb c "username" then Some (cell_of_str (t_username t))
    else if String.eqb c "text" then Some (CStr (t_text t))
    else if String.eqb c "rating" then Some (CInt (t_rating t))
    else None
|}.

(** [enumerate(cards)] *)
Definition enumerate {A} (l : list A) : list (Z * A) :=
  zip (seqZ 0 (Z.of_nat (length l))) l.

(** The body of [for idx, card in enumerate(cards)]. *)
Definition scrape_card (page : Z) (testimonials : list testimonial)
    (ic : Z * card) : list testimonial :=
  let '(idx, c) := ic in
  let username :=
    match card_identicon c with Some u => u | None => None end in
  let text := card_text c in
  let rating := card_stars c in
  match text with
  | Some t =>
      if truthy t
      then testimonials ++ [mk_testimonial page idx username t rating]
      else testimonials
  | None => testimonials
  end.

Fixpoint testimonials_loop {W} {site : Site W} (pages : list Z)
    (testimonials : list testimonial) (w : W) (log : list event)
  : list testimonial * W * list event :=
  match pages with
  | [] => (testimonials, w, log)
  | page :: pages' =>
      let '(w', r) := get_testimonials page w in
      let log' := log ++ [EvGetTestimonials page r] in
      if negb (status_code r =? 200) then (testimonials, w', log')
      else
        match body r with
        | [] => (testimonials, w', log')
        | _ :: _ =>
            testimonials_loop pages'
              (foldl (scrape_card page) testimonials (enumerate (body r)))
              w' (log' ++ [EvSleep])
        end
  end.

(** The list [testimonials] when the loop is left. *)
Definition collect_testimonials {W} {site : Site W} (max_pages : Z) (w : W)
  : list testimonial * W * list event :=
  testimonials_loop (seqZ 1 max_pages) [] w [].

(** [scrape_testimonials_api] *)
Definition scrape_testimonials_api {W} {site : Site W} (max_pages : Z) (w : W)
  : result (list testimonial) * W * list event :=
  let '(testimonials, w', log) := collect_testimonials max_pages w in
  (let! df := drop_duplicates ["text"] (from_records testimonials) in
   Ok (to_dict_records df),
   w', log).

(** *** Reviews *)

(** [_parse_date] *)
Definition _parse_date (date_str : string) : option datetime :=
  try_none (strptime_Y_m_d (strip date_str)).

(** The dictionary appended to [all_reviews]. *)
Record review := mk_review {
  r_rid : option string;
  r_date : string;
  r_text : string;
  r_rating : option Z
}.

(** The same record as a row of the frame, and of the returned list:
    the rating has taken the dtype of its column. *)
Record review_row := mk_review_row {
  rr_rid : option string;
  rr_date : string;
  rr_text : string;
  rr_rating : cell
}.

Global Instance review_row_record : DictRecord review_row := {|
  keys := ["rid"; "date"; "text"; "rating"];
  get_cell c r :=
    if String.eqb c "rid" then Some (cell_of_str (rr_rid r))
    else if String.eqb c "date" then Some (CStr (rr_date r))
    else if String.eqb c "text" then Some (CStr (rr_text r))
    else if String.eqb c "rating" then Some (rr_rating r)
    else None
|}.

Definition review_to_row (r : review) (rating : cell) : review_row :=
  mk_review_row (r_rid r) (r_date r) (r_text r) rating.

(** [pd.DataFrame(all_reviews)] *)
Definition reviews_frame (all_reviews : list review) : DataFrame review_row :=
  from_records
    (zip_with review_to_row all_reviews
              (int_column (map r_rating all_reviews))).

(** [edge.get("node", {})] *)
Definition empty_node : node := mk_node None None None None.
Definition node_of (e : edge) : node := default empty_node (e_node e).

(** The body of [for edge in edges]. *)
Definition scrape_edge (all_reviews : list review) (e : edge)
  : list review :=
  let nd := node_of e in
  let date_str := n_date nd in
  let text := n_text nd in
  let rating := n_rating nd in
  match date_str, text with
  | Some d, Some t =>
      if negb (truthy d) || negb (truthy t) then all_reviews
      else
        match _parse_date d with
        | None => all_reviews
        | Some dt =>
            all_reviews ++
              [mk_review (n_rid nd) (date_isoformat dt) (strip t) rating]
        end
  | _, _ => all_reviews
  end.

(** [not page_info.get("hasNextPage")] *)
Definition no_next_page (g : gql) : bool :=
  match hasNextPage g with
  | Some true => false
  | Some false | None => true
  end.

(** [page_info.get("endCursor") or edges[-1].get("cursor")], for a
    non-empty list of edges. *)
Definition next_cursor (g : gql) : option string :=
  if truthy_opt (endCursor g) then endCursor g
  else match last (edges g) with
       | Some e => e_cursor e
       | None => None
       end.

(** [for _ in range(max_pages)], on the number of rounds left. *)
Fixpoint reviews_loop {W} {site : Site W} (first : Z) (rounds : nat)
    (all_reviews : list review) (after : option string) (w : W)
    (log : list event) : list review * W * list event :=
  match rounds with
  | O => (all_reviews, w, log)
  | S rounds' =>
      let '(w', r) := post_graphql first after w in
      let log' := log ++ [EvPostGraphql first after r] in
      if negb (status_code r =? 200) then (all_reviews, w', log')
      else
        let data := body r in
        if has_errors data then (all_reviews, w', log')
        else
          match edges data with
          | [] => (all_reviews, w', log')
          | _ :: _ =>
              let all_reviews' := foldl scrape_edge all_reviews (edges data) in
              if no_next_page data then (all_reviews', w', log')
              else reviews_loop first rounds' all_reviews'
                     (next_cursor data) w' (log' ++ [EvSleep])
          end
  end.

(** The list [all_reviews] when the loop is left. *)
Definition collect_reviews {W} {site : Site W} (max_pages first : Z) (w : W)
  : list review * W * list event :=
  reviews_loop first (Z.to_nat max_pages) [] None w [].

(** [scrape_reviews_api] *)
Definition scrape_reviews_api {W} {site : Site W} (max_pages first : Z) (w : W)
  : result (list review_row) * W * list event :=
  let '(all_reviews, w', log) := collect_reviews max_pages first w in
  (let! df := drop_duplicates ["date"; "text"] (reviews_frame all_reviews) in
   Ok (to_dict_records df),
   w', log).

(** *** The snapshot *)

Record snapshot (F : Type) := mk_snapshot {
  s_products : list (product F);
  s_testimonials : list testimonial;
  s_reviews : list review_row;
  s_scraped_at : string;
  s_source : string
}.
Arguments mk_snapshot {F}.
Arguments s_products {F} _.
Arguments s_testimonials {F} _.
Arguments s_reviews {F} _.
Arguments s_scraped_at {F} _.
Arguments s_source {F} _.

(** [main]: the dictionary written to [data.json]; [now] is what
    [datetime.now(timezone.utc).isoformat()] returns in this run.  An
    exception of a driver leaves [main] before anything is written. *)
Definition main {F W} {lib : Lib F} {site : Site W} (now : string) (w : W)
  : result (snapshot F) * W * list event :=
  let '(ps, w1, log1) := scrape_products_html 50 w in
  let '(ts, w2, log2) := scrape_testimonials_api 50 w1 in
  match ts with
  | Raise e => (Raise e, w2, log1 ++ log2)
  | Ok ts' =>
      let '(rs, w3, log3) := scrape_reviews_api 50 20 w2 in
      (let! rs' := rs in Ok (mk_snapshot ps ts' rs' now BASE),
       w3, log1 ++ log2 ++ log3)
  end.

(** *** Reading the log of a run *)

Definition product_gets (log : list event)
  : list (Z * response (list product_row)) :=
  omap (fun e => match e with
                 | EvGetProducts page r => Some (page, r)
                 | _ => None
                 end) log.

Definition testimonial_gets (log : list event)
  : list (Z * response (list card)) :=
  omap (fun e => match e with
                 | EvGetTestimonials page r => Some (page, r)
                 | _ => None
                 end) log.

Definition graphql_posts (log : list event)
  : list (option string * response gql) :=
  omap (fun e => match e with
                 | EvPostGraphql _ after r => Some (after, r)
                 | _ => None
                 end) log.

(** A row whose link has the path of a product page. *)
Definition row_parseable {F} {lib : Lib F} (row : product_row) : bool :=
  match row_a row with
  | Some a => product_path_ok (urlparse_path (urljoin BASE (strip (a_href a))))
  | None => false
  end.

(** An answer that is not a success or has no parseable product row. *)
Definition products_page_ends {F} {lib : Lib F} (r : response (list product_row))
  : bool :=
  negb (status_code r =? 200)
  || forallb (fun row => negb (row_parseable row)) (body r).

Definition is_nil {A} (l : list A) : bool :=
  match l with [] => true | _ :: _ => false end.

(** An answer after which the review loop is left. *)
Definition reviews_page_ends (r : response gql) : bool :=
  negb (status_code r =? 200)
  || has_errors (body r)
  || is_nil (edges (body r))
  || no_next_page (body r).

(** The same with the last condition read as "the flag is [false]". *)
Definition reviews_page_ends_flag_false (r : response gql) : bool :=
  negb (status_code r =? 200)
  || has_errors (body r)
  || is_nil (edges (body r))
  || bool_decide (hasNextPage (body r) = Some false).

(** [rv] is the record the body of the review loop makes of edge [e]:
    the date and the text are present and not empty, and the date parses. *)
Definition review_of_edge (e : edge) (rv : review) : Prop :=
  exists d t dt,
    n_date (node_of e) = Some d /\ truthy d = true
    /\ n_text (node_of e) = Some t /\ truthy t = true
    /\ _parse_date d = Some dt
    /\ rv = mk_review (n_rid (node_of e)) (date_isoformat dt) (strip t)
                      (n_rating (node_of e)).

(** The key of [drop_duplicates(subset=["date", "text"])]. *)
Definition review_key (r : review_row) : string * string :=
  (rr_date r, rr_text r).

(** What the row loop keeps true of its state: the URL of every product
    is in [seen_urls], no two products share a URL, and every URL has the
    path of a product page. *)
Definition products_inv {F} {lib : Lib F} (st : products_state F) : Prop :=
  (forall p, p ∈ products st -> p_url p ∈ seen_urls st)
  /\ NoDup (map p_url (products st))
  /\ Forall (fun p => product_path_ok (urlparse_path (p_url p)) = true)
            (products st).

(** [t] is the record the card loop makes of card [c], number [idx] of
    page [page]: the card has a text, which is not empty. *)
Definition testimonial_of_card (page idx : Z) (c : card) (t : testimonial)
  : Prop :=
  exists text,
    card_text c = Some text /\ truthy text = true
    /\ t = mk_testimonial page idx
             (match card_identicon c with Some u => u | None => None end)
             text (card_stars c).

(** The URL of a row whose link has the path of a product page. *)
Definition row_url {F} {lib : Lib F} (row : product_row) : option string :=
  match row_a row with
  | Some a =>
      let url := urljoin BASE (strip (a_href a)) in
      if product_path_ok (urlparse_path url) then Some url else None
  | None => None
  end.

(** [p] is the product the row loop makes of [row] on page [page]. *)
Definition product_of_row {F} {lib : Lib F} (page : Z) (row : product_row)
    (p : product F) : Prop :=
  exists a,
    row_a row = Some a
    /\ row_url row = Some (urljoin BASE (strip (a_href a)))
    /\ p = mk_product (a_text a) (urljoin BASE (strip (a_href a))) page
             (match row_img_src row with
              | Some src =>
                  if truthy src then Some (urljoin BASE (strip src)) else None
              | None => None
              end)
             (match row_price row with
              | Some price_text => clean_price price_text
              | None => None
              end)
             (row_short_description row).

(** The answer [r] to the request of page [k] is a success and [ps] has a
    product found on page [k]. *)
Definition page_added_to {F} (k : Z) (r : response (list product_row))
    (ps : list (product F)) : bool :=
  (status_code r =? 200) && existsb (fun p => p_page p =? k) ps.

(** Every recorded URL is the URL of a product of the list. *)
Definition seen_listed {F} (st : products_state F) : Prop :=
  forall u, u ∈ seen_urls st -> exists p, p ∈ products st /\ p_url p = u.

(** The products listed before the loop reaches [pages] are of earlier
    pages. *)
Definition listed_before {F} (pages : list Z) (st : products_state F) : Prop :=
  forall p page, p ∈ products st -> page ∈ pages -> p_page p < page.

(** The kinds of events, by the driver that produces them. *)
Inductive kind := KProducts | KTestimonials | KGraphql | KPause.

Definition kind_of (e : event) : kind :=
  match e with
  | EvGetProducts _ _ => KProducts
  | EvGetTestimonials _ _ => KTestimonials
  | EvPostGraphql _ _ _ => KGraphql
  | EvSleep => KPause
  end.

(** A log made of the requests of one driver and of pauses. *)
Definition log_of (k : kind) (log : list event) : Prop :=
  Forall (fun e => kind_of e = k \/ kind_of e = KPause) log.

(** A request followed by the pause of the loop. *)
Definition with_pause (request : event) : list event := [request; EvSleep].

Definition is_request (e : event) : bool :=
  match e with EvSleep => false | _ => true end.

(** *** A scripted site, for running the drivers on given answers *)

Record script := mk_script {
  product_pages : list (response (list product_row));
  testimonial_pages : list (response (list card));
  graphql_answers : list (response gql)
}.

(** When the script has run out the site answers 404. *)
Definition pop {B} (dflt : B) (l : list (response B))
  : list (response B) * response B :=
  match l with
  | r :: l' => (l', r)
  | [] => ([], mk_response 404 dflt)
  end.

Definition scripted_site : Site script := {|
  get_products _ w :=
    let '(l, r) := pop [] (product_pages w) in
    (mk_script l (testimonial_pages w) (graphql_answers w), r);
  get_testimonials _ w :=
    let '(l, r) := pop [] (testimonial_pages w) in
    (mk_script (product_pages w) l (graphql_answers w), r);
  post_graphql _ _ w :=
    let '(l, r) := pop (mk_gql false [] None None) (graphql_answers w) in
    (mk_script (product_pages w) (testimonial_pages w) l, r)
|}.

(** A stand-in for the library, for running the drivers: [float] reads
    an unsigned decimal numeral with at most one point and keeps its
    text; [urljoin] resolves a path against the base and leaves anything
    else alone; the path of a URL is what follows [BASE]. *)
Definition numeral_ok (l : list ascii) : bool :=
  match l with
  | [] => false
  | c :: _ =>
      isdigit c
      && forallb (fun x => isdigit x || Ascii.eqb x ".") l
      && (length (filter (fun x => x = "."%char) l) <=? 1)%nat
  end.

Definition toy_lib : Lib string := {|
  py_float txt :=
    if numeral_ok (chars (strip txt)) then Ok (strip txt)
    else Raise ValueError;
  urljoin base ref :=
    match chars ref with
    | "/"%char :: _ => (base +:+ ref)%string
    | _ => ref
    end;
  urlparse_path url :=
    match m_word_exact (chars BASE) (chars url) with
    | Some rest => of_chars rest
    | None => ""%string
    end
|}.

End Scrape.

(* ===================================================================== *)
(** ** [app.py] *)
(* ===================================================================== *)

Module App.
Import PyStr PyDatetime Pandas.

(** [month_label_to_range] *)
Definition month_label_to_range (label : string)
  : result (datetime * datetime) :=
  let! dt := strptime_b_Y label in
  let! start := replace dt (year dt) (month dt) 1 in
  let! end_ := (if month dt =? 12
                then replace dt (year dt + 1) 1 1
                else replace dt (year dt) (month dt + 1) 1) in
  Ok (start, end_).

(** *** The document read from [data.json] *)

(** A key of a dictionary decoded from JSON. *)
Inductive field (A : Type) :=
  | Absent
  | Null
  | Val (a : A).
Arguments Absent {A}.
Arguments Null {A}.
Arguments Val {A} a.

(** [d.get(k)]: [None] for an absent key and for a null. *)
Definition get {A} (f : field A) : option A :=
  match f with Val a => Some a | Absent | Null => None end.

(** [d.get(k, dflt)]: the default only for an absent key. *)
Definition get_default {A} (f : field A) (dflt : A) : option A :=
  match f with Val a => Some a | Absent => Some dflt | Null => None end.

(** [d[k]] *)
Definition getitem {A} (k : string) (f : field A) : result (option A) :=
  match f with
  | Val a => Ok (Some a)
  | Null => Ok None
  | Absent => Raise (KeyError k)
  end.

Record product_doc (F : Type) := mk_product_doc {
  pd_title : field string;
  pd_image_url : field string;
  pd_description : field string;
  pd_price : field F
}.
Arguments mk_product_doc {F}.
Arguments pd_title {F} _.
Arguments pd_image_url {F} _.
Arguments pd_description {F} _.
Arguments pd_price {F} _.

Record testimonial_doc := mk_testimonial_doc {
  td_username : field string;
  td_text : field string;
  td_rating : field Z
}.

Record data_doc (F : Type) := mk_data {
  d_products : field (list (product_doc F));
  d_testimonials : field (list testimonial_doc);
  d_reviews : field (list Scrape.review_row)
}.
Arguments mk_data {F}.
Arguments d_products {F} _.
Arguments d_testimonials {F} _.
Arguments d_reviews {F} _.

(** Functions of the libraries the dashboard calls. *)
Class AppLib (F : Type) := {
  format_2f : F -> string;                    (* f"{x:.2f}" *)
  sentiment_pipe : list string -> list (string * F);
                                              (* label and score per text *)
  to_datetime : list string -> list (option datetime)
                                   (* pd.to_datetime(col, errors="coerce") *)
}.

(** *** What the page shows *)

Inductive section := Products | Testimonials | Reviews.

Record sentiment_row (F : Type) := mk_sentiment_row {
  sr_review : Scrape.review_row;
  sr_date_dt : datetime;
  sr_sentiment : string;
  sr_confidence : F
}.
Arguments mk_sentiment_row {F}.

(** The calls to Streamlit; [None] as an argument is Python's [None]. *)
Inductive st_call (F : Type) :=
  | st_header (s : string)
  | st_subheader (s : option string)
  | st_markdown (s : string)
  | st_image (url : string) (width : Z)
  | st_write (s : option string)
  | st_divider
  | st_warning (s : string)
  | st_info (s : string)
  | st_metric (label : string) (value : Z)
  | st_predictions (table : list (sentiment_row F)).
Arguments st_header {F}.
Arguments st_subheader {F}.
Arguments st_markdown {F}.
Arguments st_image {F}.
Arguments st_write {F}.
Arguments st_divider {F}.
Arguments st_warning {F}.
Arguments st_info {F}.
Arguments st_metric {F}.
Arguments st_predictions {F}.

(** How a view ends: it returns, or an exception leaves it. *)
Inductive outcome := Done | Raised (e : exn).

(** The glyphs of the labels, by name. *)
Definition MONEY_BAG : string := "[money bag]".
Definition BUST : string := "[bust in silhouette]".
Definition STAR : string := "[star]".

(** [str(x)] of a string or [None]. *)
Definition str_of (o : option string) : string :=
  match o with Some s => s | None => "None" end.

(** [s * n] *)
Definition repeat_str (s : string) (n : Z) : string :=
  foldr String.append "" (replicate (Z.to_nat n) s).

(** The body of [for p in products]. *)
Definition show_product {F} {applib : AppLib F} (p : product_doc F)
  : list (st_call F) :=
  [st_markdown "---"]
  ++ (match get (pd_image_url p) with
      | Some u => if truthy u then [st_image u 250] else []
      | None => []
      end)
  ++ [st_subheader (get_default (pd_title p) "Unnamed product")]
  ++ (match get (pd_description p) with
      | Some d => if truthy d then [st_write (Some d)] else []
      | None => []
      end)
  ++ [match get (pd_price p) with
      | Some x =>
          st_write (Some (MONEY_BAG +:+ " **Price:** $" +:+ format_2f x))
      | None => st_write (Some (MONEY_BAG +:+ " **Price:** N/A"))
      end].

(** The branch [section == "Products"]. *)
Definition products_view {F} {applib : AppLib F} (data : data_doc F)
  : list (st_call F) * outcome :=
  let calls := [st_header "Products"] in
  match getitem "products" (d_products data) with
  | Raise e => (calls, Raised e)
  | Ok None => (calls, Raised TypeError)
  | Ok (Some products) => (calls ++ concat (map show_product products), Done)
  end.

(** The body of [for t in testimonials]; multiplying the star by [None]
    raises [TypeError] after the first two calls. *)
Definition show_testimonial {F} (t : testimonial_doc)
  : list (st_call F) * outcome :=
  let calls :=
    [st_markdown ("### " +:+ BUST +:+ " "
                  +:+ str_of (get_default (td_username t) "Anonymous"));
     st_write (get_default (td_text t) "")] in
  match get_default (td_rating t) 0 with
  | Some rating => (calls ++ [st_write (Some (repeat_str STAR rating));
                              st_divider], Done)
  | None => (calls, Raised TypeError)
  end.

(** A loop whose body may raise. *)
Fixpoint for_each {A F} (body : A -> list (st_call F) * outcome)
    (l : list A) : list (st_call F) * outcome :=
  match l with
  | [] => ([], Done)
  | x :: l' =>
      match body x with
      | (calls, Done) =>
          let '(calls', o) := for_each body l' in (calls ++ calls', o)
      | (calls, Raised e) => (calls, Raised e)
      end
  end.

(** The branch [section == "Testimonials"]. *)
Definition testimonials_view {F} (data : data_doc F)
  : list (st_call F) * outcome :=
  let calls := [st_subheader (Some "Testimonials")] in
  match get_default (d_testimonials data) [] with
  | None => (calls, Raised TypeError)
  | Some testimonials =>
      let '(calls', o) := for_each show_testimonial testimonials in
      (calls ++ calls', o)
  end.

(** The dictionary of line 132 and the two steps that use it. *)
Definition LABELS : gmap string string :=
  {[ "POSITIVE" := "Positive"; "NEGATIVE" := "Negative" ]}.

(** [series.map(d)]: [NaN] (here [None]) for a value that is no key. *)
Definition series_map (d : gmap string string) (s : list string)
  : list (option string) :=
  map (fun x => d !! x) s.

(** [series.fillna(other)]: the value of [other] at the same place. *)
Definition fillna (s : list (option string)) (other : list string)
  : list string :=
  zip_with (fun o x => default x o) s other.

Definition normalize_labels (sentiment : list string) : list string :=
  fillna (series_map LABELS sentiment) sentiment.

(** [t - pd.Timedelta(days=1)] *)
Definition minus_one_day (t : datetime) : result datetime :=
  let time_of y m d :=
    mk_datetime y m d (hour t) (minute t) (second t) (microsecond t) in
  if 1 <? day t then Ok (time_of (year t) (month t) (day t - 1))
  else if 1 <? month t
  then Ok (time_of (year t) (month t - 1)
                   (days_in_month (year t) (month t - 1)))
  else if MINYEAR <? year t then Ok (time_of (year t - 1) 12 31)
  else Raise OverflowError.

(** [df.dropna(subset=["date_dt"])] *)
Definition dropna {A B} (l : list (A * option B)) : list (A * B) :=
  omap (fun '(a, o) => match o with Some b => Some (a, b) | None => None end) l.

(** The [else] branch: the Reviews view, up to the table of predictions
    that the widgets after line 132 display and aggregate.  [selected]
    is what the slider returns. *)
Definition reviews_view {F} {applib : AppLib F} (selected : string)
    (data : data_doc F) : list (st_call F) * outcome :=
  let calls := [st_subheader (Some "Reviews (2023) + Sentiment Analysis")] in
  let df := from_records (default [] (get_default (d_reviews data) [])) in
  if empty df
  then (calls ++ [st_warning "No reviews found in data.json"], Done)
  else
    let date_dt := to_datetime (map Scrape.rr_date (rows df)) in
    let df' := dropna (zip (rows df) date_dt) in
    let df_2023 := filter (fun rt => year rt.2 = 2023) df' in
    match df_2023 with
    | [] => (calls ++ [st_warning
               "No 2023 reviews found. Check your scraper output."], Done)
    | _ :: _ =>
        match month_label_to_range selected with
        | Raise e => (calls, Raised e)
        | Ok (start, end_) =>
            let filtered :=
              filter (fun rt => leb start rt.2 && ltb rt.2 end_ = true)
                     df_2023 in
            match minus_one_day end_ with
            | Raise e =>
                (calls ++ [st_metric "Reviews in month"
                                     (Z.of_nat (length filtered));
                           st_metric "All 2023 reviews"
                                     (Z.of_nat (length df_2023))],
                 Raised e)
            | Ok last_day =>
                let calls' := calls ++
                  [st_metric "Reviews in month" (Z.of_nat (length filtered));
                   st_metric "All 2023 reviews" (Z.of_nat (length df_2023));
                   st_write (Some ("Showing reviews from **"
                                   +:+ date_isoformat start +:+ "** to **"
                                   +:+ date_isoformat last_day +:+ "**"))] in
                match filtered with
                | [] => (calls' ++ [st_info "No reviews in this month."], Done)
                | _ :: _ =>
                    let texts := map (fun rt => Scrape.rr_text rt.1) filtered in
                    let preds := sentiment_pipe texts in
                    if negb (length preds =? length filtered)%nat
                    then (calls', Raised ValueError)
                    else
                      let sentiment := normalize_labels (map fst preds) in
                      let confidence := map snd preds in
                      (calls' ++
                         [st_markdown "### Filtered reviews + predictions";
                          st_predictions
                            (zip_with (fun rt sc =>
                                         mk_sentiment_row rt.1 rt.2 sc.1 sc.2)
                                      filtered (zip sentiment confidence))],
                       Done)
                end
            end
        end
    end.

(** [main], after the page header and [load_data]: [section] is what the
    sidebar returns. *)
Definition main {F} {applib : AppLib F} (sec : section) (selected : string)
    (data : data_doc F) : list (st_call F) * outcome :=
  match sec with
  | Products => products_view data
  | Testimonials => testimonials_view data
  | Reviews => reviews_view selected data
  end.

(** *** The slider and the file *)

(** The abbreviated month names as [strftime] prints them in the C
    locale. *)
Definition month_abbr (m : Z) : string :=
  nth (Z.to_nat (m - 1))
      [ "Jan"; "Feb"; "Mar"; "Apr"; "May"; "Jun";
        "Jul"; "Aug"; "Sep"; "Oct"; "Nov"; "Dec" ]%string ""%string.

(** [t.strftime("%b %Y")], for a year of four digits. *)
Definition strftime_b_Y (t : datetime) : string :=
  of_chars (chars (month_abbr (month t)) ++ " "%char :: fmt_04d (year t)).

(** [pd.date_range("2023-01-01", "2023-12-01", freq="MS")]: the first
    days of the months of 2023. *)
Definition months : list datetime :=
  map (fun m => midnight 2023 m 1) (seqZ 1 12).

(** [month_labels], the options of the slider. *)
Definition month_labels : list string := map strftime_b_Y months.

(** The rows with a date that parses, and those of 2023 ([df_2023]). *)
Definition dated_reviews {F} {applib : AppLib F} (data : data_doc F)
  : list (Scrape.review_row * datetime) :=
  let reviews := default [] (get_default (d_reviews data) []) in
  dropna (zip reviews (to_datetime (map Scrape.rr_date reviews))).

Definition reviews_2023 {F} {applib : AppLib F} (data : data_doc F)
  : list (Scrape.review_row * datetime) :=
  filter (fun rt => year rt.2 = 2023) (dated_reviews data).

(** The rows of the selected range ([filtered]). *)
Definition reviews_in_range {F} {applib : AppLib F} (start end_ : datetime)
    (data : data_doc F) : list (Scrape.review_row * datetime) :=
  filter (fun rt => leb start rt.2 && ltb rt.2 end_ = true) (reviews_2023 data).

(** What [json.load] returns on what [json.dump] wrote: [None] is read
    back as null, every key is present. *)
Definition field_of_option {A} (o : option A) : field A :=
  match o with Some a => Val a | None => Null end.

Definition product_doc_of {F} (p : Scrape.product F) : product_doc F :=
  mk_product_doc (Val (Scrape.p_title p))
                 (field_of_option (Scrape.p_image_url p))
                 (field_of_option (Scrape.p_description p))
                 (field_of_option (Scrape.p_price p)).

Definition testimonial_doc_of (t : Scrape.testimonial) : testimonial_doc :=
  mk_testimonial_doc (field_of_option (Scrape.t_username t))
                     (Val (Scrape.t_text t))
                     (Val (Scrape.t_rating t)).

(** [load_data] on the file a run of the scraper wrote. *)
Definition load_data {F} (s : Scrape.snapshot F) : data_doc F :=
  mk_data (Val (map product_doc_of (Scrape.s_products s)))
          (Val (map testimonial_doc_of (Scrape.s_testimonials s)))
          (Val (Scrape.s_reviews s)).

End App.

(* ===================================================================== *)
(** ** Scripted runs *)
(* ===================================================================== *)

Module Demo.
Import Scrape.

Definition review_edge (rid date text cursor : string) : edge :=
  mk_edge (Some (mk_node (Some rid) (Some text) (Some 5) (Some date)))
          (Some cursor).

(** One review whose text is a single blank. *)
Definition blank_text_answers : script :=
  mk_script [] []
    [mk_response 200
       (mk_gql false [review_edge "r1" "2023-02-10" " " "c1"] (Some false) None)].

(** A first answer with an edge and no [pageInfo], and a second answer
    that would be read if the loop went on. *)
Definition no_page_info_answers : script :=
  mk_script [] []
    [mk_response 200
       (mk_gql false [review_edge "r1" "2023-02-10" "fine" "c1"] None None);
     mk_response 200
       (mk_gql false [review_edge "r2" "2023-02-11" "good" "c2"] (Some false) None)].

(** A first answer whose end cursor is the empty string. *)
Definition empty_end_cursor_answers : script :=
  mk_script [] []
    [mk_response 200
       (mk_gql false [review_edge "r1" "2023-02-10" "fine" "c1"]
               (Some true) (Some ""));
     mk_response 200
       (mk_gql false [review_edge "r2" "2023-02-11" "good" "c2"] (Some false) None)].

(** Two pages of reviews; the second repeats a (date, text) of the first. *)
Definition reviews_page_1 : response gql :=
  mk_response 200
    (mk_gql false [review_edge "r1" "2023-02-10" "fine" "c1";
                   review_edge "r2" "2023-03-05" "great product" "c2"]
            (Some true) (Some "c2")).

Definition reviews_page_2 : response gql :=
  mk_response 200
    (mk_gql false [review_edge "r3" "2023-02-10" "fine" "c3";
                   review_edge "r4" "2023-04-01" "bad" "c4"]
            (Some false) None).

Definition two_review_pages : script :=
  mk_script [] [] [reviews_page_1; reviews_page_2].

(** A site that refuses every first request. *)
Definition forbidden_site : script :=
  mk_script [mk_response 403 []] [mk_response 403 []]
            [mk_response 403 (mk_gql false [] None None)].

Definition listing_row (href title price : string) : product_row :=
  mk_product_row (Some (mk_anchor href title)) None None (Some price).

(** Two pages with a product each, then a page without rows. *)
Definition products_page_1 : response (list product_row) :=
  mk_response 200 [listing_row "/product/1" "Box of Chocolate" "$24.99"].

Definition products_page_2 : response (list product_row) :=
  mk_response 200 [listing_row "/product/2" "Dark Red Potion" "$1,234.50";
                   listing_row "/product/2" "Dark Red Potion" "$1,234.50";
                   listing_row "/checkout" "Cart" "n/a"].

Definition products_page_3 : response (list product_row) :=
  mk_response 200 [].

Definition three_product_pages : script :=
  mk_script [products_page_1; products_page_2; products_page_3] [] [].


(** A third page that shows the product of the first page again. *)
Definition repeating_product_pages : script :=
  mk_script [products_page_1; products_page_2; products_page_1] [] [].

(** Two pages of testimonials: a repeated text, a card without text, and
    a card without identicon; the third request is refused. *)
Definition testimonials_page_1 : response (list card) :=
  mk_response 200
    [mk_card (Some (Some "alice")) (Some "Great shop") 5;
     mk_card (Some None) None 3;
     mk_card None (Some "Fast delivery") 4].

Definition testimonials_page_2 : response (list card) :=
  mk_response 200
    [mk_card (Some (Some "bob")) (Some "Great shop") 2;
     mk_card (Some (Some "carol")) (Some "") 1].

Definition two_testimonial_pages : script :=
  mk_script [] [testimonials_page_1; testimonials_page_2; mk_response 403 []] [].

(** A site with the three listings. *)
Definition whole_site : script :=
  mk_script [products_page_1; products_page_2; products_page_3]
            [testimonials_page_1; testimonials_page_2; mk_response 403 []]
            [reviews_page_1; reviews_page_2].

(** A stand-in for the libraries of the dashboard: the pipeline calls
    every text positive, dates are read in ISO form, a price is shown as
    its text. *)
Definition toy_applib : App.AppLib string := {|
  App.format_2f x := x;
  App.sentiment_pipe texts := map (fun _ => ("POSITIVE", "0.99")%string) texts;
  App.to_datetime dates :=
    map (fun s => try_none (PyDatetime.strptime_Y_m_d s)) dates
|}.

Definition march_reviews : list review_row :=
  [mk_review_row (Some "r2") "2023-03-05" "great product" (Pandas.CInt 5);
   mk_review_row (Some "r4") "2023-04-01" "bad" (Pandas.CInt 1)].

End Demo.

(* ===================================================================== *)
(** * Properties *)
(* ===================================================================== *)

Import PyStr PyDatetime Pandas.

(** ** The month range of the dashboard *)

Section MonthRange.
Import App.

Lemma new_datetime_ok y m d t :
  new_datetime y m d = Ok t ->
  t = midnight y m d /\ check_date_fields y m d = true.
Proof.
  unfold new_datetime. destruct (check_date_fields y m d) eqn:E; [|discriminate].
  intros [= <-]. auto.
Qed.

Lemma strptime_b_Y_ok label t :
  strptime_b_Y label = Ok t ->
  t = midnight (year t) (month t) 1
  /\ 1 <= year t <= 9999 /\ 1 <= month t <= 12.
Proof.
  unfold strptime_b_Y, rbind.
  destruct (whole_match _) as [[m y]|]; [|discriminate].
  intros Hn. apply new_datetime_ok in Hn as [-> Hc]. simpl.
  unfold check_date_fields, MINYEAR, MAXYEAR in Hc.
  repeat (apply andb_prop in Hc as [Hc ?]). split; [reflexivity|lia].
Qed.

Lemma check_first_of_month y m :
  1 <= y <= 9999 -> 1 <= m <= 12 -> check_date_fields y m 1 = true.
Proof.
  intros Hy Hm. unfold check_date_fields, MINYEAR, MAXYEAR, days_in_month.
  repeat (apply andb_true_intro; split); try lia.
  repeat match goal with |- context [if ?b then _ else _] => destruct b end; lia.
Qed.

(** When a datetime lies in the range computed for year [y], month [m]. *)
Lemma in_month_range y m y' m' t :
  valid t = true ->
  (m < 12 /\ y' = y /\ m' = m + 1) \/ (m = 12 /\ y' = y + 1 /\ m' = 1) ->
  1 <= m ->
  leb (midnight y m 1) t && ltb t (midnight y' m' 1) = true
  <-> year t = y /\ month t = m.
Proof.
  intros Hv Hnext Hm. destruct t as [ty tm td th tmi ts tu].
  unfold valid, check_date_fields, check_time_fields in Hv. simpl in Hv.
  repeat (apply andb_prop in Hv as [Hv ?]).
  unfold leb, ltb, compare, fields, midnight. cbn -[Z.compare].
  apply Z.leb_le in Hv, H0, H1, H2, H3, H4.
  repeat (apply andb_prop in H as [H ?]).
  repeat match goal with H : (_ <=? _) = true |- _ => apply Z.leb_le in H end.
  unfold MINYEAR, MAXYEAR in *.
  rewrite andb_true_iff.
  repeat (match goal with
          | |- context [?a ?= ?b] => destruct (Z.compare_spec a b)
          end; cbn -[Z.compare]);
    split; intros; destruct_and?; try discriminate; try lia; try (split; lia);
    try (split; reflexivity).
Qed.

(** C3. [month_label_to_range] returns the half-open range from the
    first day of the month of the label to the first day of the next
    month: for every label that [strptime] reads as month [m] of year
    [y] (December 9999 apart, whose next month is past [MAXYEAR]) the
    result is [(start, end)] with [start] the midnight of [y-m-01], and
    a valid datetime [t] satisfies [start <= t < end] exactly when it
    lies in that month of that year.  "Mar 2023" gives
    [2023-03-01, 2023-04-01) and "Dec 2023" gives
    [2023-12-01, 2024-01-01). *)
Theorem month_label_to_range_half_open :
  (forall label dt,
      strptime_b_Y label = Ok dt ->
      month dt <> 12 \/ year dt < MAXYEAR ->
      exists start end_,
        month_label_to_range label = Ok (start, end_)
        /\ start = midnight (year dt) (month dt) 1
        /\ day end_ = 1
        /\ forall t, valid t = true ->
             (leb start t && ltb t end_ = true
              <-> year t = year dt /\ month t = month dt))
  /\ month_label_to_range "Mar 2023"
     = Ok (midnight 2023 3 1, midnight 2023 4 1)
  /\ month_label_to_range "Dec 2023"
     = Ok (midnight 2023 12 1, midnight 2024 1 1).
Proof.
  split; [|split; reflexivity].
  intros label dt Hp Hmax. unfold month_label_to_range. rewrite Hp. simpl.
  destruct (strptime_b_Y_ok _ _ Hp) as (Hdt & Hy & Hm).
  assert (Ht : hour dt = 0 /\ minute dt = 0 /\ second dt = 0
               /\ microsecond dt = 0)
    by (rewrite Hdt; simpl; auto).
  destruct Ht as (Hh & Hmi & Hs & Hus).
  unfold replace. rewrite (check_first_of_month _ _ Hy Hm). simpl.
  rewrite Hh, Hmi, Hs, Hus. unfold MAXYEAR in Hmax.
  destruct (month dt =? 12) eqn:E12.
  - apply Z.eqb_eq in E12.
    rewrite check_first_of_month by lia. simpl.
    eexists _, _. split; [reflexivity|].
    split; [reflexivity|]. split; [reflexivity|]. intros t Hv.
    apply in_month_range; [assumption| right; lia | lia].
  - apply Z.eqb_neq in E12.
    rewrite check_first_of_month by lia. simpl.
    eexists _, _. split; [reflexivity|].
    split; [reflexivity|]. split; [reflexivity|]. intros t Hv.
    apply in_month_range; [assumption| left; lia | lia].
Qed.

Lemma month_label_to_range_half_open_witness :
  exists start end_,
    month_label_to_range "Feb 2023" = Ok (start, end_)
    /\ start = midnight 2023 2 1
    /\ day end_ = 1
    /\ forall t, valid t = true ->
         (leb start t && ltb t end_ = true
          <-> year t = 2023 /\ month t = 2).
Proof.
  apply (proj1 month_label_to_range_half_open "Feb 2023" (midnight 2023 2 1));
    [reflexivity | left; discriminate].
Defined.

End MonthRange.

(** ** Dates: parsing what [isoformat] prints *)

Section Dates.

Lemma digit_cases k :
  0 <= k <= 9 ->
  k = 0 \/ k = 1 \/ k = 2 \/ k = 3 \/ k = 4 \/ k = 5 \/ k = 6 \/ k = 7
  \/ k = 8 \/ k = 9.
Proof. lia. Qed.

Ltac each_digit k H :=
  apply digit_cases in H;
  repeat (destruct H as [H|H]; [subst k|]); [..|subst k].

Lemma isdigit_digit_chr k : 0 <= k <= 9 -> isdigit (digit_chr k) = true.
Proof. intros Hk. each_digit k Hk; reflexivity. Qed.

Lemma digit_val_digit_chr k : 0 <= k <= 9 -> digit_val (digit_chr k) = k.
Proof. intros Hk. each_digit k Hk; reflexivity. Qed.

Lemma isspace_digit_chr k : 0 <= k <= 9 -> isspace (digit_chr k) = false.
Proof. intros Hk. each_digit k Hk; reflexivity. Qed.

Lemma chars_of_chars l : chars (of_chars l) = l.
Proof. apply list_ascii_of_string_of_list_ascii. Qed.

Lemma mod_10_digit x : 0 <= x mod 10 <= 9.
Proof. pose proof (Z.mod_pos_bound x 10). lia. Qed.

Lemma re_Y_fmt_04d y rest :
  0 <= y <= 9999 -> re_Y (fmt_04d y ++ rest) = [(y, rest)].
Proof.
  intros Hy. unfold re_Y, fmt_04d. cbn [app].
  rewrite !isdigit_digit_chr, !digit_val_digit_chr by apply mod_10_digit.
  cbn [andb]. do 2 f_equal. Z.to_euclidean_division_equations. lia.
Qed.

Lemma month_cases m :
  1 <= m <= 12 ->
  m = 1 \/ m = 2 \/ m = 3 \/ m = 4 \/ m = 5 \/ m = 6 \/ m = 7 \/ m = 8
  \/ m = 9 \/ m = 10 \/ m = 11 \/ m = 12.
Proof. lia. Qed.

Lemma day_cases d :
  1 <= d <= 31 ->
  (d = 1 \/ d = 2 \/ d = 3 \/ d = 4 \/ d = 5 \/ d = 6 \/ d = 7 \/ d = 8)
  \/ (d = 9 \/ d = 10 \/ d = 11 \/ d = 12 \/ d = 13 \/ d = 14 \/ d = 15 \/ d = 16)
  \/ (d = 17 \/ d = 18 \/ d = 19 \/ d = 20 \/ d = 21 \/ d = 22 \/ d = 23 \/ d = 24)
  \/ (d = 25 \/ d = 26 \/ d = 27 \/ d = 28 \/ d = 29 \/ d = 30 \/ d = 31).
Proof. lia. Qed.

(** After the year, the month and the day of an ISO date are read back. *)
Lemma month_day_read_back (y m d : Z) :
  1 <= m <= 12 -> 1 <= d <= 31 ->
  whole_match
    (m_bind (m_lit "-") (fun _ =>
     m_bind re_m (fun m' => m_bind (m_lit "-") (fun _ =>
     m_bind re_d (fun d' => m_ret (y, m', d')))))
       ("-"%char :: fmt_02d m ++ "-"%char :: fmt_02d d))
  = Ok (y, m, d).
Proof.
  intros Hm Hd. apply month_cases in Hm. apply day_cases in Hd.
  repeat (destruct Hm as [Hm|Hm]; [subst m|]); [..|subst m];
    (repeat (destruct Hd as [Hd|Hd]); subst d; vm_compute; reflexivity).
Qed.

Lemma check_date_fields_bounds y m d :
  check_date_fields y m d = true ->
  1 <= y <= 9999 /\ 1 <= m <= 12 /\ 1 <= d <= 31.
Proof.
  unfold check_date_fields, MINYEAR, MAXYEAR, days_in_month. intros Hc.
  repeat (apply andb_prop in Hc as [Hc ?]).
  repeat match goal with
         | H : context [if ?b then _ else _] |- _ => destruct b
         end; lia.
Qed.

Lemma strptime_isoformat y m d :
  check_date_fields y m d = true ->
  strptime_Y_m_d (date_isoformat (midnight y m d)) = Ok (midnight y m d).
Proof.
  intros Hc. destruct (check_date_fields_bounds _ _ _ Hc) as (Hy & Hm & Hd).
  unfold strptime_Y_m_d, date_isoformat. rewrite chars_of_chars.
  cbn [year month day midnight].
  unfold m_bind at 1. rewrite re_Y_fmt_04d by lia.
  cbn [map concat]. rewrite app_nil_r.
  rewrite month_day_read_back by assumption.
  cbn [rbind]. unfold new_datetime. rewrite Hc. reflexivity.
Qed.

Lemma strip_isoformat y m d :
  check_date_fields y m d = true ->
  strip (date_isoformat (midnight y m d)) = date_isoformat (midnight y m d).
Proof.
  intros Hc. destruct (check_date_fields_bounds _ _ _ Hc) as (Hy & Hm & Hd).
  unfold strip, date_isoformat. rewrite chars_of_chars. f_equal.
  cbn [year month day midnight]. unfold fmt_04d, fmt_02d, strip_chars.
  cbn [app lstrip_chars].
  rewrite (isspace_digit_chr (y / 1000 mod 10)) by apply mod_10_digit.
  cbn [rev app lstrip_chars].
  rewrite (isspace_digit_chr (d mod 10)) by apply mod_10_digit.
  reflexivity.
Qed.

(** [_parse_date] returns the midnight of a valid calendar date. *)
Lemma parse_date_valid s dt :
  Scrape._parse_date s = Some dt ->
  valid dt = true /\ dt = midnight (year dt) (month dt) (day dt).
Proof.
  unfold Scrape._parse_date, strptime_Y_m_d, rbind.
  destruct (whole_match _) as [[[y m] d]|]; [|discriminate].
  unfold try_none. destruct (new_datetime y m d) as [t|] eqn:En; [|discriminate].
  intros [= <-]. apply new_datetime_ok in En as [-> Hc].
  unfold valid. cbn [year month day hour minute second microsecond midnight].
  rewrite Hc. split; reflexivity.
Qed.

(** The stored date, parsed again, is the date it was printed from. *)
Lemma parse_date_isoformat s dt :
  Scrape._parse_date s = Some dt ->
  Scrape._parse_date (date_isoformat dt) = Some dt.
Proof.
  intros Hp. destruct (parse_date_valid _ _ Hp) as [Hv Hdt].
  unfold valid in Hv. apply andb_prop in Hv as [Hc _].
  rewrite Hdt. unfold Scrape._parse_date.
  rewrite strip_isoformat, strptime_isoformat by assumption. reflexivity.
Qed.

End Dates.

(** ** Dropping duplicates *)

Section Dedup.
Context {A K : Type} `{EqDecision K} (key : A -> K).

Local Abbreviation kept seen l :=
  (drop_marked (duplicated_from seen (map key l)) l).

Lemma kept_cons seen x l :
  kept seen (x :: l) =
    if bool_decide (key x ∈ seen) then kept (key x :: seen) l
    else x :: kept (key x :: seen) l.
Proof. reflexivity. Qed.

Lemma kept_sublist seen l : kept seen l `sublist_of` l.
Proof.
  revert seen. induction l as [|x l IH]; intros seen; [constructor|].
  rewrite kept_cons. destruct (bool_decide _).
  - apply sublist_cons. apply IH.
  - apply sublist_skip. apply IH.
Qed.

Lemma kept_fresh seen l x : x ∈ kept seen l -> key x ∉ seen.
Proof.
  revert seen. induction l as [|y l IH]; intros seen Hx.
  - simpl in Hx. inversion Hx.
  - rewrite kept_cons in Hx. case_bool_decide as Hy.
    + apply IH in Hx. set_solver.
    + apply elem_of_cons in Hx as [->|Hx]; [assumption|].
      apply IH in Hx. set_solver.
Qed.

Lemma kept_NoDup seen l : NoDup (map key (kept seen l)).
Proof.
  revert seen. induction l as [|y l IH]; intros seen; [constructor|].
  rewrite kept_cons. case_bool_decide as Hy; [apply IH|].
  simpl. constructor; [|apply IH].
  intros Hin. apply list_elem_of_fmap in Hin as (z & Hz & Hin).
  apply kept_fresh in Hin. rewrite <- Hz in Hin. set_solver.
Qed.

Lemma kept_complete seen l x :
  x ∈ l -> key x ∈ seen \/ key x ∈ map key (kept seen l).
Proof.
  revert seen. induction l as [|y l IH]; intros seen Hx; [inversion Hx|].
  rewrite kept_cons. apply elem_of_cons in Hx as [->|Hx].
  - case_bool_decide as Hy; [left; assumption|]. right. simpl. left.
  - destruct (IH (key y :: seen) Hx) as [Hs|Hk].
    + apply elem_of_cons in Hs as [Hs|Hs]; [|left; assumption].
      case_bool_decide as Hy; [left; congruence|].
      right. simpl. rewrite Hs. left.
    + right. case_bool_decide; [assumption|]. simpl. right. assumption.
Qed.

Lemma kept_first seen l x :
  x ∈ kept seen l ->
  exists i, l !! i = Some x
            /\ forall j y, (j < i)%nat -> l !! j = Some y -> key y <> key x.
Proof.
  revert seen. induction l as [|y l IH]; intros seen Hx; [inversion Hx|].
  rewrite kept_cons in Hx.
  assert (Hrec : x ∈ kept (key y :: seen) l ->
                 exists i, (y :: l) !! i = Some x
                   /\ forall j z, (j < i)%nat -> (y :: l) !! j = Some z ->
                                  key z <> key x).
  { intros Hin. destruct (IH _ Hin) as (i & Hi & Hlt).
    exists (S i). split; [exact Hi|].
    intros [|j] z Hj Hz.
    - injection Hz as <-. apply kept_fresh in Hin. set_solver.
    - apply (Hlt j); [lia|exact Hz]. }
  case_bool_decide as Hy; [auto|].
  apply elem_of_cons in Hx as [->|Hx]; [|auto].
  exists 0%nat. split; [reflexivity|]. intros j z Hj. lia.
Qed.

End Dedup.

Section Frames.
Context {A : Type} {rec : DictRecord A}.

(** On the records of a frame built by [from_records], dropping
    duplicates never raises when the columns of [subset] are keys. *)
Lemma drop_duplicates_from_records (subset : list string) (l : list A) :
  filter (fun c => c ∉ keys) subset = [] ->
  keys <> [] ->
  drop_duplicates subset (from_records l) =
    Ok (mk_frame (match l with [] => [] | _ => keys end)
          (drop_marked (duplicated (map (subset_key subset) l)) l)).
Proof.
  intros Hsub Hk. destruct l as [|x l]; [reflexivity|].
  unfold drop_duplicates, from_records, empty. simpl.
  destruct keys as [|k ks] eqn:E; [congruence|].
  rewrite Hsub. reflexivity.
Qed.

End Frames.

(** ** The product driver *)

Section Products.
Import Scrape.
Context {F W : Type} {lib : Lib F} {site : Site W}.

Lemma scrape_row_unparseable page (st : products_state F) row :
  row_parseable row = false -> scrape_row page st row = st.
Proof.
  unfold row_parseable, scrape_row. destruct (row_a row) as [a|]; [|reflexivity].
  intros ->. reflexivity.
Qed.

(** A row adds at most one product, at the end, and counts it. *)
Lemma scrape_row_appends page (st : products_state F) row :
  exists new,
    products (scrape_row page st row) = products st ++ new
    /\ page_added (scrape_row page st row) = page_added st + Z.of_nat (length new)
    /\ Forall (fun p => p_page p = page) new.
Proof.
  unfold scrape_row. destruct (row_a row) as [a|].
  2:{ exists []. rewrite app_nil_r. simpl. split; [reflexivity|split; [lia|constructor]]. }
  destruct (negb _).
  { exists []. rewrite app_nil_r. simpl. split; [reflexivity|split; [lia|constructor]]. }
  destruct (bool_decide _).
  { exists []. rewrite app_nil_r. simpl. split; [reflexivity|split; [lia|constructor]]. }
  eexists [_]. simpl. split; [reflexivity|]. split; [lia|].
  constructor; [reflexivity|constructor].
Qed.

Lemma foldl_scrape_row_appends page rows (st : products_state F) :
  exists new,
    products (foldl (scrape_row page) st rows) = products st ++ new
    /\ page_added (foldl (scrape_row page) st rows)
       = page_added st + Z.of_nat (length new)
    /\ Forall (fun p => p_page p = page) new.
Proof.
  revert st. induction rows as [|row rows IH]; intros st.
  - exists []. rewrite app_nil_r. simpl. split; [reflexivity|split; [lia|constructor]].
  - simpl. destruct (IH (scrape_row page st row)) as (n2 & Hp2 & Ha2 & Hf2).
    destruct (scrape_row_appends page st row) as (n1 & Hp1 & Ha1 & Hf1).
    exists (n1 ++ n2). rewrite Hp2, Hp1, Ha2, Ha1, length_app, app_assoc.
    split; [reflexivity|]. split; [lia|]. apply Forall_app; auto.
Qed.

(** What a page adds: the new products, all of that page, and their count. *)
Lemma scrape_rows_appends page rows (st : products_state F) :
  exists new,
    products (scrape_rows page st rows) = products st ++ new
    /\ page_added (scrape_rows page st rows) = Z.of_nat (length new)
    /\ Forall (fun p => p_page p = page) new.
Proof.
  unfold scrape_rows.
  destruct (foldl_scrape_row_appends page rows
              (mk_pstate (products st) (seen_urls st) 0)) as (new & Hp & Ha & Hf).
  exists new. simpl in *. rewrite Hp, Ha. auto.
Qed.

Lemma scrape_rows_none_added page rows (st : products_state F) :
  page_added (scrape_rows page st rows) = 0 ->
  products (scrape_rows page st rows) = products st.
Proof.
  destruct (scrape_rows_appends page rows st) as (new & Hp & Ha & _).
  rewrite Ha, Hp. intros Hz. destruct new; [apply app_nil_r|simpl in Hz; lia].
Qed.

Lemma scrape_rows_unparseable page rows (st : products_state F) :
  forallb (fun row => negb (row_parseable row)) rows = true ->
  page_added (scrape_rows page st rows) = 0.
Proof.
  unfold scrape_rows. set (st0 := mk_pstate (products st) (seen_urls st) 0).
  intros Hall. assert (Hst : foldl (scrape_row page) st0 rows = st0).
  { generalize st0. clear st0.
    induction rows as [|row rows IH]; intros st0; [reflexivity|].
    simpl in *. apply andb_prop in Hall as [Hr Hall].
    apply negb_true_iff in Hr. rewrite scrape_row_unparseable by exact Hr.
    apply IH. exact Hall. }
  rewrite Hst. reflexivity.
Qed.

Lemma product_gets_app l1 l2 :
  product_gets (l1 ++ l2) = product_gets l1 ++ product_gets l2.
Proof. apply omap_app. Qed.

(** The loop only adds to the log; it fetches a prefix of the pages it is
    given, and an answer that ends the pagination is the last one
    fetched. *)
Lemma products_loop_log pages (st : products_state F) (w : W) log :
  exists evs,
    (products_loop pages st w log).2 = log ++ evs
    /\ map fst (product_gets evs) `prefix_of` pages
    /\ forall i p r,
         product_gets evs !! i = Some (p, r) ->
         products_page_ends r = true ->
         S i = length (product_gets evs).
Proof.
  revert st w log. induction pages as [|page pages IH]; intros st w log.
  { exists []. simpl. rewrite app_nil_r. split; [reflexivity|].
    split; [apply prefix_nil|]. intros i p r Hi. inversion Hi. }
  simpl. destruct (get_products page w) as [w' r] eqn:Eget.
  assert (Hlast : exists evs : list event,
             log ++ [EvGetProducts page r] = log ++ evs
             /\ map fst (product_gets evs) `prefix_of` page :: pages
             /\ forall i p r0,
                  product_gets evs !! i = Some (p, r0) ->
                  products_page_ends r0 = true ->
                  S i = length (product_gets evs)).
  { exists [EvGetProducts page r]. split; [reflexivity|]. simpl.
    split; [apply prefix_cons, prefix_nil|].
    intros [|i] p r0 Hi _; [reflexivity|inversion Hi]. }
  destruct (negb (status_code r =? 200)) eqn:Est; [exact Hlast|].
  destruct (body r) as [|row rows] eqn:Eb; [exact Hlast|].
  destruct (page_added (scrape_rows page st (row :: rows)) =? 0) eqn:Eadd;
    [exact Hlast|].
  destruct (IH (scrape_rows page st (row :: rows)) w'
              ((log ++ [EvGetProducts page r]) ++ [EvSleep]))
    as (evs & Hlog & Hpre & Hend).
  exists (EvGetProducts page r :: EvSleep :: evs). split.
  { rewrite Hlog, <- !app_assoc. reflexivity. }
  simpl. split; [apply prefix_cons, Hpre|].
  intros [|i] p r0 Hi Hends.
  - injection Hi as <- <-. exfalso.
    unfold products_page_ends in Hends. rewrite Est, Eb in Hends.
    rewrite orb_false_l in Hends.
    apply (scrape_rows_unparseable page (row :: rows) st) in Hends.
    rewrite Hends in Eadd. discriminate.
  - f_equal. apply (Hend i p r0 Hi Hends).
Qed.

(** C4. The product driver fetches at most [max_pages] pages, which are
    the pages 1, 2, ... in order, and an answer that is not a success or
    has no parseable product row is the last one it fetches.  When pages
    1 and 2 each add a product and page 3 adds none (or is not a success),
    with [max_pages] at least 3, the driver fetches exactly these three
    pages and returns the products of page 1 followed by those of page 2,
    as they were accumulated. *)
Theorem products_pagination_stops (max_pages : Z) (w : W) :
  let run := scrape_products_html (F := F) max_pages w in
  let gets := product_gets run.2 in
  (length gets <= Z.to_nat max_pages)%nat
  /\ (forall i p r, gets !! i = Some (p, r) -> p = Z.of_nat i + 1)
  /\ (forall i p r,
        gets !! i = Some (p, r) -> products_page_ends r = true ->
        S i = length gets)
  /\ (forall w1 r1 w2 r2 w3 r3,
        get_products 1 w = (w1, r1) ->
        get_products 2 w1 = (w2, r2) ->
        get_products 3 w2 = (w3, r3) ->
        3 <= max_pages ->
        let st1 := scrape_rows 1 (mk_pstate [] ∅ 0) (body r1) in
        let st2 := scrape_rows 2 st1 (body r2) in
        status_code r1 = 200 -> page_added st1 <> 0 ->
        status_code r2 = 200 -> page_added st2 <> 0 ->
        status_code r3 <> 200 \/ page_added (scrape_rows 3 st2 (body r3)) = 0 ->
        run = (products st2, w3,
               [EvGetProducts 1 r1; EvSleep; EvGetProducts 2 r2; EvSleep;
                EvGetProducts 3 r3])
        /\ exists from1 from2,
             products st2 = from1 ++ from2
             /\ Forall (fun p => p_page p = 1) from1
             /\ Forall (fun p => p_page p = 2) from2).
Proof.
  intros run gets.
  assert (Hrun : run.2 = (products_loop (seqZ 1 max_pages)
                            (mk_pstate (F := F) [] ∅ 0) w []).2).
  { unfold run, scrape_products_html.
    destruct (products_loop _ _ _ _) as [[st w'] log]. reflexivity. }
  destruct (products_loop_log (seqZ 1 max_pages) (mk_pstate [] ∅ 0) w [])
    as (evs & Hlog & Hpre & Hend).
  rewrite <- Hrun in Hlog. simpl in Hlog. fold gets in Hlog.
  assert (Hg : gets = product_gets evs) by (unfold gets; rewrite Hlog; reflexivity).
  rewrite <- Hg in Hpre, Hend.
  split; [|split; [|split]].
  - apply prefix_length in Hpre.
    rewrite length_map, length_seqZ in Hpre. exact Hpre.
  - intros i p r Hi.
    assert (Hp : map fst gets !! i = Some p)
      by (rewrite list_lookup_fmap, Hi; reflexivity).
    apply (prefix_lookup_Some _ _ _ _ Hp) in Hpre.
    apply lookup_seqZ in Hpre. lia.
  - exact Hend.
  - intros w1 r1 w2 r2 w3 r3 G1 G2 G3 Hmax st1 st2 S1 A1 S2 A2 H3.
    split.
    + unfold run, scrape_products_html.
      rewrite (seqZ_cons 1) by lia. rewrite (seqZ_cons (Z.succ 1)) by lia.
      rewrite (seqZ_cons (Z.succ (Z.succ 1))) by lia.
      change (Z.succ 1) with 2. change (Z.succ 2) with 3.
      cbn [products_loop]. rewrite G1. rewrite S1. cbn [negb Z.eqb Pos.eqb].
      destruct (body r1) as [|row1 rows1] eqn:Eb1.
      { exfalso. apply A1. reflexivity. }
      fold st1. apply Z.eqb_neq in A1. rewrite A1.
      cbn [products_loop]. rewrite G2. rewrite S2. cbn [negb Z.eqb Pos.eqb].
      destruct (body r2) as [|row2 rows2] eqn:Eb2.
      { exfalso. apply A2. reflexivity. }
      fold st2. apply Z.eqb_neq in A2. rewrite A2.
      cbn [products_loop]. rewrite G3.
      destruct (negb (status_code r3 =? 200)) eqn:E3; [reflexivity|].
      destruct H3 as [H3|H3].
      { apply negb_false_iff, Z.eqb_eq in E3. contradiction. }
      destruct (body r3) as [|row3 rows3] eqn:Eb3; [reflexivity|].
      rewrite H3. cbn [Z.eqb].
      rewrite (scrape_rows_none_added _ _ _ H3). reflexivity.
    + destruct (scrape_rows_appends 1 (body r1) (mk_pstate (F := F) [] ∅ 0))
        as (n1 & Hp1 & _ & Hf1).
      destruct (scrape_rows_appends 2 (body r2) st1) as (n2 & Hp2 & _ & Hf2).
      exists n1, n2. fold st1 in Hp1. fold st2 in Hp2.
      rewrite Hp2, Hp1. simpl. auto.
Qed.

End Products.

(** ** The review driver *)

Section Reviews.
Import Scrape.
Context {W : Type} {site : Site W}.

Lemma scrape_edge_cases all_reviews e :
  scrape_edge all_reviews e = all_reviews
  \/ exists rv, review_of_edge e rv /\ scrape_edge all_reviews e = all_reviews ++ [rv].
Proof.
  unfold scrape_edge, review_of_edge.
  destruct (n_date (node_of e)) as [d|]; [|left; reflexivity].
  destruct (n_text (node_of e)) as [t|]; [|left; reflexivity].
  destruct (truthy d) eqn:Ed; [|left; reflexivity].
  destruct (truthy t) eqn:Et; [|left; reflexivity].
  simpl. destruct (_parse_date d) as [dt|] eqn:Ep; [|left; reflexivity].
  right. eexists. split; [|reflexivity]. exists d, t, dt. auto 10.
Qed.

(** Every record the edges of a page add comes from one of these edges. *)
Lemma foldl_scrape_edge_from es all_reviews rv :
  rv ∈ foldl scrape_edge all_reviews es ->
  rv ∈ all_reviews \/ exists e, e ∈ es /\ review_of_edge e rv.
Proof.
  revert all_reviews. induction es as [|e es IH]; intros all_reviews Hin.
  { left. exact Hin. }
  simpl in Hin. apply IH in Hin as [Hin|(e' & He' & Hrv)].
  - destruct (scrape_edge_cases all_reviews e) as [->|(rv' & Hrv' & ->)] in Hin.
    + left. exact Hin.
    + apply elem_of_app in Hin as [Hin|Hin]; [left; exact Hin|].
      apply list_elem_of_singleton in Hin as ->.
      right. exists e. split; [left|exact Hrv'].
  - right. exists e'. split; [right; exact He'|exact Hrv].
Qed.

Lemma graphql_posts_app l1 l2 :
  graphql_posts (l1 ++ l2) = graphql_posts l1 ++ graphql_posts l2.
Proof. apply omap_app. Qed.

(** The shape of a run of the loop: what it adds to the log. *)
Lemma reviews_loop_log first rounds all_reviews after (w : W) log :
  exists evs,
    (reviews_loop first rounds all_reviews after w log).2 = log ++ evs
    /\ let posts := graphql_posts evs in
       (length posts <= rounds)%nat
       /\ (0 < rounds -> 0 < length posts)%nat
       /\ (forall a r, posts !! 0%nat = Some (a, r) -> a = after)
       /\ (forall i a r,
             posts !! i = Some (a, r) ->
             (S i = length posts <-> reviews_page_ends r = true \/ S i = rounds))
       /\ (forall i a r a' r',
             posts !! i = Some (a, r) -> posts !! S i = Some (a', r') ->
             a' = next_cursor (body r)).
Proof.
  revert all_reviews after w log.
  induction rounds as [|n IH]; intros all_reviews after w log.
  { exists []. simpl. rewrite app_nil_r. split; [reflexivity|].
    split; [lia|]. split; [lia|]. split; [intros a r Hi; inversion Hi|].
    split; [intros i a r Hi; inversion Hi|intros i a r a' r' Hi; inversion Hi]. }
  simpl. destruct (post_graphql first after w) as [w' r] eqn:Epost.
  assert (Hlast : reviews_page_ends r = true ->
            exists evs : list event,
              log ++ [EvPostGraphql first after r] = log ++ evs
              /\ let posts := graphql_posts evs in
                 (length posts <= S n)%nat
                 /\ (0 < S n -> 0 < length posts)%nat
                 /\ (forall a r0, posts !! 0%nat = Some (a, r0) -> a = after)
                 /\ (forall i a r0,
                       posts !! i = Some (a, r0) ->
                       (S i = length posts
                        <-> reviews_page_ends r0 = true \/ S i = S n))
                 /\ (forall i a r0 a' r',
                       posts !! i = Some (a, r0) ->
                       posts !! S i = Some (a', r') ->
                       a' = next_cursor (body r0))).
  { intros Hends. exists [EvPostGraphql first after r].
    split; [reflexivity|]. simpl.
    split; [lia|]. split; [lia|].
    split; [intros a r0 [= <- <-]; reflexivity|].
    split.
    - intros [|i] a r0 Hi; [|inversion Hi]. injection Hi as <- <-.
      split; [auto|reflexivity].
    - intros i a r0 a' r' _ Hi. inversion Hi. }
  unfold reviews_page_ends in Hlast.
  destruct (negb (status_code r =? 200)) eqn:Est; [apply Hlast; reflexivity|].
  destruct (has_errors (body r)) eqn:Eerr; [apply Hlast; reflexivity|].
  destruct (edges (body r)) as [|e es] eqn:Eed; [apply Hlast; reflexivity|].
  destruct (no_next_page (body r)) eqn:Enext; [apply Hlast; reflexivity|].
  clear Hlast.
  destruct (IH (foldl scrape_edge all_reviews (e :: es)) (next_cursor (body r)) w'
              ((log ++ [EvPostGraphql first after r]) ++ [EvSleep]))
    as (evs & Hlog & Hlen & Hpos & Hfirst & Hstop & Hnext).
  exists (EvPostGraphql first after r :: EvSleep :: evs). split.
  { rewrite Hlog, <- !app_assoc. reflexivity. }
  simpl. split; [lia|]. split; [lia|].
  split; [intros a r0 [= <- <-]; reflexivity|].
  assert (Hnot : reviews_page_ends r = false).
  { unfold reviews_page_ends. rewrite Est, Eerr, Eed, Enext. reflexivity. }
  split.
  - intros [|i] a r0 Hi.
    + injection Hi as <- <-. rewrite Hnot. split.
      * intros Hl. right. destruct n; [reflexivity|]. lia.
      * intros [Hf|Hn]; [discriminate|]. injection Hn as <-. lia.
    + specialize (Hstop i a r0 Hi). split.
      * intros Hl. injection Hl as Hl. apply Hstop in Hl as [Hl|Hl]; [auto|].
        right. lia.
      * intros [Hf|Hn]; f_equal; apply Hstop; [auto|]. right. lia.
  - intros [|i] a r0 a' r' Hi Hi'.
    + injection Hi as <- <-. apply (Hfirst a' r' Hi').
    + apply (Hnext i a r0 a' r' Hi Hi').
Qed.

(** Where the collected records come from. *)
Lemma reviews_loop_from first rounds all_reviews after (w : W) log rv :
  rv ∈ (reviews_loop first rounds all_reviews after w log).1.1 ->
  rv ∈ all_reviews
  \/ exists a r e,
       (a, r) ∈ graphql_posts (reviews_loop first rounds all_reviews after w log).2
       /\ e ∈ edges (body r) /\ review_of_edge e rv.
Proof.
  revert all_reviews after w log.
  induction rounds as [|n IH]; intros all_reviews after w log; [left; assumption|].
  simpl. destruct (post_graphql first after w) as [w' r] eqn:Epost.
  destruct (negb (status_code r =? 200)); [left; assumption|].
  destruct (has_errors (body r)); [left; assumption|].
  destruct (edges (body r)) as [|e es] eqn:Eed; [left; assumption|].
  assert (Hpage : forall rv0,
            rv0 ∈ foldl scrape_edge all_reviews (e :: es) ->
            forall l : list event,
              (exists l1 l2, l = l1 ++ EvPostGraphql first after r :: l2) ->
              rv0 ∈ all_reviews
              \/ exists a r0 e0, (a, r0) ∈ graphql_posts l
                                 /\ e0 ∈ edges (body r0) /\ review_of_edge e0 rv0).
  { intros rv0 Hin l (l1 & l2 & ->).
    apply foldl_scrape_edge_from in Hin as [Hin|(e0 & He0 & Hrv)]; [auto|].
    right. exists after, r, e0. rewrite Eed. split; [|auto].
    rewrite graphql_posts_app. apply elem_of_app. right. simpl. left. }
  destruct (no_next_page (body r)).
  { simpl. intros Hin. apply (Hpage rv Hin). exists log, []. reflexivity. }
  intros Hin. apply IH in Hin as [Hin|Hin]; [|auto].
  apply (Hpage rv Hin).
  destruct (reviews_loop_log first n (foldl scrape_edge all_reviews (e :: es))
              (next_cursor (body r)) w'
              ((log ++ [EvPostGraphql first after r]) ++ [EvSleep]))
    as (evs & -> & _).
  exists log, (EvSleep :: evs). rewrite <- !app_assoc. reflexivity.
Qed.

Lemma reviews_page_ends_iff (r : response gql) :
  reviews_page_ends r = true
  <-> status_code r <> 200 \/ has_errors (body r) = true
      \/ edges (body r) = [] \/ hasNextPage (body r) = Some false
      \/ hasNextPage (body r) = None.
Proof.
  unfold reviews_page_ends, no_next_page, is_nil.
  rewrite !orb_true_iff, negb_true_iff, Z.eqb_neq.
  destruct (edges (body r)), (hasNextPage (body r)) as [[|]|];
    intuition (try discriminate; try congruence).
Qed.

(** C5 (amended). The review loop posts at most [max_pages] queries, the
    first one without a cursor.  It is left after a query exactly when the
    answer is not a success, has a top-level error field, has no edge, or
    has a [hasNextPage] flag that is false or absent, or when the maximum
    number of pages is reached.  Otherwise the next query carries the end
    cursor of the answer when there is one and it is not empty, and the
    cursor of the last edge when the end cursor is absent (or empty). *)
Theorem reviews_pagination_stops (max_pages first : Z) (w : W) :
  let posts := graphql_posts (collect_reviews max_pages first w).2 in
  (length posts <= Z.to_nat max_pages)%nat
  /\ (forall a r, posts !! 0%nat = Some (a, r) -> a = None)
  /\ (forall i a r,
        posts !! i = Some (a, r) ->
        (S i = length posts
         <-> (status_code r <> 200 \/ has_errors (body r) = true
              \/ edges (body r) = [] \/ hasNextPage (body r) = Some false
              \/ hasNextPage (body r) = None)
             \/ S i = Z.to_nat max_pages))
  /\ (forall i a r a' r',
        posts !! i = Some (a, r) -> posts !! S i = Some (a', r') ->
        (forall c, endCursor (body r) = Some c -> c <> ""%string -> a' = Some c)
        /\ (endCursor (body r) = None \/ endCursor (body r) = Some ""%string ->
            exists e, last (edges (body r)) = Some e /\ a' = e_cursor e)).
Proof.
  intros posts.
  destruct (reviews_loop_log first (Z.to_nat max_pages) [] None w [])
    as (evs & Hlog & Hlen & _ & Hfirst & Hstop & Hnext).
  assert (Hposts : posts = graphql_posts evs).
  { unfold posts, collect_reviews. rewrite Hlog. reflexivity. }
  rewrite <- Hposts in Hlen, Hfirst, Hstop, Hnext.
  split; [exact Hlen|]. split; [exact Hfirst|]. split.
  { intros i a r Hi. rewrite <- reviews_page_ends_iff. apply (Hstop i a r Hi). }
  intros i a r a' r' Hi Hi'.
  rewrite (Hnext i a r a' r' Hi Hi'). unfold next_cursor. split.
  - intros c -> Hc. simpl. destruct c; [contradiction|reflexivity].
  - intros Hend.
    assert (Hcur : truthy_opt (endCursor (body r)) = false)
      by (destruct Hend as [-> | ->]; reflexivity).
    rewrite Hcur.
    assert (Hne : edges (body r) <> []).
    { intros Hnil. assert (Hl : S i = length posts).
      { apply (Hstop i a r Hi). left. apply reviews_page_ends_iff. auto. }
      apply lookup_lt_Some in Hi'. lia. }
    apply last_is_Some in Hne as [e He]. exists e. rewrite He. auto.
Qed.

Lemma length_int_column col : length (int_column col) = length col.
Proof.
  unfold int_column. repeat destruct (forallb _ _); apply length_map.
Qed.

Lemma rows_from_records {A} {rec : DictRecord A} (l : list A) :
  rows (from_records l) = l.
Proof. destruct l; reflexivity. Qed.

Lemma zip_rows_keys l cs :
  length cs = length l ->
  map review_key (zip_with review_to_row l cs)
  = map (fun rv => (r_date rv, r_text rv)) l.
Proof.
  revert cs. induction l as [|rv l IH]; intros [|c cs] Hlen;
    try discriminate; [reflexivity|].
  simpl. f_equal. apply IH. simpl in Hlen. lia.
Qed.

Lemma frame_rows_keys all_reviews :
  map review_key (rows (reviews_frame all_reviews))
  = map (fun rv => (r_date rv, r_text rv)) all_reviews.
Proof.
  unfold reviews_frame. rewrite rows_from_records.
  apply zip_rows_keys. rewrite length_int_column. apply length_map.
Qed.

Lemma subset_key_review (a b : review_row) :
  subset_key ["date"; "text"]%string a = subset_key ["date"; "text"]%string b
  <-> review_key a = review_key b.
Proof.
  unfold review_key. cbn. split; intros Heq; injection Heq as -> ->; reflexivity.
Qed.

Lemma scrape_reviews_api_result (max_pages first : Z) (w : W) :
  (scrape_reviews_api max_pages first w).1.1
  = Ok (drop_marked
          (duplicated (map (subset_key ["date"; "text"]%string)
                           (rows (reviews_frame
                                    (collect_reviews max_pages first w).1.1))))
          (rows (reviews_frame (collect_reviews max_pages first w).1.1))).
Proof.
  unfold scrape_reviews_api.
  destruct (collect_reviews max_pages first w) as [[all_reviews w'] log].
  cbn [fst snd]. unfold reviews_frame at 1.
  rewrite drop_duplicates_from_records; [|reflexivity|discriminate].
  cbn [rbind to_dict_records rows]. unfold reviews_frame.
  rewrite rows_from_records. reflexivity.
Qed.

(** C6. The list the review driver returns has no two rows with the same
    (date, text); it is the collected list, in its order, with each row
    dropped that has the (date, text) of an earlier one: every collected
    pair is represented, by the first row that carries it.  The rows carry
    the date and text of the collected records, and every collected record
    was made from an edge whose date and text are present and not empty
    and whose date parses, so the other edges were left out before. *)
Theorem reviews_deduplicated (max_pages first : Z) (w : W) :
  let collected := (collect_reviews max_pages first w).1.1 in
  let log := (collect_reviews max_pages first w).2 in
  let all_rows := rows (reviews_frame collected) in
  exists out,
    (scrape_reviews_api max_pages first w).1.1 = Ok out
    /\ NoDup (map review_key out)
    /\ out `sublist_of` all_rows
    /\ (forall row, row ∈ all_rows -> review_key row ∈ map review_key out)
    /\ (forall row, row ∈ out ->
          exists i, all_rows !! i = Some row
            /\ forall j row', (j < i)%nat -> all_rows !! j = Some row' ->
                              review_key row' <> review_key row)
    /\ map review_key all_rows = map (fun rv => (r_date rv, r_text rv)) collected
    /\ (forall rv, rv ∈ collected ->
          exists a r e, (a, r) ∈ graphql_posts log
                        /\ e ∈ edges (body r) /\ review_of_edge e rv).
Proof.
  intros collected log all_rows. eexists.
  split; [apply scrape_reviews_api_result|].
  fold collected. fold all_rows.
  set (key := subset_key ["date"; "text"]%string).
  split.
  { pose proof (kept_NoDup key [] all_rows) as Hnd. unfold duplicated.
    assert (Hmap : map key (drop_marked (duplicated_from [] (map key all_rows)) all_rows)
                   = map (fun k => [Some (CStr k.1); Some (CStr k.2)])
                       (map review_key
                          (drop_marked (duplicated_from [] (map key all_rows)) all_rows))).
    { rewrite map_map. apply map_ext. intros row. reflexivity. }
    rewrite Hmap in Hnd. apply (NoDup_fmap_1 _ _ Hnd). }
  split; [apply kept_sublist|].
  split.
  { intros row Hrow.
    destruct (kept_complete key [] all_rows row Hrow) as [Hin|Hin];
      [inversion Hin|].
    apply list_elem_of_fmap in Hin as (row' & Hk & Hin).
    apply subset_key_review in Hk. rewrite Hk.
    apply list_elem_of_fmap_2. exact Hin. }
  split.
  { intros row Hrow. destruct (kept_first key [] all_rows row Hrow) as (i & Hi & Hlt).
    exists i. split; [exact Hi|]. intros j row' Hj Hrow' Hk.
    apply (Hlt j row' Hj Hrow'). apply subset_key_review. exact Hk. }
  split; [apply frame_rows_keys|].
  intros rv Hrv. unfold collected, collect_reviews in Hrv.
  apply reviews_loop_from in Hrv as [Hrv|Hrv]; [inversion Hrv|exact Hrv].
Qed.

(** The dates of the returned rows are ISO calendar dates that parse. *)
Lemma reviews_dates_parse (max_pages first : Z) (w : W) out row :
  (scrape_reviews_api max_pages first w).1.1 = Ok out ->
  row ∈ out ->
  exists dt, valid dt = true
             /\ rr_date row = date_isoformat dt
             /\ _parse_date (rr_date row) = Some dt.
Proof.
  intros Hout Hrow. rewrite scrape_reviews_api_result in Hout.
  injection Hout as <-.
  pose proof (kept_sublist (subset_key ["date"; "text"]%string) []
                (rows (reviews_frame (collect_reviews max_pages first w).1.1)))
    as Hsub.
  apply (elem_of_sublist _ _ _ Hrow) in Hsub.
  apply (list_elem_of_fmap_2 review_key) in Hsub.
  change (review_key <$> ?l) with (map review_key l) in Hsub.
  rewrite frame_rows_keys in Hsub.
  assert (Hfrom : forall rv, rv ∈ (collect_reviews max_pages first w).1.1 ->
            exists a r e,
              (a, r) ∈ graphql_posts (collect_reviews max_pages first w).2
              /\ e ∈ edges (body r) /\ review_of_edge e rv).
  { intros rv Hrv. unfold collect_reviews in Hrv.
    apply reviews_loop_from in Hrv as [Hrv|Hrv]; [inversion Hrv|exact Hrv]. }
  apply list_elem_of_fmap in Hsub as (rv & Hk & Hrv).
  destruct (Hfrom rv Hrv) as (a & r & e & _ & _ & (d & t & dt & _ & _ & _ & _ & Hp & ->)).
  injection Hk as Hd _. simpl in Hd. exists dt.
  rewrite Hd. split; [apply (parse_date_valid _ _ Hp)|].
  split; [reflexivity|]. apply (parse_date_isoformat _ _ Hp).
Qed.

End Reviews.

(** C1. The review driver keeps a review whose text is made of blanks: the
    text is tested before it is stripped, so the row it returns has the
    empty text.  (The testimonial driver strips first and tests after.) *)
Theorem reviews_blank_text_is_kept :
  (Scrape.scrape_reviews_api (site := Scrape.scripted_site) 50 20
     Demo.blank_text_answers).1.1
  = Ok [Scrape.mk_review_row (Some "r1") "2023-02-10" "" (CInt 5)].
Proof. vm_compute. reflexivity. Qed.

(** C5, as stated, fails: an answer that is a success, has no error field,
    has an edge and has no [hasNextPage] flag at all ends the loop after
    one query, with 49 rounds left; and after an answer whose end cursor
    is present but empty the next query carries the cursor of the last
    edge, not the end cursor. *)
Lemma reviews_stop_without_flag :
  (exists a r,
      Scrape.graphql_posts
        (Scrape.collect_reviews (site := Scrape.scripted_site) 50 20
           Demo.no_page_info_answers).2 = [(a, r)]
      /\ Scrape.reviews_page_ends_flag_false r = false
      /\ (1 < Z.to_nat 50)%nat)
  /\ (exists r r',
        Scrape.graphql_posts
          (Scrape.collect_reviews (site := Scrape.scripted_site) 50 20
             Demo.empty_end_cursor_answers).2
        = [(None, r); (Some "c1"%string, r')]
        /\ Scrape.endCursor (Scrape.body r) = Some ""%string).
Proof.
  split.
  - eexists _, _. split; [vm_compute; reflexivity|].
    split; [vm_compute; reflexivity|]. vm_compute. lia.
  - eexists _, _. split; vm_compute; reflexivity.
Qed.

Lemma reviews_pagination_stops_witness :
  let posts :=
    Scrape.graphql_posts
      (Scrape.collect_reviews (site := Scrape.scripted_site) 50 20
         Demo.two_review_pages).2 in
  posts !! 0%nat = Some (None, Demo.reviews_page_1)
  /\ posts !! 1%nat = Some (Some "c2"%string, Demo.reviews_page_2)
  /\ Scrape.endCursor (Scrape.body Demo.reviews_page_1) = Some "c2"%string
  /\ "c2"%string <> ""%string
  /\ Some "c2"%string = Some "c2"%string.
Proof.
  intros posts.
  assert (H0 : posts !! 0%nat = Some (None, Demo.reviews_page_1))
    by (vm_compute; reflexivity).
  assert (H1 : posts !! 1%nat = Some (Some "c2"%string, Demo.reviews_page_2))
    by (vm_compute; reflexivity).
  assert (Hc : "c2"%string <> ""%string) by discriminate.
  split; [exact H0|]. split; [exact H1|]. split; [reflexivity|].
  split; [exact Hc|].
  exact (proj1 (proj2 (proj2 (proj2
           (reviews_pagination_stops (site := Scrape.scripted_site) 50 20
              Demo.two_review_pages)))
           0%nat _ _ _ _ H0 H1) "c2"%string eq_refl Hc).
Defined.

Lemma reviews_deduplicated_witness :
  let collected :=
    (Scrape.collect_reviews (site := Scrape.scripted_site) 50 20
       Demo.two_review_pages).1.1 in
  let all_rows := rows (Scrape.reviews_frame collected) in
  exists out,
    (Scrape.scrape_reviews_api (site := Scrape.scripted_site) 50 20
       Demo.two_review_pages).1.1 = Ok out
    /\ length all_rows = 4%nat
    /\ length out = 3%nat
    /\ NoDup (map Scrape.review_key out).
Proof.
  intros collected all_rows.
  destruct (reviews_deduplicated (site := Scrape.scripted_site) 50 20
              Demo.two_review_pages) as (out & Hout & Hnd & _).
  exists out. split; [exact Hout|]. split; [vm_compute; reflexivity|].
  split; [|exact Hnd].
  rewrite scrape_reviews_api_result in Hout. injection Hout as <-.
  vm_compute. reflexivity.
Defined.

(** ** The three drivers together *)

Section Drivers.
Import Scrape.
Context {F W : Type} {lib : Lib F} {site : Site W}.


Lemma scrape_testimonials_api_result (max_pages : Z) (w : W) :
  (scrape_testimonials_api max_pages w).1.1
  = Ok (drop_marked
          (duplicated (map (subset_key ["text"]%string)
                           (collect_testimonials max_pages w).1.1))
          (collect_testimonials max_pages w).1.1).
Proof.
  unfold scrape_testimonials_api.
  destruct (collect_testimonials max_pages w) as [[testimonials w'] log].
  cbn [fst snd].
  rewrite drop_duplicates_from_records; [|reflexivity|discriminate].
  reflexivity.
Qed.

(** C9 (amended). No driver raises when nothing was collected: the
    testimonial driver and the review driver return the empty list when
    their loops collected no record, in particular when the first answer
    is not a success or is empty, and so does the product driver. *)
Theorem empty_collections_are_returned (max_pages first : Z) (w : W) :
  ((collect_testimonials max_pages w).1.1 = [] ->
   (scrape_testimonials_api max_pages w).1.1 = Ok [])
  /\ ((collect_reviews max_pages first w).1.1 = [] ->
      (scrape_reviews_api max_pages first w).1.1 = Ok [])
  /\ (status_code (get_testimonials 1 w).2 <> 200
      \/ body (get_testimonials 1 w).2 = [] ->
      (scrape_testimonials_api max_pages w).1.1 = Ok [])
  /\ (status_code (post_graphql first None w).2 <> 200
      \/ edges (body (post_graphql first None w).2) = [] ->
      (scrape_reviews_api max_pages first w).1.1 = Ok [])
  /\ (status_code (get_products 1 w).2 <> 200
      \/ body (get_products 1 w).2 = [] ->
      (scrape_products_html (F := F) max_pages w).1.1 = []).
Proof.
  assert (Ht : (collect_testimonials max_pages w).1.1 = [] ->
               (scrape_testimonials_api max_pages w).1.1 = Ok []).
  { intros Hc. rewrite scrape_testimonials_api_result, Hc. reflexivity. }
  assert (Hr : (collect_reviews max_pages first w).1.1 = [] ->
               (scrape_reviews_api max_pages first w).1.1 = Ok []).
  { intros Hc. rewrite scrape_reviews_api_result, Hc. reflexivity. }
  split; [exact Ht|]. split; [exact Hr|]. split; [|split].
  - intros Hfirst. apply Ht. unfold collect_testimonials.
    destruct (Z_lt_le_dec 0 max_pages) as [Hpos|Hneg];
      [|rewrite seqZ_nil by lia; reflexivity].
    rewrite seqZ_cons by lia. cbn [testimonials_loop].
    destruct (get_testimonials 1 w) as [w' r]. cbn [snd] in Hfirst.
    destruct (negb (status_code r =? 200)) eqn:Est; [reflexivity|].
    apply negb_false_iff, Z.eqb_eq in Est.
    destruct Hfirst as [Hs|Hb]; [contradiction|]. rewrite Hb. reflexivity.
  - intros Hfirst. apply Hr. unfold collect_reviews.
    destruct (Z.to_nat max_pages) as [|n]; [reflexivity|].
    cbn [reviews_loop].
    destruct (post_graphql first None w) as [w' r]. cbn [snd] in Hfirst.
    destruct (negb (status_code r =? 200)) eqn:Est; [reflexivity|].
    apply negb_false_iff, Z.eqb_eq in Est.
    destruct Hfirst as [Hs|Hb]; [contradiction|]. rewrite Hb.
    destruct (has_errors (body r)); reflexivity.
  - intros Hfirst. unfold scrape_products_html.
    destruct (Z_lt_le_dec 0 max_pages) as [Hpos|Hneg];
      [|rewrite seqZ_nil by lia; reflexivity].
    rewrite seqZ_cons by lia. cbn [products_loop].
    destruct (get_products 1 w) as [w' r]. cbn [snd] in Hfirst.
    destruct (negb (status_code r =? 200)) eqn:Est; [reflexivity|].
    apply negb_false_iff, Z.eqb_eq in Est.
    destruct Hfirst as [Hs|Hb]; [contradiction|]. rewrite Hb. reflexivity.
Qed.

End Drivers.

(** ** Two runs of the aggregator *)

Section TwoRuns.
Import Scrape.
Context {F W1 W2 : Type} {lib : Lib F} {site1 : Site W1} {site2 : Site W2}.

(** What a run of [main] that returns has written: the outputs of the
    three drivers, run one after the other, the time and the base URL. *)
Lemma main_writes_outputs {W} {site : Site W} (now : string) (w : W)
    (s : snapshot F) :
  (main now w).1.1 = Ok s ->
  let products_run := scrape_products_html (F := F) 50 w in
  let testimonials_run := scrape_testimonials_api 50 products_run.1.2 in
  let reviews_run := scrape_reviews_api 50 20 testimonials_run.1.2 in
  s_products s = products_run.1.1
  /\ testimonials_run.1.1 = Ok (s_testimonials s)
  /\ reviews_run.1.1 = Ok (s_reviews s)
  /\ s_scraped_at s = now
  /\ s_source s = BASE.
Proof.
  unfold main.
  destruct (scrape_products_html 50 w) as [[ps wp] logp]. cbn [fst snd].
  destruct (scrape_testimonials_api 50 wp) as [[[ts|e] wt] logt];
    cbn [fst snd]; [|discriminate].
  destruct (scrape_reviews_api 50 20 wt) as [[[rs|e] wr] logr];
    cbn [fst snd rbind]; [|discriminate].
  intros [= <-]. cbn. auto.
Qed.


End TwoRuns.



Lemma products_pagination_stops_witness :
  (3 <= 50)
  /\ Scrape.product_gets
       (Scrape.scrape_products_html (lib := Scrape.toy_lib)
          (site := Scrape.scripted_site) 50 Demo.three_product_pages).2
     = [(1, Demo.products_page_1); (2, Demo.products_page_2);
        (3, Demo.products_page_3)]
  /\ map Scrape.p_url
       (Scrape.scrape_products_html (lib := Scrape.toy_lib)
          (site := Scrape.scripted_site) 50 Demo.three_product_pages).1.1
     = ["https://web-scraping.dev/product/1";
        "https://web-scraping.dev/product/2"]%string.
Proof.
  assert (Hmax : 3 <= 50) by lia. split; [exact Hmax|].
  pose proof (products_pagination_stops (lib := Scrape.toy_lib)
                (site := Scrape.scripted_site) 50 Demo.three_product_pages)
    as (_ & _ & _ & Hscenario).
  edestruct Hscenario as [Hrun _];
    [reflexivity | reflexivity | reflexivity | exact Hmax
     | reflexivity | vm_compute; discriminate
     | reflexivity | vm_compute; discriminate
     | right; vm_compute; reflexivity | ].
  rewrite Hrun. split; vm_compute; reflexivity.
Defined.

Lemma empty_collections_are_returned_witness :
  403 <> 200
  /\ (Scrape.scrape_testimonials_api (site := Scrape.scripted_site) 50
        Demo.forbidden_site).1.1 = Ok [].
Proof.
  assert (Hs : 403 <> 200) by discriminate. split; [exact Hs|].
  apply (proj1 (proj2 (proj2
           (empty_collections_are_returned (F := string)
              (lib := Scrape.toy_lib) (site := Scrape.scripted_site)
              50 20 Demo.forbidden_site)))).
  left. exact Hs.
Defined.

(** C9, as stated, fails: on a site that refuses the first request the
    testimonial driver and the review driver return the empty list, they
    raise nothing. *)
Lemma refused_drivers_return_empty :
  (Scrape.scrape_testimonials_api (site := Scrape.scripted_site) 50
     Demo.forbidden_site).1.1 = Ok []
  /\ (Scrape.scrape_reviews_api (site := Scrape.scripted_site) 50 20
        Demo.forbidden_site).1.1 = Ok []
  /\ ~ (exists e,
          (Scrape.scrape_testimonials_api (site := Scrape.scripted_site) 50
             Demo.forbidden_site).1.1 = Raise e).
Proof.
  split; [vm_compute; reflexivity|]. split; [vm_compute; reflexivity|].
  intros [e He]. vm_compute in He. discriminate.
Qed.

(** ** The dashboard: labels and missing keys *)

Section Dashboard.
Import App.
Context {F : Type} {applib : AppLib F}.

Lemma LABELS_lookup (l : string) :
  LABELS !! l =
    if decide (l = "POSITIVE") then Some "Positive"
    else if decide (l = "NEGATIVE") then Some "Negative"
    else None.
Proof.
  unfold LABELS. repeat case_decide; subst; simplify_map_eq; reflexivity.
Qed.

(** C7. The label normalisation of the dashboard maps "POSITIVE" to
    "Positive" and "NEGATIVE" to "Negative" and leaves every other label
    as it is, for every list of labels the classifier returns. *)
Theorem normalize_labels_spec (sentiment : list string) :
  normalize_labels sentiment =
    map (fun l => if decide (l = "POSITIVE") then "Positive"
                  else if decide (l = "NEGATIVE") then "Negative"
                  else l) sentiment.
Proof.
  unfold normalize_labels, fillna, series_map.
  induction sentiment as [|l ls IH]; [reflexivity|].
  simpl. f_equal; [|exact IH].
  rewrite LABELS_lookup. repeat case_decide; reflexivity.
Qed.

(** C10. A document without the key "products" makes the Products view
    raise [KeyError] (after its header); a document without the key
    "testimonials" or "reviews" makes those views show what they show
    for an empty list, and they return normally. *)
Theorem missing_keys_asymmetric :
  (forall selected ts rs,
      main Products selected (mk_data Absent ts rs)
      = ([st_header "Products"], Raised (KeyError "products")))
  /\ (forall selected ps rs,
        main Testimonials selected (mk_data ps Absent rs)
        = main Testimonials selected (mk_data ps (Val []) rs)
        /\ main Testimonials selected (mk_data ps Absent rs)
           = ([st_subheader (Some "Testimonials")], Done))
  /\ (forall selected ps ts,
        main Reviews selected (mk_data ps ts Absent)
        = main Reviews selected (mk_data ps ts (Val []))
        /\ main Reviews selected (mk_data ps ts Absent)
           = ([st_subheader (Some "Reviews (2023) + Sentiment Analysis");
               st_warning "No reviews found in data.json"], Done)).
Proof.
  repeat split; reflexivity.
Qed.

End Dashboard.

(** ** More on the product driver *)

Section ProductsMore.
Import Scrape.
Context {F W : Type} {lib : Lib F} {site : Site W}.

Lemma scrape_row_inv page (st : products_state F) row :
  products_inv st -> products_inv (scrape_row page st row).
Proof.
  intros (Hseen & Hnd & Hpath). unfold scrape_row.
  destruct (row_a row) as [a|]; [|repeat split; assumption].
  destruct (product_path_ok _) eqn:Eok; cbn [negb]; [|repeat split; assumption].
  case_bool_decide as Hin; [repeat split; assumption|].
  unfold products_inv. cbn [products seen_urls]. split; [|split].
  - intros p Hp. apply elem_of_app in Hp as [Hp|Hp].
    + apply elem_of_union. right. apply Hseen, Hp.
    + apply list_elem_of_singleton in Hp as ->. cbn [p_url].
      apply elem_of_union. left. apply elem_of_singleton. reflexivity.
  - rewrite map_app. apply NoDup_app. split; [exact Hnd|]. split.
    + intros u Hu Hu'. cbn in Hu'. apply list_elem_of_singleton in Hu' as ->.
      apply list_elem_of_fmap in Hu as (p & Hp & Hin').
      apply Hin. rewrite Hp. apply Hseen, Hin'.
    + cbn. apply NoDup_singleton.
  - apply Forall_app. split; [exact Hpath|].
    constructor; [exact Eok|constructor].
Qed.

Lemma scrape_rows_inv page (st : products_state F) rows :
  products_inv st -> products_inv (scrape_rows page st rows).
Proof.
  intros Hinv. unfold scrape_rows.
  assert (H0 : products_inv (mk_pstate (products st) (seen_urls st) 0))
    by exact Hinv.
  revert H0. generalize (mk_pstate (products st) (seen_urls st) 0).
  induction rows as [|row rows IH]; intros st0 H0; [exact H0|].
  cbn [foldl]. apply IH, scrape_row_inv, H0.
Qed.

(** What every page keeps true, the loop keeps true. *)
Lemma products_loop_keeps (P : products_state F -> Prop) pages st (w : W) log :
  P st ->
  (forall page st' rows, P st' -> P (scrape_rows page st' rows)) ->
  P (products_loop pages st w log).1.1.
Proof.
  intros Hst Hstep. revert st w log Hst.
  induction pages as [|page pages IH]; intros st w log Hst; [exact Hst|].
  cbn [products_loop]. destruct (get_products page w) as [w' r].
  destruct (negb _); [exact Hst|].
  destruct (body r) as [|row rows]; [exact Hst|].
  destruct (_ =? 0); [apply Hstep, Hst|]. apply IH, Hstep, Hst.
Qed.

Lemma scrape_products_html_inv (max_pages : Z) (w : W) :
  exists st, products_inv st
             /\ (scrape_products_html (F := F) max_pages w).1.1 = products st.
Proof.
  unfold scrape_products_html.
  pose proof (products_loop_keeps products_inv (seqZ 1 max_pages)
                (mk_pstate [] ∅ 0) w []) as Hk.
  destruct (products_loop _ _ _ _) as [[st w'] log]. exists st.
  split; [|reflexivity]. apply Hk.
  - unfold products_inv. cbn. split; [intros p Hp; inversion Hp|].
    split; constructor.
  - intros page st' rows. apply scrape_rows_inv.
Qed.

(** X1. No two products of the returned list have the same URL, and the
    URL of each has the path of a product page, [/product/<digits>]. *)
Theorem products_urls_unique (max_pages : Z) (w : W) :
  let ps := (scrape_products_html (F := F) max_pages w).1.1 in
  NoDup (map p_url ps)
  /\ Forall (fun p => product_path_ok (urlparse_path (p_url p)) = true) ps.
Proof.
  destruct (scrape_products_html_inv max_pages w) as (st & (_ & Hnd & Hp) & ->).
  split; assumption.
Qed.

Lemma StronglySorted_seqZ a n : StronglySorted Z.lt (seqZ a n).
Proof.
  remember (Z.to_nat n) as k eqn:Hk. revert a n Hk.
  induction k as [|k IH]; intros a n Hk.
  - rewrite seqZ_nil by lia. constructor.
  - rewrite seqZ_cons by lia. constructor; [apply IH; lia|].
    apply Forall_seqZ. intros m Hm. lia.
Qed.

Lemma same_page_sorted page (l : list (product F)) :
  Forall (fun p => p_page p = page) l ->
  StronglySorted (fun p q => p_page p <= p_page q) l.
Proof.
  induction 1 as [|p l Hp Hl IH]; constructor; [exact IH|].
  eapply Forall_impl; [exact Hl|]. intros q Hq. cbn in Hq. lia.
Qed.

(** The loop appends products of the pages it is given, page after page. *)
Lemma products_loop_pages pages (st : products_state F) (w : W) log :
  StronglySorted Z.lt pages ->
  exists new,
    products (products_loop pages st w log).1.1 = products st ++ new
    /\ Forall (fun p => p_page p ∈ pages) new
    /\ StronglySorted (fun p q => p_page p <= p_page q) new.
Proof.
  revert st w log. induction pages as [|page pages IH]; intros st w log Hs.
  { exists []. rewrite app_nil_r. repeat split; constructor. }
  assert (Hnone : exists new : list (product F),
             products st = products st ++ new
             /\ Forall (fun p => p_page p ∈ page :: pages) new
             /\ StronglySorted (fun p q => p_page p <= p_page q) new).
  { exists []. rewrite app_nil_r. repeat split; constructor. }
  apply StronglySorted_cons in Hs as [Hlt Hs].
  cbn [products_loop]. destruct (get_products page w) as [w' r].
  destruct (negb _); [exact Hnone|].
  destruct (body r) as [|row rows]; [exact Hnone|].
  destruct (scrape_rows_appends page (row :: rows) st) as (n1 & Hp1 & _ & Hf1).
  assert (Hin1 : Forall (fun p => p_page p ∈ page :: pages) n1).
  { eapply Forall_impl; [exact Hf1|]. intros p ->. left. }
  destruct (_ =? 0).
  { exists n1. split; [exact Hp1|]. split; [exact Hin1|].
    apply (same_page_sorted page), Hf1. }
  destruct (IH (scrape_rows page st (row :: rows)) w'
              ((log ++ [EvGetProducts page r]) ++ [EvSleep]) Hs)
    as (n2 & Hp2 & Hf2 & Hs2).
  exists (n1 ++ n2). rewrite Hp2, Hp1, app_assoc. split; [reflexivity|].
  split.
  - apply Forall_app. split; [exact Hin1|].
    eapply Forall_impl; [exact Hf2|]. intros p Hp. right. exact Hp.
  - apply StronglySorted_app. split; [|split; [|exact Hs2]].
    + intros p q Hp Hq.
      pose proof (proj1 (Forall_forall _ _) Hf1 p Hp) as Hpp.
      pose proof (proj1 (Forall_forall _ _) Hf2 q Hq) as Hqq.
      pose proof (proj1 (Forall_forall _ _) Hlt _ Hqq) as Hpq.
      cbn in Hpp. lia.
    + apply (same_page_sorted page), Hf1.
Qed.

Lemma scrape_row_from page (st : products_state F) row p :
  p ∈ products (scrape_row page st row) ->
  p ∈ products st \/ product_of_row page row p.
Proof.
  unfold scrape_row. destruct (row_a row) as [a|] eqn:Ea; [|auto].
  cbv zeta. destruct (product_path_ok _) eqn:Eok; cbn [negb]; [|auto].
  case_bool_decide as Hseen; [auto|].
  cbn [products]. intros Hin. apply elem_of_app in Hin as [Hin|Hin]; [auto|].
  apply list_elem_of_singleton in Hin as ->. right. exists a.
  unfold row_url. rewrite Ea. cbv zeta. rewrite Eok. auto.
Qed.

Lemma foldl_scrape_row_from page rows (st : products_state F) p :
  p ∈ products (foldl (scrape_row page) st rows) ->
  p ∈ products st \/ exists row, row ∈ rows /\ product_of_row page row p.
Proof.
  revert st. induction rows as [|row rows IH]; intros st Hin; [left; exact Hin|].
  cbn [foldl] in Hin. apply IH in Hin as [Hin|(row' & Hr & Hp)].
  - apply scrape_row_from in Hin as [Hin|Hin]; [left; exact Hin|].
    right. exists row. split; [left|exact Hin].
  - right. exists row'. split; [right; exact Hr|exact Hp].
Qed.

Lemma scrape_rows_from page (st : products_state F) rows p :
  p ∈ products (scrape_rows page st rows) ->
  p ∈ products st \/ exists row, row ∈ rows /\ product_of_row page row p.
Proof.
  unfold scrape_rows. intros Hin. apply foldl_scrape_row_from in Hin.
  exact Hin.
Qed.

(** The row loop records the URL of every row it parses, and forgets
    none. *)
Lemma scrape_row_seen page (st : products_state F) row u :
  u ∈ seen_urls st \/ row_url row = Some u ->
  u ∈ seen_urls (scrape_row page st row).
Proof.
  unfold scrape_row, row_url. destruct (row_a row) as [a|].
  2:{ intros [Hu|Hu]; [exact Hu|discriminate]. }
  cbv zeta. destruct (product_path_ok _) eqn:Eok; cbn [negb].
  2:{ intros [Hu|Hu]; [exact Hu|discriminate]. }
  case_bool_decide as Hseen.
  - intros [Hu|Hu]; [exact Hu|]. injection Hu as <-. exact Hseen.
  - cbn [seen_urls]. intros [Hu|Hu]; [set_solver|].
    injection Hu as <-. set_solver.
Qed.

Lemma foldl_scrape_row_seen page rows (st : products_state F) u :
  u ∈ seen_urls st \/ (exists row, row ∈ rows /\ row_url row = Some u) ->
  u ∈ seen_urls (foldl (scrape_row page) st rows).
Proof.
  revert st. induction rows as [|row rows IH]; intros st Hu.
  { destruct Hu as [Hu|(row & Hr & _)]; [exact Hu|inversion Hr]. }
  cbn [foldl]. apply IH. destruct Hu as [Hu|(row' & Hr & Hu)].
  - left. apply scrape_row_seen. auto.
  - apply elem_of_cons in Hr as [->|Hr].
    + left. apply scrape_row_seen. auto.
    + right. exists row'. auto.
Qed.

Lemma scrape_rows_seen page (st : products_state F) rows row u :
  row ∈ rows -> row_url row = Some u ->
  u ∈ seen_urls (scrape_rows page st rows).
Proof.
  intros Hr Hu. unfold scrape_rows. apply foldl_scrape_row_seen.
  right. exists row. auto.
Qed.

Lemma scrape_row_listed page (st : products_state F) row :
  seen_listed st -> seen_listed (scrape_row page st row).
Proof.
  intros Hinv. unfold scrape_row. destruct (row_a row) as [a|]; [|exact Hinv].
  cbv zeta. destruct (product_path_ok _); cbn [negb]; [|exact Hinv].
  case_bool_decide as Hseen; [exact Hinv|].
  intros u Hu. cbn [seen_urls products] in *.
  apply elem_of_union in Hu as [Hu|Hu].
  - apply elem_of_singleton in Hu as ->.
    eexists. split; [apply elem_of_app; right; left|reflexivity].
  - destruct (Hinv u Hu) as (p & Hp & Hpu). exists p. split; [|exact Hpu].
    apply elem_of_app. left. exact Hp.
Qed.

Lemma scrape_rows_listed page (st : products_state F) rows :
  seen_listed st -> seen_listed (scrape_rows page st rows).
Proof.
  intros Hinv. unfold scrape_rows.
  assert (H0 : seen_listed (mk_pstate (products st) (seen_urls st) 0))
    by exact Hinv.
  revert H0. generalize (mk_pstate (products st) (seen_urls st) 0).
  induction rows as [|row rows IH]; intros st0 H0; [exact H0|].
  cbn [foldl]. apply IH, scrape_row_listed, H0.
Qed.

Lemma scrape_rows_before page pages (st : products_state F) rows :
  Forall (Z.lt page) pages ->
  listed_before (page :: pages) st ->
  listed_before pages (scrape_rows page st rows).
Proof.
  intros Hlt Hb p k Hp Hk.
  destruct (scrape_rows_appends page rows st) as (n1 & Hp1 & _ & Hf1).
  rewrite Hp1 in Hp. apply elem_of_app in Hp as [Hp|Hp].
  - apply (Hb p k Hp). right. exact Hk.
  - rewrite (proj1 (Forall_forall _ _) Hf1 p Hp).
    apply (proj1 (Forall_forall _ _) Hlt k Hk).
Qed.

(** Where the loop found each product it adds, and which page first
    showed each URL. *)
Lemma products_loop_found pages (st : products_state F) (w : W) log :
  StronglySorted Z.lt pages ->
  seen_listed st ->
  listed_before pages st ->
  exists evs new,
    (products_loop pages st w log).2 = log ++ evs
    /\ products (products_loop pages st w log).1.1 = products st ++ new
    /\ (forall p, p ∈ new ->
          exists r row, (p_page p, r) ∈ product_gets evs
                        /\ status_code r = 200
                        /\ row ∈ body r /\ product_of_row (p_page p) row p)
    /\ (forall k r row u,
          (k, r) ∈ product_gets evs -> status_code r = 200 ->
          row ∈ body r -> row_url row = Some u ->
          exists p, p ∈ products st ++ new /\ p_url p = u /\ p_page p <= k).
Proof.
  revert st w log. induction pages as [|page pages IH]; intros st w log Hs Hinv Hb.
  { exists [], []. rewrite !app_nil_r. cbn.
    repeat split; intros; exfalso; set_solver. }
  apply StronglySorted_cons in Hs as [Hlt Hs].
  cbn [products_loop]. destruct (get_products page w) as [w' r] eqn:Eget.
  (* the cases in which the loop is left at this page *)
  assert (Hbreak : forall st1 : products_state F,
            products st1 = products st ->
            (status_code r = 200 -> forall row u, row ∈ body r ->
               row_url row = Some u -> u ∈ seen_urls st1) ->
            seen_listed st1 ->
            exists evs new,
              log ++ [EvGetProducts page r] = log ++ evs
              /\ products st1 = products st ++ new
              /\ (forall p, p ∈ new ->
                    exists r0 row, (p_page p, r0) ∈ product_gets evs
                                   /\ status_code r0 = 200
                                   /\ row ∈ body r0
                                   /\ product_of_row (p_page p) row p)
              /\ (forall k r0 row u,
                    (k, r0) ∈ product_gets evs -> status_code r0 = 200 ->
                    row ∈ body r0 -> row_url row = Some u ->
                    exists p, p ∈ products st ++ new /\ p_url p = u
                              /\ p_page p <= k)).
  { intros st1 Hp1 Hrows Hinv1. exists [EvGetProducts page r], [].
    rewrite app_nil_r. split; [reflexivity|]. split; [exact Hp1|].
    split; [intros p Hp; inversion Hp|].
    intros k r0 row u Hk Hs0 Hrow Hu. cbn in Hk.
    apply list_elem_of_singleton in Hk. injection Hk as -> ->.
    destruct (Hinv1 u (Hrows Hs0 row u Hrow Hu)) as (p & Hp & Hpu).
    rewrite Hp1 in Hp. exists p. split; [exact Hp|]. split; [exact Hpu|].
    assert (p_page p < page) by (apply (Hb p page Hp); left). lia. }
  destruct (negb (status_code r =? 200)) eqn:Est.
  { apply (Hbreak st eq_refl); [|exact Hinv].
    intros Hs0. apply negb_true_iff, Z.eqb_neq in Est. contradiction. }
  apply negb_false_iff, Z.eqb_eq in Est.
  destruct (body r) as [|row0 rows0] eqn:Eb.
  { apply (Hbreak st eq_refl); [|exact Hinv]. intros _ row u Hrow. inversion Hrow. }
  rewrite <- Eb in *. clear Eb row0 rows0.
  set (st' := scrape_rows page st (body r)).
  assert (Hinv' : seen_listed st') by apply scrape_rows_listed, Hinv.
  assert (Hb' : listed_before pages st') by (apply scrape_rows_before; assumption).
  destruct (scrape_rows_appends page (body r) st) as (n1 & Hp1 & Ha1 & Hf1).
  fold st' in Hp1, Ha1.
  destruct (page_added st' =? 0) eqn:Eadd.
  { apply Z.eqb_eq in Eadd. apply (Hbreak st'); [|intros _ row u; apply scrape_rows_seen|exact Hinv'].
    rewrite Hp1. destruct n1; [apply app_nil_r|cbn in Ha1; lia]. }
  destruct (IH st' w' ((log ++ [EvGetProducts page r]) ++ [EvSleep]) Hs Hinv' Hb')
    as (evs & n2 & Hlog & Hp2 & Hfrom & Hfirst).
  exists (EvGetProducts page r :: EvSleep :: evs), (n1 ++ n2).
  split; [rewrite Hlog, <- !app_assoc; reflexivity|].
  split; [rewrite Hp2, Hp1, app_assoc; reflexivity|].
  change (product_gets (EvGetProducts page r :: EvSleep :: evs))
    with ((page, r) :: product_gets evs).
  split.
  - intros p Hp. apply elem_of_app in Hp as [Hp|Hp].
    + assert (Hpage : p_page p = page)
        by exact (proj1 (Forall_forall _ _) Hf1 p Hp).
      assert (Hin : p ∈ products st') by (rewrite Hp1; set_solver).
      apply scrape_rows_from in Hin as [Hin|(row & Hr & Hrow)].
      * assert (p_page p < page) by (apply (Hb p page Hin); left). lia.
      * exists r, row. rewrite Hpage. split; [left|]. auto.
    + destruct (Hfrom p Hp) as (r0 & row & Hk & H200 & Hr & Hrow).
      exists r0, row. split; [right; exact Hk|]. auto.
  - intros k r0 row u Hk H200 Hrow Hu.
    apply elem_of_cons in Hk as [Hk|Hk].
    + injection Hk as -> ->.
      destruct (Hinv' u (scrape_rows_seen page st (body r) row u Hrow Hu))
        as (p & Hp & Hpu).
      exists p. rewrite Hp1 in Hp.
      split; [rewrite app_assoc; apply elem_of_app; left; exact Hp|].
      split; [exact Hpu|].
      apply elem_of_app in Hp as [Hold|Hnew].
      * assert (p_page p < page) by (apply (Hb p page Hold); left). lia.
      * rewrite (proj1 (Forall_forall _ _) Hf1 p Hnew). lia.
    + destruct (Hfirst k r0 row u Hk H200 Hrow Hu) as (p & Hp & Hpu & Hle).
      exists p. rewrite Hp1, <- app_assoc in Hp. auto.
Qed.

(** The pauses of the loop: the request that leaves the loop is the one
    request without a pause after it. *)
Lemma products_loop_pause_shape pages (st : products_state F) (w : W) log :
  StronglySorted Z.lt pages ->
  listed_before pages st ->
  exists evs,
    (products_loop pages st w log).2 = log ++ evs
    /\ let ps := products (products_loop pages st w log).1.1 in
       let requests := filter (fun e => is_request e = true) evs in
       match last (product_gets evs) with
       | None => evs = [] /\ pages = []
       | Some (k, r) =>
           if page_added_to k r ps
           then evs = flat_map with_pause requests /\ last pages = Some k
           else evs ++ [EvSleep] = flat_map with_pause requests
       end.
Proof.
  revert st w log. induction pages as [|page pages IH]; intros st w log Hs Hb.
  { exists []. rewrite app_nil_r. split; [reflexivity|]. cbn. auto. }
  apply StronglySorted_cons in Hs as [Hlt Hs].
  cbn [products_loop]. destruct (get_products page w) as [w' r] eqn:Eget.
  assert (Hbreak : forall st1 : products_state F,
            products st1 = products st ->
            exists evs,
              log ++ [EvGetProducts page r] = log ++ evs
              /\ let ps := products st1 in
                 let requests := filter (fun e => is_request e = true) evs in
                 match last (product_gets evs) with
                 | None => evs = [] /\ page :: pages = []
                 | Some (k, r) =>
                     if page_added_to k r ps
                     then evs = flat_map with_pause requests
                          /\ last (page :: pages) = Some k
                     else evs ++ [EvSleep] = flat_map with_pause requests
                 end).
  { intros st1 Hp1. exists [EvGetProducts page r]. split; [reflexivity|].
    cbn zeta. change (last (product_gets [EvGetProducts page r]))
      with (Some (page, r)). cbv beta iota.
    assert (Hno : page_added_to page r (products st1) = false).
    { unfold page_added_to. apply andb_false_iff. right.
      apply not_true_iff_false. intros Hex.
      apply existsb_exists in Hex as (p & Hp & Heq).
      apply Z.eqb_eq in Heq. apply list_elem_of_In in Hp. rewrite Hp1 in Hp.
      assert (p_page p < page) by (apply (Hb p page Hp); left). lia. }
    rewrite Hno. reflexivity. }
  destruct (negb (status_code r =? 200)) eqn:Est; [apply (Hbreak st eq_refl)|].
  apply negb_false_iff in Est.
  destruct (body r) as [|row0 rows0] eqn:Eb; [apply (Hbreak st eq_refl)|].
  rewrite <- Eb in *. clear Eb row0 rows0.
  set (st' := scrape_rows page st (body r)).
  destruct (scrape_rows_appends page (body r) st) as (n1 & Hp1 & Ha1 & Hf1).
  fold st' in Hp1, Ha1.
  destruct (page_added st' =? 0) eqn:Eadd.
  { apply Z.eqb_eq in Eadd. apply (Hbreak st').
    rewrite Hp1. destruct n1; [apply app_nil_r|cbn in Ha1; lia]. }
  apply Z.eqb_neq in Eadd.
  assert (Hb' : listed_before pages st') by (apply scrape_rows_before; assumption).
  destruct (IH st' w' ((log ++ [EvGetProducts page r]) ++ [EvSleep]) Hs Hb')
    as (evs & Hlog & Hshape).
  exists (EvGetProducts page r :: EvSleep :: evs).
  split; [rewrite Hlog, <- !app_assoc; reflexivity|].
  cbn zeta in Hshape |- *.
  change (product_gets (EvGetProducts page r :: EvSleep :: evs))
    with ((page, r) :: product_gets evs).
  change (filter (fun e => is_request e = true)
            (EvGetProducts page r :: EvSleep :: evs))
    with (EvGetProducts page r :: filter (fun e => is_request e = true) evs).
  cbn [flat_map with_pause app].
  destruct (last (product_gets evs)) as [[k r0]|] eqn:Elast.
  - assert (Hl : last ((page, r) :: product_gets evs) = Some (k, r0)).
    { destruct (product_gets evs); [discriminate|exact Elast]. }
    rewrite Hl. destruct (page_added_to k r0 _).
    + destruct Hshape as [Hsh Hk]. split; [rewrite <- Hsh; reflexivity|].
      destruct pages; [discriminate|exact Hk].
    + rewrite <- Hshape. reflexivity.
  - destruct Hshape as [-> ->]. cbn [product_gets omap last products_loop fst].
    assert (Hyes : page_added_to page r (products st') = true).
    { unfold page_added_to. rewrite Est. cbn [andb].
      apply existsb_exists. destruct n1 as [|p n1]; [cbn in Ha1; lia|].
      exists p. split.
      - apply list_elem_of_In. rewrite Hp1. set_solver.
      - apply Z.eqb_eq. exact (Forall_inv Hf1). }
    cbn. rewrite Hyes. auto.
Qed.

Lemma last_seqZ_1 n k : last (seqZ 1 n) = Some k -> k = n.
Proof.
  rewrite last_lookup, length_seqZ. intros Hk.
  apply lookup_seqZ in Hk. lia.
Qed.

Lemma NoDup_fmap_eq {A B} (f : A -> B) (l : list A) x y :
  NoDup (map f l) -> x ∈ l -> y ∈ l -> f x = f y -> x = y.
Proof.
  induction l as [|a l IH]; intros Hnd Hx Hy Hf; [inversion Hx|].
  cbn in Hnd. apply NoDup_cons in Hnd as [Hna Hnd].
  apply elem_of_cons in Hx as [->|Hx]; apply elem_of_cons in Hy as [->|Hy].
  - reflexivity.
  - exfalso. apply Hna. rewrite Hf. apply list_elem_of_fmap. eauto.
  - exfalso. apply Hna. rewrite <- Hf. apply list_elem_of_fmap. eauto.
  - apply IH; assumption.
Qed.

(** X2. Every returned product was made of a row of the answer to the
    request of the page whose number it carries, an answer with status 200;
    that page is the first fetched page with a row of the product's URL, and
    its number is between 1 and [max_pages]; the list is in the order of
    the pages. *)
Theorem products_in_page_order (max_pages : Z) (w : W) :
  let run := scrape_products_html (F := F) max_pages w in
  StronglySorted (fun p q => p_page p <= p_page q) run.1.1
  /\ forall p, p ∈ run.1.1 ->
       1 <= p_page p <= max_pages
       /\ (exists r row,
             (p_page p, r) ∈ product_gets run.2
             /\ status_code r = 200
             /\ row ∈ body r
             /\ product_of_row (p_page p) row p)
       /\ (forall k r row,
             (k, r) ∈ product_gets run.2 -> status_code r = 200 ->
             row ∈ body r -> row_url row = Some (p_url p) ->
             p_page p <= k).
Proof.
  pose proof (scrape_products_html_inv max_pages w) as (st0 & (_ & Hnd & _) & Hst0).
  revert Hst0. unfold scrape_products_html.
  pose proof (products_loop_pages (seqZ 1 max_pages) (mk_pstate [] ∅ 0) w []
                (StronglySorted_seqZ 1 max_pages)) as (new & Hp & Hin & Hsorted).
  assert (H0 : seen_listed (mk_pstate (F := F) [] ∅ 0))
    by (intros u Hu; cbn in Hu; set_solver).
  assert (Hb0 : listed_before (seqZ 1 max_pages) (mk_pstate (F := F) [] ∅ 0))
    by (intros p k Hp0; inversion Hp0).
  pose proof (products_loop_found (seqZ 1 max_pages) (mk_pstate [] ∅ 0) w []
                (StronglySorted_seqZ 1 max_pages) H0 Hb0)
    as (evs & new' & Hlog & Hp' & Hfrom & Hfirst).
  destruct (products_loop _ _ _ _) as [[st w'] log].
  cbn [fst snd products app] in *. intros Hst0. subst log new' new.
  assert (Hnd' : NoDup (map p_url (products st))) by congruence.
  split; [exact Hsorted|]. intros p Hpin. split; [|split].
  - pose proof (proj1 (Forall_forall _ _) Hin p Hpin) as Hpage. cbn in Hpage.
    apply elem_of_seqZ in Hpage. lia.
  - apply Hfrom, Hpin.
  - intros k r row Hk H200 Hrow Hu.
    destruct (Hfirst k r row _ Hk H200 Hrow Hu) as (q & Hq & Hqu & Hle).
    assert (q = p); [|subst q; exact Hle].
    apply (NoDup_fmap_eq p_url (products st)); assumption.
Qed.

(** X3. In the log of the product driver every request is followed by the
    pause, but the request that leaves the loop. The loop is left at the
    last request exactly when its answer is not a success with a product
    of its page added; otherwise the last request is the one of page
    [max_pages], and the pause follows it too. The log is empty only when
    [max_pages] is not positive. *)
Theorem products_pauses_between_fetches (max_pages : Z) (w : W) :
  let run := scrape_products_html (F := F) max_pages w in
  let requests := filter (fun e => is_request e = true) run.2 in
  match last (product_gets run.2) with
  | None => run.2 = [] /\ max_pages <= 0
  | Some (k, r) =>
      1 <= k <= max_pages
      /\ if page_added_to k r run.1.1
         then run.2 = flat_map with_pause requests /\ k = max_pages
         else run.2 ++ [EvSleep] = flat_map with_pause requests
  end.
Proof.
  unfold scrape_products_html.
  assert (Hb0 : listed_before (seqZ 1 max_pages) (mk_pstate (F := F) [] ∅ 0))
    by (intros p k Hp0; inversion Hp0).
  pose proof (products_loop_pause_shape (seqZ 1 max_pages) (mk_pstate [] ∅ 0)
                w [] (StronglySorted_seqZ 1 max_pages) Hb0) as (evs & Hlog & Hshape).
  pose proof (products_loop_log (seqZ 1 max_pages) (mk_pstate (F := F) [] ∅ 0) w [])
    as (evs' & Hlog' & Hpre & _).
  destruct (products_loop _ _ _ _) as [[st w'] log].
  cbn [fst snd app] in *. subst log. subst evs'. cbn zeta in *.
  destruct (last (product_gets evs)) as [[k r]|] eqn:Elast.
  - split.
    + apply last_Some in Elast as (l' & Hl').
      assert (Hk : k ∈ map fst (product_gets evs)).
      { rewrite Hl', map_app. cbn. set_solver. }
      destruct Hpre as (rest & Hrest).
      assert (Hk' : k ∈ seqZ 1 max_pages) by (rewrite Hrest; apply elem_of_app; left; exact Hk).
      apply elem_of_seqZ in Hk'. lia.
    + destruct (page_added_to k r (products st)); [|exact Hshape].
      destruct Hshape as [Hsh Hk]. split; [exact Hsh|].
      apply last_seqZ_1, Hk.
  - destruct Hshape as [-> Hnil]. split; [reflexivity|].
    destruct (Z_le_gt_dec max_pages 0) as [Hle|Hgt]; [exact Hle|].
    rewrite seqZ_cons in Hnil by lia. discriminate.
Qed.

End ProductsMore.

Lemma products_in_page_order_witness :
  let run := Scrape.scrape_products_html (lib := Scrape.toy_lib)
               (site := Scrape.scripted_site) 50 Demo.repeating_product_pages in
  map fst (Scrape.product_gets run.2) = [1; 2; 3]
  /\ map Scrape.p_page run.1.1 = [1; 2]
  /\ StronglySorted (fun p q => Scrape.p_page p <= Scrape.p_page q) run.1.1
  /\ forall p : Scrape.product string, p ∈ run.1.1 ->
       1 <= Scrape.p_page p <= 50
       /\ (exists (r : Scrape.response (list Scrape.product_row)) row,
             (Scrape.p_page p, r) ∈ Scrape.product_gets run.2
             /\ Scrape.status_code r = 200
             /\ row ∈ Scrape.body r
             /\ Scrape.product_of_row (lib := Scrape.toy_lib)
                  (Scrape.p_page p) row p)
       /\ (forall k (r : Scrape.response (list Scrape.product_row)) row,
             (k, r) ∈ Scrape.product_gets run.2 -> Scrape.status_code r = 200 ->
             row ∈ Scrape.body r ->
             Scrape.row_url (lib := Scrape.toy_lib) row
             = Some (Scrape.p_url p) ->
             Scrape.p_page p <= k).
Proof.
  intros run. split; [vm_compute; reflexivity|].
  split; [vm_compute; reflexivity|].
  exact (products_in_page_order (lib := Scrape.toy_lib)
           (site := Scrape.scripted_site) 50 Demo.repeating_product_pages).
Defined.

Lemma products_pauses_between_fetches_witness :
  let stopped := Scrape.scrape_products_html (lib := Scrape.toy_lib)
                   (site := Scrape.scripted_site) 50 Demo.three_product_pages in
  let cut := Scrape.scrape_products_html (lib := Scrape.toy_lib)
               (site := Scrape.scripted_site) 2 Demo.three_product_pages in
  (last (Scrape.product_gets stopped.2) = Some (3, Demo.products_page_3)
   /\ stopped.2 ++ [Scrape.EvSleep]
      = flat_map Scrape.with_pause
          (filter (fun e => Scrape.is_request e = true) stopped.2))
  /\ (last (Scrape.product_gets cut.2) = Some (2, Demo.products_page_2)
      /\ cut.2
         = flat_map Scrape.with_pause
             (filter (fun e => Scrape.is_request e = true) cut.2)).
Proof.
  intros stopped cut. split.
  - assert (Hlast : last (Scrape.product_gets stopped.2)
                    = Some (3, Demo.products_page_3))
      by (vm_compute; reflexivity).
    assert (Hadded : Scrape.page_added_to 3 Demo.products_page_3 stopped.1.1
                     = false) by (vm_compute; reflexivity).
    split; [exact Hlast|].
    pose proof (products_pauses_between_fetches (lib := Scrape.toy_lib)
                  (site := Scrape.scripted_site) 50 Demo.three_product_pages)
      as Hshape.
    cbv zeta in Hshape. fold stopped in Hshape.
    rewrite Hlast, Hadded in Hshape. exact (proj2 Hshape).
  - assert (Hlast : last (Scrape.product_gets cut.2)
                    = Some (2, Demo.products_page_2))
      by (vm_compute; reflexivity).
    assert (Hadded : Scrape.page_added_to 2 Demo.products_page_2 cut.1.1
                     = true) by (vm_compute; reflexivity).
    split; [exact Hlast|].
    pose proof (products_pauses_between_fetches (lib := Scrape.toy_lib)
                  (site := Scrape.scripted_site) 2 Demo.three_product_pages)
      as Hshape.
    cbv zeta in Hshape. fold cut in Hshape.
    rewrite Hlast, Hadded in Hshape. exact (proj1 (proj2 Hshape)).
Defined.

(** ** More on the testimonial driver *)

Section TestimonialsMore.
Import Scrape.
Context {W : Type} {site : Site W}.

Lemma enumerate_lookup {A} (l : list A) idx x :
  (idx, x) ∈ enumerate l ->
  0 <= idx < Z.of_nat (length l) /\ l !! Z.to_nat idx = Some x.
Proof.
  unfold enumerate. intros Hin.
  apply elem_of_lookup_zip_with in Hin as (i & idx' & x' & Heq & Hi & Hx).
  injection Heq as -> ->. apply lookup_seqZ in Hi as [-> Hi].
  rewrite Z.add_0_l, Nat2Z.id. split; [lia|exact Hx].
Qed.

Lemma scrape_card_cases page testimonials idx c :
  scrape_card page testimonials (idx, c) = testimonials
  \/ exists t, testimonial_of_card page idx c t
               /\ scrape_card page testimonials (idx, c) = testimonials ++ [t].
Proof.
  unfold scrape_card, testimonial_of_card.
  destruct (card_text c) as [text|]; [|left; reflexivity].
  destruct (truthy text) eqn:Et; [|left; reflexivity].
  right. eexists. split; [|reflexivity]. exists text. auto.
Qed.

Lemma foldl_scrape_card_from page ics testimonials t :
  t ∈ foldl (scrape_card page) testimonials ics ->
  t ∈ testimonials
  \/ exists idx c, (idx, c) ∈ ics /\ testimonial_of_card page idx c t.
Proof.
  revert testimonials. induction ics as [|[idx c] ics IH]; intros acc Hin.
  { left. exact Hin. }
  cbn [foldl] in Hin. apply IH in Hin as [Hin|(idx' & c' & Hic & Ht)].
  - destruct (scrape_card_cases page acc idx c) as [->|(t' & Ht' & ->)] in Hin.
    + left. exact Hin.
    + apply elem_of_app in Hin as [Hin|Hin]; [left; exact Hin|].
      apply list_elem_of_singleton in Hin as ->.
      right. exists idx, c. split; [left|exact Ht'].
  - right. exists idx', c'. split; [right; exact Hic|exact Ht].
Qed.

Lemma testimonial_gets_app l1 l2 :
  testimonial_gets (l1 ++ l2) = testimonial_gets l1 ++ testimonial_gets l2.
Proof. apply omap_app. Qed.

(** The shape of a run of the loop. *)
Lemma testimonials_loop_log pages testimonials (w : W) log :
  exists evs,
    (testimonials_loop pages testimonials w log).2 = log ++ evs
    /\ let gets := testimonial_gets evs in
       map fst gets `prefix_of` pages
       /\ (pages <> [] -> gets <> [])
       /\ (forall i p r,
             gets !! i = Some (p, r) ->
             (S i = length gets
              <-> (status_code r <> 200 \/ body r = [])
                  \/ S i = length pages)).
Proof.
  revert testimonials w log.
  induction pages as [|page pages IH]; intros testimonials w log.
  { exists []. rewrite app_nil_r. split; [reflexivity|]. cbn.
    split; [apply prefix_nil|]. split; [congruence|].
    intros i p r Hi. inversion Hi. }
  cbn [testimonials_loop]. destruct (get_testimonials page w) as [w' r].
  assert (Hlast : status_code r <> 200 \/ body r = [] ->
            exists evs : list event,
              log ++ [EvGetTestimonials page r] = log ++ evs
              /\ let gets := testimonial_gets evs in
                 map fst gets `prefix_of` page :: pages
                 /\ (page :: pages <> [] -> gets <> [])
                 /\ (forall i p r0,
                       gets !! i = Some (p, r0) ->
                       (S i = length gets
                        <-> (status_code r0 <> 200 \/ body r0 = [])
                            \/ S i = length (page :: pages)))).
  { intros Hends. exists [EvGetTestimonials page r]. split; [reflexivity|].
    cbn. split; [apply prefix_cons, prefix_nil|]. split; [discriminate|].
    intros [|i] p r0 Hi; [|inversion Hi]. injection Hi as <- <-.
    split; [auto|reflexivity]. }
  destruct (negb (status_code r =? 200)) eqn:Est.
  { apply Hlast. left. apply negb_true_iff, Z.eqb_neq in Est. exact Est. }
  destruct (body r) as [|c cs] eqn:Eb; [apply Hlast; auto|]. clear Hlast.
  apply negb_false_iff, Z.eqb_eq in Est.
  destruct (IH (foldl (scrape_card page) testimonials (enumerate (c :: cs))) w'
              ((log ++ [EvGetTestimonials page r]) ++ [EvSleep]))
    as (evs & Hlog & Hpre & Hne & Hstop).
  exists (EvGetTestimonials page r :: EvSleep :: evs).
  split; [rewrite Hlog, <- !app_assoc; reflexivity|].
  simpl. split; [apply prefix_cons, Hpre|]. split; [discriminate|].
  intros [|i] p r0 Hi.
  - injection Hi as <- <-. rewrite Eb. split.
    + intros Hl. right. f_equal.
      destruct pages as [|page' pages']; [reflexivity|].
      exfalso. destruct (testimonial_gets evs);
        [apply Hne; [discriminate|reflexivity]|simpl in Hl; lia].
    + intros [[Hs|Hb]|Hl]; [contradiction|discriminate|].
      injection Hl as Hl. destruct pages; [|discriminate].
      apply prefix_nil_inv in Hpre.
      destruct (testimonial_gets evs); [reflexivity|simpl in Hpre; discriminate].
  - specialize (Hstop i p r0 Hi). split.
    + intros Hl. injection Hl as Hl. apply Hstop in Hl as [Hl|Hl]; [auto|].
      right. simpl. lia.
    + intros [Hf|Hl]; f_equal; apply Hstop; [auto|]. right. simpl in Hl. lia.
Qed.

(** X4. The testimonial driver fetches at most [max_pages] pages, the
    pages 1, 2, ... in order, and a fetch is the last one exactly when its
    answer is not a success or has no card, or when it is page
    [max_pages]: a page whose cards all lack a text does not end it. *)
Theorem testimonials_pagination_stops (max_pages : Z) (w : W) :
  let gets := testimonial_gets (collect_testimonials max_pages w).2 in
  (length gets <= Z.to_nat max_pages)%nat
  /\ (forall i p r, gets !! i = Some (p, r) -> p = Z.of_nat i + 1)
  /\ (forall i p r,
        gets !! i = Some (p, r) ->
        (S i = length gets
         <-> (status_code r <> 200 \/ body r = [])
             \/ S i = Z.to_nat max_pages)).
Proof.
  intros gets. unfold collect_testimonials in gets.
  destruct (testimonials_loop_log (seqZ 1 max_pages) [] w [])
    as (evs & Hlog & Hpre & _ & Hstop).
  assert (Hg : gets = testimonial_gets evs) by (unfold gets; rewrite Hlog; reflexivity).
  rewrite <- Hg in Hpre, Hstop. rewrite length_seqZ in Hstop.
  split; [|split; [|exact Hstop]].
  - apply prefix_length in Hpre. rewrite length_map, length_seqZ in Hpre. exact Hpre.
  - intros i p r Hi.
    assert (Hp : map fst gets !! i = Some p)
      by (rewrite list_lookup_fmap, Hi; reflexivity).
    apply (prefix_lookup_Some _ _ _ _ Hp) in Hpre.
    apply lookup_seqZ in Hpre. lia.
Qed.

(** Where the collected testimonials come from. *)
Lemma testimonials_loop_from pages testimonials (w : W) log t :
  t ∈ (testimonials_loop pages testimonials w log).1.1 ->
  t ∈ testimonials
  \/ exists page r idx c,
       page ∈ pages
       /\ (page, r) ∈ testimonial_gets (testimonials_loop pages testimonials w log).2
       /\ status_code r = 200
       /\ 0 <= idx /\ body r !! Z.to_nat idx = Some c
       /\ testimonial_of_card page idx c t.
Proof.
  revert testimonials w log.
  induction pages as [|page pages IH]; intros testimonials w log;
    [left; assumption|].
  cbn [testimonials_loop]. destruct (get_testimonials page w) as [w' r].
  destruct (negb (status_code r =? 200)) eqn:Est; [left; assumption|].
  apply negb_false_iff, Z.eqb_eq in Est.
  destruct (body r) as [|c cs] eqn:Eb; [left; assumption|].
  intros Hin.
  destruct (testimonials_loop_log pages
              (foldl (scrape_card page) testimonials (enumerate (c :: cs))) w'
              ((log ++ [EvGetTestimonials page r]) ++ [EvSleep]))
    as (evs & Hlog & _).
  apply IH in Hin as [Hin|(page' & r' & idx & c' & Hp & Hg & Hrest)].
  - apply foldl_scrape_card_from in Hin as [Hin|(idx & c' & Hic & Ht)];
      [left; exact Hin|].
    right. exists page, r, idx, c'. split; [left|].
    split.
    { rewrite Hlog, <- !app_assoc, testimonial_gets_app.
      apply elem_of_app. right. simpl. left. }
    apply enumerate_lookup in Hic as [Hidx Hc]. rewrite Eb.
    split; [exact Est|]. split; [lia|]. split; [exact Hc|exact Ht].
  - right. exists page', r', idx, c'. split; [right; exact Hp|].
    split; [exact Hg|exact Hrest].
Qed.

Lemma subset_key_testimonial (a b : testimonial) :
  subset_key ["text"]%string a = subset_key ["text"]%string b
  <-> t_text a = t_text b.
Proof.
  cbn. split; [intros [= ->]; reflexivity|intros ->; reflexivity].
Qed.

(** X5. The testimonial driver never raises.  The list it returns has no
    two testimonials with the same text; it is the collected list, in its
    order, without each testimonial whose text an earlier one has: every
    collected text is represented, by the first testimonial carrying it. *)
Theorem testimonials_deduplicated (max_pages : Z) (w : W) :
  let collected := (collect_testimonials max_pages w).1.1 in
  exists out,
    (scrape_testimonials_api max_pages w).1.1 = Ok out
    /\ NoDup (map t_text out)
    /\ out `sublist_of` collected
    /\ (forall t, t ∈ collected -> t_text t ∈ map t_text out)
    /\ (forall t, t ∈ out ->
          exists i, collected !! i = Some t
            /\ forall j t', (j < i)%nat -> collected !! j = Some t' ->
                            t_text t' <> t_text t).
Proof.
  intros collected. eexists.
  split; [apply scrape_testimonials_api_result|]. fold collected.
  set (key := subset_key ["text"]%string). unfold duplicated.
  split.
  { pose proof (kept_NoDup key [] collected) as Hnd.
    assert (Hmap : map key (drop_marked (duplicated_from [] (map key collected)) collected)
                   = map (fun s => [Some (CStr s)])
                       (map t_text
                          (drop_marked (duplicated_from [] (map key collected)) collected))).
    { rewrite map_map. apply map_ext. intros t. reflexivity. }
    rewrite Hmap in Hnd. apply (NoDup_fmap_1 _ _ Hnd). }
  split; [apply kept_sublist|].
  split.
  { intros t Ht.
    destruct (kept_complete key [] collected t Ht) as [Hin|Hin]; [inversion Hin|].
    apply list_elem_of_fmap in Hin as (t' & Hk & Hin).
    apply subset_key_testimonial in Hk. rewrite Hk.
    apply list_elem_of_fmap_2. exact Hin. }
  intros t Ht. destruct (kept_first key [] collected t Ht) as (i & Hi & Hlt).
  exists i. split; [exact Hi|]. intros j t' Hj Ht' Hk.
  apply (Hlt j t' Hj Ht'). apply subset_key_testimonial. exact Hk.
Qed.

(** X6. Every testimonial the driver returns was read from a card of a
    page that answered 200: its page number is between 1 and [max_pages],
    its index is the position of the card on that page, its text is the
    text of the card and is not empty, and its rating is the number of
    stars of the card. *)
Theorem testimonials_come_from_cards (max_pages : Z) (w : W) out t :
  (scrape_testimonials_api max_pages w).1.1 = Ok out ->
  t ∈ out ->
  1 <= t_page t <= max_pages
  /\ t_text t <> ""%string
  /\ exists r c,
       (t_page t, r) ∈ testimonial_gets (collect_testimonials max_pages w).2
       /\ status_code r = 200
       /\ 0 <= t_idx t
       /\ body r !! Z.to_nat (t_idx t) = Some c
       /\ card_text c = Some (t_text t)
       /\ t_rating t = card_stars c.
Proof.
  intros Hout Ht. rewrite scrape_testimonials_api_result in Hout.
  injection Hout as <-.
  pose proof (elem_of_sublist _ _ _ Ht
                (kept_sublist (subset_key ["text"]%string) [] _)) as Hc.
  unfold collect_testimonials in Hc.
  apply testimonials_loop_from in Hc
    as [Hc|(page & r & idx & c & Hp & Hg & Hs & Hidx & Hcard & text & Htext & Htr & ->)];
    [inversion Hc|].
  cbn [t_page t_text t_idx t_rating].
  apply elem_of_seqZ in Hp. split; [lia|].
  split; [intros ->; discriminate|].
  exists r, c. unfold collect_testimonials. auto 10.
Qed.

End TestimonialsMore.

Lemma testimonials_come_from_cards_witness :
  let t := Scrape.mk_testimonial 1 2 None "Fast delivery" 4 in
  (Scrape.scrape_testimonials_api (site := Scrape.scripted_site) 50
     Demo.two_testimonial_pages).1.1
  = Ok [Scrape.mk_testimonial 1 0 (Some "alice"%string) "Great shop" 5; t]
  /\ 1 <= Scrape.t_page t <= 50
  /\ Scrape.t_text t <> ""%string.
Proof.
  intros t.
  assert (Hout : (Scrape.scrape_testimonials_api (site := Scrape.scripted_site) 50
                    Demo.two_testimonial_pages).1.1
                 = Ok [Scrape.mk_testimonial 1 0 (Some "alice"%string) "Great shop" 5; t])
    by (vm_compute; reflexivity).
  split; [exact Hout|].
  destruct (testimonials_come_from_cards (site := Scrape.scripted_site) 50
              Demo.two_testimonial_pages _ t Hout) as (Hp & Ht & _).
  { right. left. }
  split; assumption.
Defined.

(** ** White space and dates *)

Section Strip.

Lemma lstrip_chars_head l :
  lstrip_chars l = []
  \/ exists c l', lstrip_chars l = c :: l' /\ isspace c = false.
Proof.
  induction l as [|c l IH]; [left; reflexivity|].
  cbn [lstrip_chars]. destruct (isspace c) eqn:Ec; [exact IH|].
  right. exists c, l. auto.
Qed.

Lemma lstrip_chars_suffix l :
  exists pre, l = pre ++ lstrip_chars l /\ forallb isspace pre = true.
Proof.
  induction l as [|c l (pre & Hl & Hpre)]; [exists []; auto|].
  cbn [lstrip_chars]. destruct (isspace c) eqn:Ec; [|exists []; auto].
  exists (c :: pre). cbn. rewrite Ec, Hpre, <- Hl. auto.
Qed.

Lemma lstrip_chars_spaces pre l :
  forallb isspace pre = true -> lstrip_chars (pre ++ l) = lstrip_chars l.
Proof.
  induction pre as [|c pre IH]; [reflexivity|].
  cbn. intros Hp. apply andb_prop in Hp as [-> Hp]. apply IH, Hp.
Qed.

Lemma lstrip_chars_fixed c l :
  isspace c = false -> lstrip_chars (c :: l) = c :: l.
Proof. intros Hc. cbn. rewrite Hc. reflexivity. Qed.

(** What [strip] returns neither starts nor ends with white space. *)
Lemma strip_chars_ends l :
  lstrip_chars (strip_chars l) = strip_chars l
  /\ lstrip_chars (rev (strip_chars l)) = rev (strip_chars l).
Proof.
  unfold strip_chars. rewrite rev_involutive.
  destruct (lstrip_chars_suffix (rev (lstrip_chars l))) as (pre & Hrev & _).
  destruct (lstrip_chars_head (rev (lstrip_chars l))) as [Hb|(b & B & Hb & Hbs)].
  { rewrite Hb. auto. }
  rewrite Hb in Hrev |- *. split; [|apply lstrip_chars_fixed, Hbs].
  apply (f_equal (@rev ascii)) in Hrev.
  rewrite rev_involutive, rev_app_distr in Hrev.
  destruct (lstrip_chars_head l) as [Ha|(a & A & Ha & Has)].
  { rewrite Ha in Hrev. destruct (rev (b :: B)) eqn:E; [reflexivity|discriminate]. }
  rewrite Ha in Hrev.
  destruct (rev (b :: B)) as [|x xs]; [reflexivity|].
  cbn in Hrev. injection Hrev as -> _. apply lstrip_chars_fixed, Has.
Qed.

Lemma strip_chars_idempotent l : strip_chars (strip_chars l) = strip_chars l.
Proof.
  destruct (strip_chars_ends l) as [Hl Hr]. unfold strip_chars at 1.
  rewrite Hl, Hr. apply rev_involutive.
Qed.

Lemma strip_idempotent s : strip (strip s) = strip s.
Proof.
  unfold strip. rewrite chars_of_chars, strip_chars_idempotent. reflexivity.
Qed.

Lemma forallb_rev {A} (f : A -> bool) l :
  forallb f (rev l) = forallb f l.
Proof.
  induction l as [|x l IH]; [reflexivity|].
  cbn. rewrite forallb_app, IH. cbn. rewrite andb_true_r. apply andb_comm.
Qed.

Lemma strip_chars_padding pre l post :
  forallb isspace pre = true -> forallb isspace post = true ->
  strip_chars (pre ++ l ++ post) = strip_chars l.
Proof.
  intros Hpre Hpost. unfold strip_chars. f_equal.
  rewrite lstrip_chars_spaces by exact Hpre.
  destruct (lstrip_chars_suffix l) as (p & Hl & Hp).
  destruct (lstrip_chars_head l) as [Ha|(a & A & Ha & Has)].
  - (* l is white space only *)
    rewrite Ha in Hl |- *. rewrite app_nil_r in Hl. subst p.
    assert (Hall : forallb isspace (l ++ post) = true)
      by (rewrite forallb_app, Hp, Hpost; reflexivity).
    destruct (lstrip_chars_suffix (l ++ post)) as (q & Hq & _).
    destruct (lstrip_chars_head (l ++ post)) as [->|(c & C & Hc & Hcs)];
      [reflexivity|].
    rewrite Hc in Hq. rewrite Hq, forallb_app in Hall.
    apply andb_prop in Hall as [_ Hall]. cbn in Hall. rewrite Hcs in Hall.
    discriminate.
  - assert (Hlp : lstrip_chars (l ++ post) = lstrip_chars l ++ post).
    { rewrite Hl at 1. rewrite <- app_assoc, lstrip_chars_spaces by exact Hp.
      rewrite Ha. cbn. rewrite Has. reflexivity. }
    rewrite Hlp, rev_app_distr. apply lstrip_chars_spaces.
    rewrite forallb_rev. exact Hpost.
Qed.

(** X7. [_parse_date] reads back the ISO form of every calendar date of
    the years 1 to 9999, and what it returns is always the midnight of a
    valid calendar date. *)
Theorem parse_date_round_trip :
  (forall y m d,
      check_date_fields y m d = true ->
      Scrape._parse_date (date_isoformat (midnight y m d)) = Some (midnight y m d))
  /\ (forall s dt,
        Scrape._parse_date s = Some dt ->
        valid dt = true /\ dt = midnight (year dt) (month dt) (day dt)).
Proof.
  split; [|apply parse_date_valid].
  intros y m d Hc. unfold Scrape._parse_date.
  rewrite strip_isoformat, strptime_isoformat by exact Hc. reflexivity.
Qed.

Lemma parse_date_round_trip_witness :
  check_date_fields 2024 2 29 = true
  /\ Scrape._parse_date "2024-02-29" = Some (midnight 2024 2 29).
Proof.
  split; [reflexivity|].
  exact (proj1 parse_date_round_trip 2024 2 29 eq_refl).
Defined.

(** X8. White space around a date does not change what [_parse_date]
    returns. *)
Theorem parse_date_ignores_padding (pre post : list ascii) (s : string) :
  forallb isspace pre = true -> forallb isspace post = true ->
  Scrape._parse_date (of_chars (pre ++ chars s ++ post)) = Scrape._parse_date s.
Proof.
  intros Hpre Hpost. unfold Scrape._parse_date, strip.
  rewrite chars_of_chars, strip_chars_padding by assumption. reflexivity.
Qed.

Lemma parse_date_ignores_padding_witness :
  forallb isspace [" "%char; chr 9] = true
  /\ forallb isspace [chr 10] = true
  /\ Scrape._parse_date (of_chars ([" "%char; chr 9] ++ chars "2023-02-10" ++ [chr 10]))
     = Scrape._parse_date "2023-02-10".
Proof.
  split; [reflexivity|]. split; [reflexivity|].
  exact (parse_date_ignores_padding [" "%char; chr 9] [chr 10] "2023-02-10"
           eq_refl eq_refl).
Defined.

End Strip.

(** ** More on the review driver *)

Section ReviewsMore.
Import Scrape.
Context {W : Type} {site : Site W}.

(** Every returned row is the row of a record made from an edge of a
    logged answer. *)
Lemma reviews_rows_from_edges (max_pages first : Z) (w : W) out row :
  (scrape_reviews_api max_pages first w).1.1 = Ok out ->
  row ∈ out ->
  exists rv a r e,
    rr_rid row = r_rid rv /\ rr_date row = r_date rv /\ rr_text row = r_text rv
    /\ (a, r) ∈ graphql_posts (collect_reviews max_pages first w).2
    /\ e ∈ edges (body r) /\ review_of_edge e rv.
Proof.
  intros Hout Hrow. rewrite scrape_reviews_api_result in Hout.
  injection Hout as <-.
  pose proof (elem_of_sublist _ _ _ Hrow
                (kept_sublist (subset_key ["date"; "text"]%string) [] _)) as Hin.
  unfold reviews_frame in Hin. rewrite rows_from_records in Hin.
  apply elem_of_zip_with in Hin as (rv & c & -> & Hrv & _).
  unfold collect_reviews in Hrv.
  apply reviews_loop_from in Hrv as [Hrv|(a & r & e & Hp & He & Hof)];
    [inversion Hrv|].
  exists rv, a, r, e. cbn. auto 10.
Qed.

(** X9. Every row the review driver returns has a date in ISO form,
    [YYYY-MM-DD], of a valid calendar date, which [_parse_date] reads
    back. *)
Theorem reviews_dates_are_iso (max_pages first : Z) (w : W) out row :
  (scrape_reviews_api max_pages first w).1.1 = Ok out ->
  row ∈ out ->
  exists y m d,
    check_date_fields y m d = true
    /\ rr_date row = date_isoformat (midnight y m d)
    /\ _parse_date (rr_date row) = Some (midnight y m d).
Proof.
  intros Hout Hrow.
  destruct (reviews_rows_from_edges _ _ _ _ _ Hout Hrow)
    as (rv & a & r & e & _ & Hd & _ & _ & _ & (d & t & dt & _ & _ & _ & _ & Hp & ->)).
  cbn in Hd. destruct (parse_date_valid _ _ Hp) as [Hv Hmid].
  unfold valid in Hv. apply andb_prop in Hv as [Hc _].
  exists (year dt), (month dt), (day dt). rewrite Hd, <- Hmid.
  split; [exact Hc|]. split; [reflexivity|]. apply (parse_date_isoformat _ _ Hp).
Qed.

(** X10. The text of every returned row is the stripped text of an edge
    whose raw text is not empty: it does not start or end with white
    space, and stripping it again changes nothing. *)
Theorem reviews_texts_are_stripped (max_pages first : Z) (w : W) out row :
  (scrape_reviews_api max_pages first w).1.1 = Ok out ->
  row ∈ out ->
  strip (rr_text row) = rr_text row
  /\ (forall c, head (chars (rr_text row)) = Some c -> isspace c = false)
  /\ (forall c, last (chars (rr_text row)) = Some c -> isspace c = false)
  /\ exists a r e t,
       (a, r) ∈ graphql_posts (collect_reviews max_pages first w).2
       /\ e ∈ edges (body r)
       /\ n_text (node_of e) = Some t /\ t <> ""%string
       /\ rr_text row = strip t.
Proof.
  intros Hout Hrow.
  destruct (reviews_rows_from_edges _ _ _ _ _ Hout Hrow)
    as (rv & a & r & e & _ & _ & Ht & Hp & He & (d & t & dt & _ & _ & Hnt & Htr & _ & ->)).
  cbn in Ht. rewrite Ht. split; [apply strip_idempotent|].
  unfold strip. rewrite chars_of_chars.
  destruct (strip_chars_ends (chars t)) as [Hl Hr].
  split; [|split].
  - intros c Hc. destruct (strip_chars (chars t)) as [|x xs]; [discriminate|].
    injection Hc as ->. cbn in Hl. destruct (isspace c); [|reflexivity].
    exfalso. destruct (lstrip_chars_suffix xs) as (pre & Hxs & _).
    apply (f_equal (@length ascii)) in Hxs. rewrite Hl in Hxs.
    rewrite length_app in Hxs. cbn in Hxs. lia.
  - intros c Hc. apply last_Some in Hc as [l' Hc].
    rewrite Hc, rev_unit in Hr. cbn in Hr. destruct (isspace c); [|reflexivity].
    exfalso. destruct (lstrip_chars_suffix (rev l')) as (pre & Hxs & _).
    apply (f_equal (@length ascii)) in Hxs. rewrite Hr in Hxs.
    rewrite length_app in Hxs. cbn in Hxs. lia.
  - exists a, r, e, t. split; [exact Hp|]. split; [exact He|].
    split; [exact Hnt|]. split; [intros ->; discriminate|reflexivity].
Qed.

End ReviewsMore.

Lemma reviews_dates_are_iso_witness :
  let row := Scrape.mk_review_row (Some "r2"%string) "2023-03-05" "great product"
               (CInt 5) in
  (exists out,
      (Scrape.scrape_reviews_api (site := Scrape.scripted_site) 50 20
         Demo.two_review_pages).1.1 = Ok out
      /\ row ∈ out)
  /\ exists y m d,
       check_date_fields y m d = true
       /\ Scrape.rr_date row = date_isoformat (midnight y m d)
       /\ Scrape._parse_date (Scrape.rr_date row) = Some (midnight y m d).
Proof.
  intros row.
  assert (Hout : (Scrape.scrape_reviews_api (site := Scrape.scripted_site) 50 20
                    Demo.two_review_pages).1.1
                 = Ok [Scrape.mk_review_row (Some "r1"%string) "2023-02-10" "fine" (CInt 5);
                       row;
                       Scrape.mk_review_row (Some "r4"%string) "2023-04-01" "bad" (CInt 5)])
    by (vm_compute; reflexivity).
  assert (Hrow : row ∈ [Scrape.mk_review_row (Some "r1"%string) "2023-02-10" "fine" (CInt 5);
                        row;
                        Scrape.mk_review_row (Some "r4"%string) "2023-04-01" "bad" (CInt 5)])
    by (right; left).
  split; [eexists; split; [exact Hout|exact Hrow]|].
  exact (reviews_dates_are_iso (site := Scrape.scripted_site) 50 20
           Demo.two_review_pages _ row Hout Hrow).
Defined.

Lemma reviews_texts_are_stripped_witness :
  let row := Scrape.mk_review_row (Some "r2"%string) "2023-03-05" "great product"
               (CInt 5) in
  (exists out,
      (Scrape.scrape_reviews_api (site := Scrape.scripted_site) 50 20
         Demo.two_review_pages).1.1 = Ok out
      /\ row ∈ out)
  /\ strip (Scrape.rr_text row) = Scrape.rr_text row.
Proof.
  intros row.
  assert (Hout : (Scrape.scrape_reviews_api (site := Scrape.scripted_site) 50 20
                    Demo.two_review_pages).1.1
                 = Ok [Scrape.mk_review_row (Some "r1"%string) "2023-02-10" "fine" (CInt 5);
                       row;
                       Scrape.mk_review_row (Some "r4"%string) "2023-04-01" "bad" (CInt 5)])
    by (vm_compute; reflexivity).
  assert (Hrow : row ∈ [Scrape.mk_review_row (Some "r1"%string) "2023-02-10" "fine" (CInt 5);
                        row;
                        Scrape.mk_review_row (Some "r4"%string) "2023-04-01" "bad" (CInt 5)])
    by (right; left).
  split; [eexists; split; [exact Hout|exact Hrow]|].
  exact (proj1 (reviews_texts_are_stripped (site := Scrape.scripted_site) 50 20
                  Demo.two_review_pages _ row Hout Hrow)).
Defined.

(** ** More on the drivers together *)

Section DriversMore.
Import Scrape.
Context {F W : Type} {lib : Lib F} {site : Site W}.

(** X11. With [max_pages] zero or negative no driver sends a request:
    each returns the empty list and leaves the site as it was. *)
Theorem no_pages_no_requests (max_pages first : Z) (w : W) :
  max_pages <= 0 ->
  scrape_products_html (F := F) max_pages w = ([], w, [])
  /\ scrape_testimonials_api max_pages w = (Ok [], w, [])
  /\ scrape_reviews_api max_pages first w = (Ok [], w, []).
Proof.
  intros Hmax.
  unfold scrape_products_html, scrape_testimonials_api, scrape_reviews_api,
    collect_testimonials, collect_reviews.
  rewrite seqZ_nil by exact Hmax.
  replace (Z.to_nat max_pages) with 0%nat by lia.
  repeat split.
Qed.

Lemma products_loop_kind pages (st : products_state F) (w : W) log :
  exists evs, (products_loop pages st w log).2 = log ++ evs
              /\ log_of KProducts evs.
Proof.
  revert st w log. induction pages as [|page pages IH]; intros st w log.
  { exists []. rewrite app_nil_r. split; [reflexivity|constructor]. }
  cbn [products_loop]. destruct (get_products page w) as [w' r].
  assert (Hone : exists evs, log ++ [EvGetProducts page r] = log ++ evs
                             /\ log_of KProducts evs).
  { exists [EvGetProducts page r]. split; [reflexivity|].
    constructor; [left; reflexivity|constructor]. }
  destruct (negb _); [exact Hone|].
  destruct (body r) as [|row rows]; [exact Hone|].
  destruct (_ =? 0); [exact Hone|].
  destruct (IH (scrape_rows page st (row :: rows)) w'
              ((log ++ [EvGetProducts page r]) ++ [EvSleep])) as (evs & Hlog & Hk).
  exists (EvGetProducts page r :: EvSleep :: evs).
  split; [rewrite Hlog, <- !app_assoc; reflexivity|].
  constructor; [left; reflexivity|]. constructor; [right; reflexivity|exact Hk].
Qed.

Lemma testimonials_loop_kind pages testimonials (w : W) log :
  exists evs, (testimonials_loop pages testimonials w log).2 = log ++ evs
              /\ log_of KTestimonials evs.
Proof.
  revert testimonials w log.
  induction pages as [|page pages IH]; intros testimonials w log.
  { exists []. rewrite app_nil_r. split; [reflexivity|constructor]. }
  cbn [testimonials_loop]. destruct (get_testimonials page w) as [w' r].
  assert (Hone : exists evs, log ++ [EvGetTestimonials page r] = log ++ evs
                             /\ log_of KTestimonials evs).
  { exists [EvGetTestimonials page r]. split; [reflexivity|].
    constructor; [left; reflexivity|constructor]. }
  destruct (negb _); [exact Hone|].
  destruct (body r) as [|c cs]; [exact Hone|].
  destruct (IH (foldl (scrape_card page) testimonials (enumerate (c :: cs))) w'
              ((log ++ [EvGetTestimonials page r]) ++ [EvSleep]))
    as (evs & Hlog & Hk).
  exists (EvGetTestimonials page r :: EvSleep :: evs).
  split; [rewrite Hlog, <- !app_assoc; reflexivity|].
  constructor; [left; reflexivity|]. constructor; [right; reflexivity|exact Hk].
Qed.

Lemma reviews_loop_kind first rounds all_reviews after (w : W) log :
  exists evs, (reviews_loop first rounds all_reviews after w log).2 = log ++ evs
              /\ log_of KGraphql evs.
Proof.
  revert all_reviews after w log.
  induction rounds as [|n IH]; intros all_reviews after w log.
  { exists []. rewrite app_nil_r. split; [reflexivity|constructor]. }
  cbn [reviews_loop]. destruct (post_graphql first after w) as [w' r].
  assert (Hone : exists evs, log ++ [EvPostGraphql first after r] = log ++ evs
                             /\ log_of KGraphql evs).
  { exists [EvPostGraphql first after r]. split; [reflexivity|].
    constructor; [left; reflexivity|constructor]. }
  destruct (negb _); [exact Hone|].
  destruct (has_errors (body r)); [exact Hone|].
  destruct (edges (body r)) as [|e es]; [exact Hone|].
  destruct (no_next_page (body r)); [exact Hone|].
  destruct (IH (foldl scrape_edge all_reviews (e :: es)) (next_cursor (body r)) w'
              ((log ++ [EvPostGraphql first after r]) ++ [EvSleep]))
    as (evs & Hlog & Hk).
  exists (EvPostGraphql first after r :: EvSleep :: evs).
  split; [rewrite Hlog, <- !app_assoc; reflexivity|].
  constructor; [left; reflexivity|]. constructor; [right; reflexivity|exact Hk].
Qed.

(** In the log of one driver the requests are the requests of its kind. *)
Lemma requests_of_products log :
  log_of KProducts log ->
  length (filter (fun e => is_request e = true) log) = length (product_gets log).
Proof.
  induction 1 as [|e log He Hlog IH]; [reflexivity|].
  destruct e; destruct He as [He|He]; try discriminate; cbn;
    rewrite ?filter_cons; cbn; try case_decide; try congruence; cbn; auto.
Qed.

Lemma requests_of_testimonials log :
  log_of KTestimonials log ->
  length (filter (fun e => is_request e = true) log) = length (testimonial_gets log).
Proof.
  induction 1 as [|e log He Hlog IH]; [reflexivity|].
  destruct e; destruct He as [He|He]; try discriminate; cbn;
    rewrite ?filter_cons; cbn; try case_decide; try congruence; cbn; auto.
Qed.

Lemma requests_of_graphql log :
  log_of KGraphql log ->
  length (filter (fun e => is_request e = true) log) = length (graphql_posts log).
Proof.
  induction 1 as [|e log He Hlog IH]; [reflexivity|].
  destruct e; destruct He as [He|He]; try discriminate; cbn;
    rewrite ?filter_cons; cbn; try case_decide; try congruence; cbn; auto.
Qed.

Lemma products_budget (max_pages : Z) (w : W) :
  let log := (scrape_products_html (F := F) max_pages w).2 in
  log_of KProducts log
  /\ (length (filter (fun e => is_request e = true) log) <= Z.to_nat max_pages)%nat.
Proof.
  unfold scrape_products_html.
  destruct (products_loop_kind (seqZ 1 max_pages) (mk_pstate [] ∅ 0) w [])
    as (evs & Hlog & Hk).
  destruct (products_loop_log (seqZ 1 max_pages) (mk_pstate [] ∅ 0) w [])
    as (evs' & Hlog' & Hpre & _).
  destruct (products_loop _ _ _ _) as [[st w'] log]. cbn [fst snd app] in *.
  subst log. subst evs'. split; [exact Hk|].
  rewrite requests_of_products by exact Hk.
  apply prefix_length in Hpre. rewrite length_map, length_seqZ in Hpre. exact Hpre.
Qed.

Lemma testimonials_budget (max_pages : Z) (w : W) :
  let log := (scrape_testimonials_api max_pages w).2 in
  log_of KTestimonials log
  /\ (length (filter (fun e => is_request e = true) log) <= Z.to_nat max_pages)%nat.
Proof.
  unfold scrape_testimonials_api, collect_testimonials.
  destruct (testimonials_loop_kind (seqZ 1 max_pages) [] w []) as (evs & Hlog & Hk).
  destruct (testimonials_loop_log (seqZ 1 max_pages) [] w [])
    as (evs' & Hlog' & Hpre & _).
  destruct (testimonials_loop _ _ _ _) as [[ts w'] log]. cbn [fst snd app] in *.
  subst log. subst evs'. split; [exact Hk|].
  rewrite requests_of_testimonials by exact Hk.
  apply prefix_length in Hpre. rewrite length_map, length_seqZ in Hpre. exact Hpre.
Qed.

Lemma reviews_budget (max_pages first : Z) (w : W) :
  let log := (scrape_reviews_api max_pages first w).2 in
  log_of KGraphql log
  /\ (length (filter (fun e => is_request e = true) log) <= Z.to_nat max_pages)%nat.
Proof.
  unfold scrape_reviews_api, collect_reviews.
  destruct (reviews_loop_kind first (Z.to_nat max_pages) [] None w [])
    as (evs & Hlog & Hk).
  destruct (reviews_loop_log first (Z.to_nat max_pages) [] None w [])
    as (evs' & Hlog' & Hlen & _).
  destruct (reviews_loop _ _ _ _ _ _) as [[rs w'] log]. cbn [fst snd app] in *.
  subst log. subst evs'. split; [exact Hk|].
  rewrite requests_of_graphql by exact Hk. exact Hlen.
Qed.

(** X12. One run of [main] sends at most 50 product requests, then at
    most 50 testimonial requests, then at most 50 GraphQL queries, in this
    order: the log is the log of the first driver, followed by that of the
    second, followed by that of the third. *)
Theorem main_request_budget (now : string) (w : W) :
  exists products_log testimonials_log reviews_log,
    (main (F := F) now w).2 = products_log ++ testimonials_log ++ reviews_log
    /\ log_of KProducts products_log
    /\ log_of KTestimonials testimonials_log
    /\ log_of KGraphql reviews_log
    /\ (length (filter (fun e => is_request e = true) products_log) <= 50)%nat
    /\ (length (filter (fun e => is_request e = true) testimonials_log) <= 50)%nat
    /\ (length (filter (fun e => is_request e = true) reviews_log) <= 50)%nat.
Proof.
  unfold main.
  pose proof (products_budget 50 w) as Hp.
  destruct (scrape_products_html 50 w) as [[ps w1] log1].
  pose proof (testimonials_budget 50 w1) as Ht.
  pose proof (scrape_testimonials_api_result 50 w1) as Hts.
  destruct (scrape_testimonials_api 50 w1) as [[ts w2] log2].
  cbn [fst snd] in Hts. rewrite Hts.
  pose proof (reviews_budget 50 20 w2) as Hr.
  destruct (scrape_reviews_api 50 20 w2) as [[rs w3] log3].
  cbn [fst snd] in *. destruct Hp as [Hp1 Hp2], Ht as [Ht1 Ht2], Hr as [Hr1 Hr2].
  exists log1, log2, log3. change (Z.to_nat 50) with 50%nat in *. auto 10.
Qed.

Lemma kept_texts_NoDup (l : list testimonial) :
  NoDup (map t_text
           (drop_marked (duplicated (map (subset_key ["text"]%string) l)) l)).
Proof.
  pose proof (kept_NoDup (subset_key ["text"]%string) [] l) as Hnd.
  unfold duplicated.
  assert (Hmap : forall k : list testimonial,
             map (subset_key ["text"]%string) k
             = map (fun s => [Some (CStr s)]) (map t_text k)).
  { intros k. rewrite map_map. apply map_ext. intros t. reflexivity. }
  rewrite Hmap in Hnd. apply (NoDup_fmap_1 _ _ Hnd).
Qed.

Lemma kept_review_keys_NoDup (l : list review_row) :
  NoDup (map review_key
           (drop_marked (duplicated (map (subset_key ["date"; "text"]%string) l)) l)).
Proof.
  pose proof (kept_NoDup (subset_key ["date"; "text"]%string) [] l) as Hnd.
  unfold duplicated.
  assert (Hmap : forall k : list review_row,
             map (subset_key ["date"; "text"]%string) k
             = map (fun k => [Some (CStr k.1); Some (CStr k.2)])
                   (map review_key k)).
  { intros k. rewrite map_map. apply map_ext. intros t. reflexivity. }
  rewrite Hmap in Hnd. apply (NoDup_fmap_1 _ _ Hnd).
Qed.

(** X13. A snapshot [main] writes keeps the three uniqueness invariants
    at once: no two products with the same URL, no two testimonials with
    the same text, no two reviews with the same (date, text); its source
    is the base URL. *)
Theorem snapshot_is_unique (now : string) (w : W) (s : snapshot F) :
  (main now w).1.1 = Ok s ->
  NoDup (map p_url (s_products s))
  /\ NoDup (map t_text (s_testimonials s))
  /\ NoDup (map review_key (s_reviews s))
  /\ s_source s = BASE.
Proof.
  intros Hmain.
  destruct (main_writes_outputs now w s Hmain) as (Hps & Hts & Hrs & _ & Hsrc).
  cbv zeta in Hps, Hts, Hrs.
  rewrite scrape_testimonials_api_result in Hts. injection Hts as <-.
  rewrite scrape_reviews_api_result in Hrs. injection Hrs as <-.
  destruct (scrape_products_html_inv (F := F) 50 w) as (st & (_ & Hnd & _) & Hst).
  rewrite Hps, Hst. split; [exact Hnd|]. split; [apply kept_texts_NoDup|].
  split; [apply kept_review_keys_NoDup|exact Hsrc].
Qed.

End DriversMore.

Lemma snapshot_is_unique_witness :
  exists s,
    (Scrape.main (lib := Scrape.toy_lib) (site := Scrape.scripted_site)
       "2026-01-01T00:00:00+00:00" Demo.whole_site).1.1 = Ok s
    /\ length (Scrape.s_products s) = 2%nat
    /\ length (Scrape.s_testimonials s) = 2%nat
    /\ length (Scrape.s_reviews s) = 3%nat
    /\ NoDup (map Scrape.p_url (Scrape.s_products s))
    /\ NoDup (map Scrape.t_text (Scrape.s_testimonials s))
    /\ NoDup (map Scrape.review_key (Scrape.s_reviews s))
    /\ Scrape.s_source s = Scrape.BASE.
Proof.
  eexists.
  assert (Hrun : (Scrape.main (lib := Scrape.toy_lib)
                    (site := Scrape.scripted_site)
                    "2026-01-01T00:00:00+00:00" Demo.whole_site).1.1 = Ok _)
    by (vm_compute; reflexivity).
  split; [exact Hrun|]. split; [reflexivity|]. split; [reflexivity|].
  split; [reflexivity|].
  exact (snapshot_is_unique (lib := Scrape.toy_lib)
           (site := Scrape.scripted_site) _ _ _ Hrun).
Defined.

Lemma no_pages_no_requests_witness :
  0 <= 0
  /\ Scrape.scrape_products_html (lib := Scrape.toy_lib)
       (site := Scrape.scripted_site) 0 Demo.three_product_pages
     = ([], Demo.three_product_pages, []).
Proof.
  assert (H0 : 0 <= 0) by lia. split; [exact H0|].
  exact (proj1 (no_pages_no_requests (lib := Scrape.toy_lib)
                  (site := Scrape.scripted_site) 0 20
                  Demo.three_product_pages H0)).
Defined.

(** ** More on the month range *)

Section MonthRangeMore.
Import App.

Lemma re_b_month_abbr m rest :
  1 <= m <= 12 -> re_b (chars (month_abbr m) ++ rest) = [(m, rest)].
Proof.
  intros Hm. apply month_cases in Hm.
  repeat (destruct Hm as [Hm|Hm]; [subst m; vm_compute; reflexivity|]).
  subst m. vm_compute. reflexivity.
Qed.

Lemma strptime_strftime_b_Y y m :
  1 <= y <= 9999 -> 1 <= m <= 12 ->
  strptime_b_Y (strftime_b_Y (midnight y m 1)) = Ok (midnight y m 1).
Proof.
  intros Hy Hm. unfold strptime_b_Y, strftime_b_Y.
  rewrite chars_of_chars. cbn [month year midnight].
  unfold m_bind at 1. rewrite re_b_month_abbr by exact Hm.
  cbn [map concat]. rewrite app_nil_r.
  unfold m_bind at 1, re_spaces. cbn [re_spaces_from].
  change (isspace " ") with true. cbv iota.
  unfold fmt_04d at 1. cbn [re_spaces_from].
  rewrite isspace_digit_chr by apply mod_10_digit.
  cbn [app map concat]. rewrite app_nil_r.
  unfold m_bind at 1.
  change [digit_chr (y / 1000 mod 10); digit_chr (y / 100 mod 10);
          digit_chr (y / 10 mod 10); digit_chr (y mod 10)]
    with (fmt_04d y).
  rewrite <- (app_nil_r (fmt_04d y)), re_Y_fmt_04d by lia.
  cbn [map concat m_ret app whole_match rbind].
  unfold new_datetime. rewrite check_first_of_month by assumption. reflexivity.
Qed.

(** The first day of the month after month [m] of year [y]. *)
Lemma month_label_to_range_of_strptime label y m :
  strptime_b_Y label = Ok (midnight y m 1) ->
  1 <= y <= 9999 -> 1 <= m <= 12 -> m <> 12 \/ y < 9999 ->
  month_label_to_range label
  = Ok (midnight y m 1,
        if m =? 12 then midnight (y + 1) 1 1 else midnight y (m + 1) 1).
Proof.
  intros Hp Hy Hm Hmax. unfold month_label_to_range. rewrite Hp.
  cbn [rbind year month hour minute second microsecond midnight].
  unfold replace.
  rewrite check_first_of_month by assumption. cbn [rbind].
  destruct (m =? 12) eqn:E12.
  - apply Z.eqb_eq in E12. rewrite check_first_of_month by lia. reflexivity.
  - apply Z.eqb_neq in E12. rewrite check_first_of_month by lia. reflexivity.
Qed.

(** X14. A label printed by [strftime("%b %Y")] for the first day of a
    month is read back by [month_label_to_range] as that month: the range
    starts on that day and ends on the first day of the next month
    (December 9999 apart).  So every option of the slider is accepted. *)
Theorem month_label_round_trip (y m : Z) :
  1000 <= y <= 9999 -> 1 <= m <= 12 -> m <> 12 \/ y < 9999 ->
  month_label_to_range (strftime_b_Y (midnight y m 1))
  = Ok (midnight y m 1,
        if m =? 12 then midnight (y + 1) 1 1 else midnight y (m + 1) 1).
Proof.
  intros Hy Hm Hmax. apply month_label_to_range_of_strptime; try lia.
  apply strptime_strftime_b_Y; lia.
Qed.

Lemma month_label_round_trip_witness :
  strftime_b_Y (midnight 2023 12 1) = "Dec 2023"%string
  /\ month_label_to_range "Dec 2023"
     = Ok (midnight 2023 12 1, midnight 2024 1 1).
Proof.
  split; [reflexivity|].
  assert (Hy : 1000 <= 2023 <= 9999) by lia.
  assert (Hm : 1 <= 12 <= 12) by lia.
  assert (Hmax : 12 <> 12 \/ 2023 < 9999) by (right; lia).
  exact (month_label_round_trip 2023 12 Hy Hm Hmax).
Defined.

(** What an accepted label gives. *)
Lemma month_label_to_range_inv label start end_ :
  month_label_to_range label = Ok (start, end_) ->
  exists y m,
    1 <= y <= 9999 /\ 1 <= m <= 12
    /\ start = midnight y m 1
    /\ ((m < 12 /\ end_ = midnight y (m + 1) 1 /\ True)
        \/ (m = 12 /\ end_ = midnight (y + 1) 1 1 /\ y < 9999)).
Proof.
  unfold month_label_to_range.
  destruct (strptime_b_Y label) as [dt|] eqn:Hp; [|discriminate].
  destruct (strptime_b_Y_ok _ _ Hp) as (Hdt & Hy & Hm).
  cbn [rbind]. unfold replace.
  rewrite check_first_of_month by assumption. cbn [rbind].
  assert (Ht : hour dt = 0 /\ minute dt = 0 /\ second dt = 0
               /\ microsecond dt = 0) by (rewrite Hdt; cbn; auto).
  destruct Ht as (-> & -> & -> & ->).
  destruct (month dt =? 12) eqn:E12.
  - apply Z.eqb_eq in E12.
    destruct (check_date_fields (year dt + 1) 1 1) eqn:Ec; [|discriminate].
    cbn [rbind]. intros [= <- <-].
    exists (year dt), (month dt). split; [exact Hy|]. split; [exact Hm|].
    split; [reflexivity|]. right.
    apply check_date_fields_bounds in Ec. repeat split; [exact E12|lia].
  - apply Z.eqb_neq in E12.
    rewrite check_first_of_month by lia. cbn [rbind]. intros [= <- <-].
    exists (year dt), (month dt). split; [exact Hy|]. split; [exact Hm|].
    split; [reflexivity|]. left. repeat split. lia.
Qed.

Lemma minus_one_day_of_range label start end_ :
  month_label_to_range label = Ok (start, end_) ->
  minus_one_day end_
  = Ok (midnight (year start) (month start)
                 (days_in_month (year start) (month start))).
Proof.
  intros Hr.
  destruct (month_label_to_range_inv _ _ _ Hr)
    as (y & m & Hy & Hm & -> & [(Hlt & -> & _)|(-> & -> & Hmax)]).
  - unfold minus_one_day. cbn [day month year midnight hour minute second
                                 microsecond].
    change (1 <? 1) with false. cbv iota.
    replace (1 <? m + 1) with true by (symmetry; apply Z.ltb_lt; lia).
    replace (m + 1 - 1) with m by lia. reflexivity.
  - unfold minus_one_day, MINYEAR. cbn [day month year midnight hour minute second
                                          microsecond].
    change (1 <? 1) with false. cbv iota.
    replace (1 <? y + 1) with true by (symmetry; apply Z.ltb_lt; lia).
    replace (y + 1 - 1) with y by lia. reflexivity.
Qed.

(** X15. The day shown as the end of the range, [end - 1 day], is the
    last day of the month of the label. *)
Theorem range_ends_on_last_day label start end_ :
  month_label_to_range label = Ok (start, end_) ->
  minus_one_day end_
  = Ok (midnight (year start) (month start)
                 (days_in_month (year start) (month start))).
Proof. apply minus_one_day_of_range. Qed.

Lemma range_ends_on_last_day_witness :
  month_label_to_range "Feb 2024" = Ok (midnight 2024 2 1, midnight 2024 3 1)
  /\ minus_one_day (midnight 2024 3 1) = Ok (midnight 2024 2 29).
Proof.
  assert (Hr : month_label_to_range "Feb 2024"
               = Ok (midnight 2024 2 1, midnight 2024 3 1)) by reflexivity.
  split; [exact Hr|]. exact (range_ends_on_last_day _ _ _ Hr).
Defined.

(** X16. The ranges of the twelve options of the slider follow one
    another without gap or overlap: a valid datetime of 2023 lies in the
    range of the option of its month and in the range of no other
    option. *)
Theorem slider_ranges_partition_2023 (t : datetime) :
  valid t = true -> year t = 2023 ->
  exists label start end_,
    month_labels !! Z.to_nat (month t - 1) = Some label
    /\ month_label_to_range label = Ok (start, end_)
    /\ leb start t && ltb t end_ = true
    /\ forall label' start' end',
         label' ∈ month_labels ->
         month_label_to_range label' = Ok (start', end') ->
         leb start' t && ltb t end' = true ->
         label' = label.
Proof.
  intros Hv Hy.
  assert (Hm : 1 <= month t <= 12).
  { unfold valid, check_date_fields in Hv.
    repeat (apply andb_prop in Hv as [Hv ?]). lia. }
  assert (Hlab : forall m, 1 <= m <= 12 ->
            month_labels !! Z.to_nat (m - 1) = Some (strftime_b_Y (midnight 2023 m 1))).
  { intros m Hm'. unfold month_labels, months.
    rewrite !list_lookup_fmap, lookup_seqZ_lt by lia.
    replace (1 + Z.of_nat (Z.to_nat (m - 1))) with m by lia. reflexivity. }
  assert (Hrange : forall m, 1 <= m <= 12 ->
            month_label_to_range (strftime_b_Y (midnight 2023 m 1))
            = Ok (midnight 2023 m 1,
                  if m =? 12 then midnight 2024 1 1 else midnight 2023 (m + 1) 1)).
  { intros m Hm'. apply month_label_to_range_of_strptime; try lia.
    apply strptime_strftime_b_Y; lia. }
  assert (Hin : forall m t', 1 <= m <= 12 -> valid t' = true ->
            (leb (midnight 2023 m 1) t'
             && ltb t' (if m =? 12 then midnight 2024 1 1
                        else midnight 2023 (m + 1) 1) = true
             <-> year t' = 2023 /\ month t' = m)).
  { intros m t' Hm' Hv'. destruct (m =? 12) eqn:E12.
    - apply Z.eqb_eq in E12. apply in_month_range; [exact Hv'|right; lia|lia].
    - apply Z.eqb_neq in E12. apply in_month_range; [exact Hv'|left; lia|lia]. }
  eexists _, _, _. split; [apply (Hlab _ Hm)|]. split; [apply (Hrange _ Hm)|].
  split; [apply (Hin _ _ Hm Hv); auto|].
  intros label' start' end' Hl Hr Hin'.
  unfold month_labels, months in Hl.
  apply list_elem_of_fmap in Hl as (d & -> & Hd).
  apply list_elem_of_fmap in Hd as (m & -> & Hm').
  apply elem_of_seqZ in Hm'.
  rewrite Hrange in Hr by lia. injection Hr as <- <-.
  apply Hin in Hin' as [_ Hmt]; [|lia|exact Hv]. rewrite Hmt. reflexivity.
Qed.

Lemma slider_ranges_partition_2023_witness :
  valid (mk_datetime 2023 3 31 23 59 59 999999) = true
  /\ exists label start end_,
       month_labels !! 2%nat = Some label
       /\ month_label_to_range label = Ok (start, end_)
       /\ leb start (mk_datetime 2023 3 31 23 59 59 999999)
          && ltb (mk_datetime 2023 3 31 23 59 59 999999) end_ = true.
Proof.
  split; [reflexivity|].
  destruct (slider_ranges_partition_2023 (mk_datetime 2023 3 31 23 59 59 999999)
              eq_refl eq_refl) as (label & start & end_ & Hl & Hr & Hin & _).
  exists label, start, end_. auto.
Defined.

End MonthRangeMore.

(** ** More on the dashboard *)

Section DashboardMore.
Import App.
Context {F : Type} {applib : AppLib F}.

Lemma normalize_labels_cons l ls :
  normalize_labels (l :: ls)
  = default l (LABELS !! l) :: normalize_labels ls.
Proof. reflexivity. Qed.

Lemma normalize_label_cases l :
  (l = "POSITIVE"%string /\ default l (LABELS !! l) = "Positive"%string)
  \/ (l = "NEGATIVE"%string /\ default l (LABELS !! l) = "Negative"%string)
  \/ (l <> "POSITIVE"%string /\ l <> "NEGATIVE"%string
      /\ default l (LABELS !! l) = l).
Proof.
  rewrite LABELS_lookup. repeat case_decide; subst; cbn; auto.
Qed.

Lemma normalize_labels_no_raw ls l :
  l ∈ normalize_labels ls -> l <> "POSITIVE"%string /\ l <> "NEGATIVE"%string.
Proof.
  induction ls as [|x ls IH]; [intros Hin; inversion Hin|].
  rewrite normalize_labels_cons. intros Hin.
  apply elem_of_cons in Hin as [->|Hin]; [|apply IH, Hin].
  destruct (normalize_label_cases x) as [[_ ->]|[[_ ->]|(H1 & H2 & ->)]];
    [split; discriminate|split; discriminate|auto].
Qed.

(** X17. Normalising the labels keeps their number and order, leaves no
    "POSITIVE" or "NEGATIVE" behind, and doing it twice is the same as
    doing it once. *)
Theorem normalize_labels_idempotent (sentiment : list string) :
  length (normalize_labels sentiment) = length sentiment
  /\ (forall l, l ∈ normalize_labels sentiment ->
                l <> "POSITIVE"%string /\ l <> "NEGATIVE"%string)
  /\ normalize_labels (normalize_labels sentiment) = normalize_labels sentiment.
Proof.
  split; [|split; [apply normalize_labels_no_raw|]].
  - induction sentiment as [|l ls IH]; [reflexivity|].
    rewrite normalize_labels_cons. cbn. rewrite IH. reflexivity.
  - induction sentiment as [|l ls IH]; [reflexivity|].
    rewrite !normalize_labels_cons, IH. f_equal.
    destruct (normalize_label_cases l) as [[-> _]|[[-> _]|(_ & _ & Hd)]];
      [vm_compute; reflexivity|vm_compute; reflexivity|].
    rewrite Hd. exact Hd.
Qed.

Lemma for_each_testimonials (ts : list testimonial_doc) :
  (Forall (fun t => td_rating t <> Null) ts ->
   exists calls,
     for_each (F := F) show_testimonial ts = (calls, Done)
     /\ length calls = (4 * length ts)%nat)
  /\ (~ Forall (fun t => td_rating t <> Null) ts ->
      (for_each (F := F) show_testimonial ts).2 = Raised TypeError).
Proof.
  induction ts as [|t ts [IHok IHbad]].
  { split; [intros _; exists []; auto|]. intros Hn. exfalso. apply Hn. constructor. }
  cbn [for_each]. unfold show_testimonial at 1 3.
  destruct (td_rating t) as [| |rating] eqn:Er; cbn [get_default].
  - (* absent: the default 0 *)
    split.
    + intros Hall. apply Forall_cons in Hall as [_ Hall].
      destruct (IHok Hall) as (calls & -> & Hlen).
      eexists. split; [reflexivity|]. rewrite !length_app, Hlen. cbn. lia.
    + intros Hn. destruct (for_each show_testimonial ts) as [calls o] eqn:E.
      cbn. apply IHbad. intros Hall. apply Hn. constructor; [rewrite Er; discriminate|exact Hall].
  - split; [|reflexivity].
    intros Hall. apply Forall_cons in Hall as [Hnull _]. congruence.
  - split.
    + intros Hall. apply Forall_cons in Hall as [_ Hall].
      destruct (IHok Hall) as (calls & -> & Hlen).
      eexists. split; [reflexivity|]. rewrite !length_app, Hlen. cbn. lia.
    + intros Hn. destruct (for_each show_testimonial ts) as [calls o] eqn:E.
      cbn. apply IHbad. intros Hall. apply Hn. constructor; [rewrite Er; discriminate|exact Hall].
Qed.


(** The ways the Reviews view ends. *)
Lemma reviews_view_cases (selected : string) (data : data_doc F) :
  let title := st_subheader (F := F)
                 (Some "Reviews (2023) + Sentiment Analysis"%string) in
  reviews_view selected data
  = ([title; st_warning "No reviews found in data.json"], Done)
  \/ reviews_view selected data
     = ([title; st_warning "No 2023 reviews found. Check your scraper output."],
        Done)
  \/ (exists e, month_label_to_range selected = Raise e
                /\ reviews_view selected data = ([title], Raised e))
  \/ exists start end_,
       month_label_to_range selected = Ok (start, end_)
       /\ let filtered := reviews_in_range start end_ data in
          let counts :=
            [title;
             st_metric "Reviews in month" (Z.of_nat (length filtered));
             st_metric "All 2023 reviews"
                       (Z.of_nat (length (reviews_2023 data)))] in
          (exists e, minus_one_day end_ = Raise e
                     /\ reviews_view selected data = (counts, Raised e))
          \/ (exists shown,
                filtered = []
                /\ reviews_view selected data
                   = (counts ++ [st_write shown;
                                 st_info "No reviews in this month."], Done))
          \/ (exists shown,
                length (sentiment_pipe
                          (map (fun rt => Scrape.rr_text rt.1) filtered))
                <> length filtered
                /\ reviews_view selected data
                   = (counts ++ [st_write shown], Raised ValueError))
          \/ exists shown,
               let preds := sentiment_pipe
                              (map (fun rt => Scrape.rr_text rt.1) filtered) in
               length preds = length filtered
               /\ filtered <> []
               /\ reviews_view selected data
                  = (counts ++
                       [st_write shown;
                        st_markdown "### Filtered reviews + predictions";
                        st_predictions
                          (zip_with (fun rt sc => mk_sentiment_row rt.1 rt.2 sc.1 sc.2)
                                    filtered
                                    (zip (normalize_labels (map fst preds))
                                         (map snd preds)))],
                     Done).
Proof.
  intros title. unfold reviews_view.
  destruct (default [] (get_default (d_reviews data) [])) as [|x xs] eqn:Erev.
  { left. reflexivity. }
  change (Pandas.empty (from_records (x :: xs))) with false. cbv iota.
  change (rows (from_records (x :: xs))) with (x :: xs).
  assert (H2023 : reviews_2023 data
                  = filter (fun rt => year rt.2 = 2023)
                      (dropna (zip (x :: xs)
                                 (to_datetime (map Scrape.rr_date (x :: xs))))))
    by (unfold reviews_2023, dated_reviews; rewrite Erev; reflexivity).
  cbv zeta. rewrite <- H2023. right.
  destruct (reviews_2023 data) as [|y ys] eqn:E2023; [left; reflexivity|].
  right. destruct (month_label_to_range selected) as [[start end_]|e] eqn:Er;
    [|left; exists e; auto].
  right. exists start, end_. split; [reflexivity|].
  unfold reviews_in_range. rewrite E2023.
  destruct (minus_one_day end_) as [last_day|e]; [|left; exists e; auto].
  right.
  destruct (filter _ (y :: ys)) as [|z zs] eqn:Ef;
    [left; eexists; split; reflexivity|].
  right. destruct (negb _) eqn:Elen.
  { left. eexists. split; [|reflexivity].
    apply negb_true_iff, Nat.eqb_neq in Elen. exact Elen. }
  right. eexists. split; [|split; [discriminate|reflexivity]].
  apply negb_false_iff, Nat.eqb_eq in Elen. exact Elen.
Qed.

Lemma length_dropna {A B} (l : list (A * option B)) :
  (length (dropna l) <= length l)%nat.
Proof.
  unfold dropna. induction l as [|[a [b|]] l IH]; cbn; lia.
Qed.

Lemma reviews_lengths (start end_ : datetime) (data : data_doc F) :
  (length (reviews_in_range start end_ data) <= length (reviews_2023 data))%nat
  /\ (length (reviews_2023 data)
      <= length (default [] (get_default (d_reviews data) [])))%nat.
Proof.
  unfold reviews_in_range, reviews_2023, dated_reviews. split.
  - apply length_filter.
  - etransitivity; [apply length_filter|].
    etransitivity; [apply length_dropna|]. rewrite length_zip_with. lia.
Qed.

(** What the view shows after the title when a range was computed: the
    two counts, and then no other count. *)
Lemma reviews_view_counts (selected : string) (data : data_doc F) l v :
  st_metric l v ∈ (reviews_view selected data).1 ->
  exists start end_,
    month_label_to_range selected = Ok (start, end_)
    /\ ((l = "Reviews in month"%string
         /\ v = Z.of_nat (length (reviews_in_range start end_ data)))
        \/ (l = "All 2023 reviews"%string
            /\ v = Z.of_nat (length (reviews_2023 data)))).
Proof.
  intros Hm.
  destruct (reviews_view_cases selected data)
    as [Hv|[Hv|[(e & _ & Hv)|(start & end_ & Hr & Hcase)]]];
    try (rewrite Hv in Hm; cbn in Hm;
         repeat (apply elem_of_cons in Hm as [Hm|Hm]; [discriminate|]);
         inversion Hm).
  exists start, end_. split; [exact Hr|]. cbv zeta in Hcase.
  destruct Hcase as [(e & _ & Hv)|[(shown & _ & Hv)|[(shown & _ & Hv)|(shown & _ & _ & Hv)]]];
    rewrite Hv in Hm; cbn in Hm;
    repeat (apply elem_of_cons in Hm as [Hm|Hm];
            [first [discriminate | injection Hm as -> ->; auto]|]);
    inversion Hm.
Qed.

(** X19. The two counts the Reviews view shows are ordered: the reviews of
    the selected month are among the reviews of 2023, which are among the
    reviews of the file. *)
Theorem review_counts_are_ordered (selected : string) (data : data_doc F)
    (in_month in_2023 : Z) :
  st_metric "Reviews in month" in_month ∈ (reviews_view selected data).1 ->
  st_metric "All 2023 reviews" in_2023 ∈ (reviews_view selected data).1 ->
  0 <= in_month <= in_2023
  /\ in_2023 <= Z.of_nat (length (default [] (get_default (d_reviews data) []))).
Proof.
  intros Hm Ha.
  apply reviews_view_counts in Hm as (start & end_ & Hr & [[_ ->]|[Hl _]]);
    [|discriminate].
  apply reviews_view_counts in Ha as (start' & end' & Hr' & [[Hl _]|[_ ->]]);
    [discriminate|].
  destruct (reviews_lengths start end_ data) as [H1 H2]. lia.
Qed.

Lemma month_labels_accepted label :
  label ∈ month_labels ->
  exists start end_, month_label_to_range label = Ok (start, end_).
Proof.
  unfold month_labels, months. intros Hl.
  apply list_elem_of_fmap in Hl as (d & -> & Hd).
  apply list_elem_of_fmap in Hd as (m & -> & Hm).
  apply elem_of_seqZ in Hm. eexists _, _.
  apply month_label_to_range_of_strptime;
    [apply strptime_strftime_b_Y; lia | lia | lia | right; lia].
Qed.

(** The table of predictions, when the view shows one. *)
Lemma reviews_view_predictions (selected : string) (data : data_doc F) table :
  st_predictions table ∈ (reviews_view selected data).1 ->
  exists start end_,
    month_label_to_range selected = Ok (start, end_)
    /\ let filtered := reviews_in_range start end_ data in
       let preds := sentiment_pipe
                      (map (fun rt => Scrape.rr_text rt.1) filtered) in
       length preds = length filtered
       /\ filtered <> []
       /\ table = zip_with (fun rt sc => mk_sentiment_row rt.1 rt.2 sc.1 sc.2)
                    filtered
                    (zip (normalize_labels (map fst preds)) (map snd preds))
       /\ st_metric "Reviews in month" (Z.of_nat (length filtered))
          ∈ (reviews_view selected data).1.
Proof.
  intros Hm.
  destruct (reviews_view_cases selected data)
    as [Hv|[Hv|[(e & _ & Hv)|(start & end_ & Hr & Hcase)]]];
    try (rewrite Hv in Hm; cbn in Hm;
         repeat (apply elem_of_cons in Hm as [Hm|Hm]; [discriminate|]);
         inversion Hm).
  exists start, end_. split; [exact Hr|]. cbv zeta in Hcase |- *.
  destruct Hcase as [(e & _ & Hv)|[(shown & _ & Hv)|[(shown & _ & Hv)|(shown & Hlen & Hne & Hv)]]];
    rewrite Hv in Hm |- *; cbn in Hm;
    repeat (apply elem_of_cons in Hm as [Hm|Hm]; [try discriminate|]);
    try (inversion Hm; fail).
  injection Hm as ->. split; [exact Hlen|]. split; [exact Hne|].
  split; [reflexivity|]. cbn. right. left.
Qed.

Lemma dated_reviews_elem (data : data_doc F) rt :
  rt ∈ dated_reviews data ->
  rt.1 ∈ default [] (get_default (d_reviews data) [])
  /\ exists dates, Some rt.2 ∈ to_datetime dates.
Proof.
  unfold dated_reviews, dropna. intros Hin.
  apply list_elem_of_omap in Hin as ([a [b|]] & Hin & Heq); [|discriminate].
  injection Heq as <-. cbn. split.
  - apply (elem_of_zip_l _ _ _ _ Hin).
  - eexists. apply (elem_of_zip_r _ _ _ _ Hin).
Qed.

(** A row of the selected range: a review of the file, of 2023, of the
    month of the label. *)
Lemma reviews_in_range_elem (selected : string) (data : data_doc F)
    start end_ rt :
  (forall dates t, Some t ∈ to_datetime dates -> valid t = true) ->
  month_label_to_range selected = Ok (start, end_) ->
  rt ∈ reviews_in_range start end_ data ->
  rt.1 ∈ default [] (get_default (d_reviews data) [])
  /\ year rt.2 = 2023 /\ year rt.2 = year start /\ month rt.2 = month start.
Proof.
  intros Hvalid Hr Hrt. unfold reviews_in_range in Hrt.
  apply list_elem_of_filter in Hrt as [Hrange Hrt].
  unfold reviews_2023 in Hrt. apply list_elem_of_filter in Hrt as [Hy Hrt].
  apply dated_reviews_elem in Hrt as [Hrev (dates & Hdt)].
  apply Hvalid in Hdt. split; [exact Hrev|]. split; [exact Hy|].
  destruct (month_label_to_range_inv _ _ _ Hr)
    as (y & m & Hyr & Hm & -> & [(Hlt & -> & _)|(-> & -> & Hmax)]);
    cbn [year month midnight];
    (apply in_month_range in Hrange; [exact Hrange|exact Hdt| |lia]);
    [left|right]; lia.
Qed.

(** X20. When [pd.to_datetime] returns valid datetimes, the table of
    predictions is shown only for a label of 2023; every row of it is a
    review of the file whose date lies in 2023 and in the month of the
    label, with a normalised sentiment; and the table has as many rows as
    the count "Reviews in month" shows, at least one. *)
Theorem predictions_are_of_selected_month (selected : string)
    (data : data_doc F) table :
  (forall dates t, Some t ∈ to_datetime dates -> valid t = true) ->
  st_predictions table ∈ (reviews_view selected data).1 ->
  exists start end_,
    month_label_to_range selected = Ok (start, end_)
    /\ year start = 2023
    /\ (0 < length table)%nat
    /\ st_metric "Reviews in month" (Z.of_nat (length table))
       ∈ (reviews_view selected data).1
    /\ forall row, row ∈ table ->
         sr_review _ row ∈ default [] (get_default (d_reviews data) [])
         /\ year (sr_date_dt _ row) = 2023
         /\ month (sr_date_dt _ row) = month start
         /\ sr_sentiment _ row <> "POSITIVE"%string
         /\ sr_sentiment _ row <> "NEGATIVE"%string.
Proof.
  intros Hvalid Hin.
  destruct (reviews_view_predictions _ _ _ Hin)
    as (start & end_ & Hr & Hlen & Hne & -> & Hmetric).
  exists start, end_. split; [exact Hr|]. cbv zeta in Hlen, Hmetric.
  set (filtered := reviews_in_range start end_ data) in *.
  set (preds := sentiment_pipe (map (fun rt => Scrape.rr_text rt.1) filtered)) in *.
  assert (Htable : length (zip_with (fun rt sc => mk_sentiment_row rt.1 rt.2 sc.1 sc.2)
                             filtered
                             (zip (normalize_labels (map fst preds)) (map snd preds)))
                   = length filtered).
  { rewrite !length_zip_with, !length_map.
    assert (Hn : length (normalize_labels (map fst preds)) = length preds).
    { clear. induction preds as [|p ps IH]; [reflexivity|].
      cbn [map]. rewrite normalize_labels_cons. cbn. rewrite IH. reflexivity. }
    rewrite Hn, Hlen. lia. }
  split.
  { destruct filtered as [|rt rts] eqn:Ef; [congruence|].
    destruct (reviews_in_range_elem selected data start end_ rt Hvalid Hr)
      as (_ & Hy & Hys & _); [fold filtered; rewrite Ef; left|]. lia. }
  split; [rewrite Htable; destruct filtered; [congruence|cbn; lia]|].
  split; [rewrite Htable; exact Hmetric|].
  intros row Hrow.
  apply elem_of_zip_with in Hrow as (rt & [sent conf] & -> & Hrt & Hsc).
  cbn [sr_review sr_date_dt sr_sentiment fst snd].
  destruct (reviews_in_range_elem selected data start end_ rt Hvalid Hr Hrt)
    as (Hrev & Hy & _ & Hm).
  split; [exact Hrev|]. split; [exact Hy|]. split; [exact Hm|].
  apply elem_of_zip_l in Hsc. apply (normalize_labels_no_raw _ _ Hsc).
Qed.

End DashboardMore.


Lemma review_counts_are_ordered_witness :
  let data := App.mk_data (F := string) App.Absent App.Absent
                (App.Val Demo.march_reviews) in
  App.st_metric "Reviews in month" 1
    ∈ (App.reviews_view (applib := Demo.toy_applib) "Mar 2023" data).1
  /\ App.st_metric "All 2023 reviews" 2
       ∈ (App.reviews_view (applib := Demo.toy_applib) "Mar 2023" data).1
  /\ 0 <= 1 <= 2 /\ 2 <= 2.
Proof.
  intros data.
  assert (H1 : App.st_metric "Reviews in month" 1
                 ∈ (App.reviews_view (applib := Demo.toy_applib) "Mar 2023" data).1)
    by (vm_compute; right; left).
  assert (H2 : App.st_metric "All 2023 reviews" 2
                 ∈ (App.reviews_view (applib := Demo.toy_applib) "Mar 2023" data).1)
    by (vm_compute; right; right; left).
  split; [exact H1|]. split; [exact H2|].
  exact (review_counts_are_ordered (applib := Demo.toy_applib) "Mar 2023" data
           1 2 H1 H2).
Defined.

Lemma toy_dates_valid dates t :
  Some t ∈ App.to_datetime (AppLib := Demo.toy_applib) dates -> valid t = true.
Proof.
  cbn. intros Hin. apply list_elem_of_fmap in Hin as (s & Hs & _).
  destruct (strptime_Y_m_d s) as [dt|] eqn:Hp; [|discriminate].
  injection Hs as ->. unfold strptime_Y_m_d, rbind in Hp.
  destruct (whole_match _) as [[[y m] d]|] eqn:Hw; [|discriminate].
  apply new_datetime_ok in Hp as [-> Hc]. unfold valid. cbn.
  rewrite Hc. reflexivity.
Defined.

Lemma predictions_are_of_selected_month_witness :
  let data := App.mk_data (F := string) App.Absent App.Absent
                (App.Val Demo.march_reviews) in
  let table :=
    [App.mk_sentiment_row
       (Scrape.mk_review_row (Some "r2"%string) "2023-03-05" "great product"
          (CInt 5))
       (midnight 2023 3 5) "Positive"%string "0.99"%string] in
  App.st_predictions table
    ∈ (App.reviews_view (applib := Demo.toy_applib) "Mar 2023" data).1
  /\ exists start end_,
       App.month_label_to_range "Mar 2023" = Ok (start, end_)
       /\ year start = 2023
       /\ (0 < length table)%nat.
Proof.
  intros data table.
  assert (Hin : App.st_predictions table
                  ∈ (App.reviews_view (applib := Demo.toy_applib) "Mar 2023" data).1)
    by (vm_compute; do 5 right; left).
  split; [exact Hin|].
  destruct (predictions_are_of_selected_month (applib := Demo.toy_applib)
              "Mar 2023" data table toy_dates_valid Hin)
    as (start & end_ & Hr & Hy & Hlen & _).
  exists start, end_. auto.
Defined.

(** ** The pattern of product paths *)

Section ProductPath.
Import Scrape.

Lemma m_word_exact_Some w s rest :
  m_word_exact w s = Some rest <-> s = w ++ rest.
Proof.
  revert s. induction w as [|c w IH]; intros s; cbn.
  - split; [intros [= ->]; reflexivity|intros ->; reflexivity].
  - destruct s as [|x s]; [split; discriminate|].
    destruct (Ascii.eqb_spec x c) as [->|Hne].
    + rewrite IH. split; [intros ->; reflexivity|intros [= ->]; reflexivity].
    + split; [discriminate|intros [= Hx _]; contradiction].
Qed.

Lemma drop_digits_split l :
  exists ds, l = ds ++ drop_digits l /\ forallb isdigit ds = true.
Proof.
  induction l as [|c l (ds & Hl & Hds)]; [exists []; auto|].
  cbn [drop_digits]. destruct (isdigit c) eqn:Ec; [|exists []; auto].
  exists (c :: ds). cbn. rewrite Ec, Hds, <- Hl. auto.
Qed.

Lemma drop_digits_app ds l :
  forallb isdigit ds = true -> drop_digits (ds ++ l) = drop_digits l.
Proof.
  induction ds as [|c ds IH]; [reflexivity|].
  cbn. intros Hd. apply andb_prop in Hd as [-> Hd]. apply IH, Hd.
Qed.

(** X22. A path is taken for a product page exactly when it is
    [/product/], one or more digits, an optional [/], and nothing more
    but an optional final newline. *)
Theorem product_path_ok_iff (path : string) :
  product_path_ok path = true
  <-> exists digits suffix,
        chars path = chars "/product/" ++ digits ++ suffix
        /\ digits <> [] /\ forallb isdigit digits = true
        /\ suffix ∈ [ []; ["/"%char]; [newline]; ["/"%char; newline] ].
Proof.
  unfold product_path_ok. split.
  - destruct (m_word_exact _ _) as [[|c rest]|] eqn:Ew; try discriminate.
    apply m_word_exact_Some in Ew. intros Hok.
    apply andb_prop in Hok as [Hc Hsuf]. apply bool_decide_eq_true in Hsuf.
    destruct (drop_digits_split rest) as (ds & Hrest & Hds).
    exists (c :: ds), (drop_digits rest). split.
    { rewrite Ew. cbn [app]. rewrite <- Hrest. reflexivity. }
    split; [discriminate|]. split; [cbn; rewrite Hc, Hds; reflexivity|exact Hsuf].
  - intros (digits & suffix & Hpath & Hne & Hds & Hsuf).
    destruct digits as [|c ds]; [congruence|].
    assert (Hw : m_word_exact (chars "/product/") (chars path)
                 = Some (c :: ds ++ suffix))
      by (apply m_word_exact_Some; exact Hpath).
    rewrite Hw. cbn in Hds. apply andb_prop in Hds as [Hc Hds].
    rewrite Hc, drop_digits_app by exact Hds. cbn [andb].
    apply bool_decide_eq_true.
    assert (Hfix : drop_digits suffix = suffix).
    { repeat (apply elem_of_cons in Hsuf as [->|Hsuf]; [reflexivity|]).
      inversion Hsuf. }
    rewrite Hfix. exact Hsuf.
Qed.

End ProductPath.

(** ** The Products view *)

Section ProductsView.
Import App.
Context {F : Type} {applib : AppLib F}.

Lemma show_product_length (p : product_doc F) :
  (3 <= length (show_product p) <= 5)%nat.
Proof.
  unfold show_product. rewrite !length_app. cbn [length].
  destruct (get (pd_image_url p)) as [u|]; [destruct (truthy u)|];
    (destruct (get (pd_description p)) as [d|]; [destruct (truthy d)|]);
    cbn [length]; lia.
Qed.

(** X23. When the value of "products" is a list the Products view returns
    normally, whatever keys the products lack: it makes between three and
    five calls per product after the header.  A null value raises
    [TypeError]. *)
Theorem products_view_outcome (ts : field (list testimonial_doc))
    (rs : field (list Scrape.review_row)) :
  (forall ps,
      exists calls,
        products_view (mk_data (Val ps) ts rs) = (calls, Done)
        /\ (1 + 3 * length ps <= length calls <= 1 + 5 * length ps)%nat)
  /\ (products_view (mk_data Null ts rs)).2 = Raised TypeError.
Proof.
  split; [|reflexivity]. intros ps. eexists. split; [reflexivity|].
  rewrite length_app. cbn [length].
  induction ps as [|p ps IH]; [cbn; lia|].
  cbn [map concat]. rewrite length_app.
  pose proof (show_product_length p). cbn [length]. lia.
Qed.

End ProductsView.

(** ** Runs of the added properties *)

Lemma testimonials_pagination_stops_witness :
  let gets :=
    Scrape.testimonial_gets
      (Scrape.collect_testimonials (site := Scrape.scripted_site) 50
         Demo.two_testimonial_pages).2 in
  gets !! 2%nat = Some (3, Scrape.mk_response 403 [])
  /\ 403 <> 200
  /\ 3%nat = length gets.
Proof.
  intros gets.
  assert (Hi : gets !! 2%nat = Some (3, Scrape.mk_response 403 []))
    by (vm_compute; reflexivity).
  assert (Hs : 403 <> 200) by discriminate.
  split; [exact Hi|]. split; [exact Hs|].
  apply (proj2 (proj2 (testimonials_pagination_stops (site := Scrape.scripted_site)
                         50 Demo.two_testimonial_pages)) 2%nat _ _ Hi).
  left. left. exact Hs.
Defined.

Lemma testimonials_deduplicated_witness :
  exists out,
    (Scrape.scrape_testimonials_api (site := Scrape.scripted_site) 50
       Demo.two_testimonial_pages).1.1 = Ok out
    /\ length (Scrape.collect_testimonials (site := Scrape.scripted_site) 50
                 Demo.two_testimonial_pages).1.1 = 3%nat
    /\ NoDup (map Scrape.t_text out).
Proof.
  destruct (testimonials_deduplicated (site := Scrape.scripted_site) 50
              Demo.two_testimonial_pages) as (out & Hout & Hnd & _).
  exists out. split; [exact Hout|]. split; [vm_compute; reflexivity|exact Hnd].
Defined.

Lemma normalize_labels_idempotent_witness :
  "Positive"%string ∈ App.normalize_labels ["POSITIVE"; "neutral"]%string
  /\ "Positive"%string <> "POSITIVE"%string.
Proof.
  assert (Hin : "Positive"%string
                  ∈ App.normalize_labels ["POSITIVE"; "neutral"]%string)
    by (vm_compute; left).
  split; [exact Hin|].
  exact (proj1 (proj1 (proj2 (normalize_labels_idempotent
                                ["POSITIVE"; "neutral"]%string)) _ Hin)).
Defined.

Lemma product_path_ok_iff_witness :
  chars "/product/12/" = chars "/product/" ++ chars "12" ++ ["/"%char]
  /\ Scrape.product_path_ok "/product/12/" = true.
Proof.
  assert (Hp : chars "/product/12/" = chars "/product/" ++ chars "12" ++ ["/"%char])
    by reflexivity.
  split; [exact Hp|].
  apply (proj2 (product_path_ok_iff "/product/12/")).
  exists (chars "12"), ["/"%char]. split; [exact Hp|].
  split; [discriminate|]. split; [reflexivity|]. right. left.
Defined.

(** ** The dashboard on a snapshot of the scraper *)

Section SnapshotViews.
Import App.
Context {F : Type} {applib : AppLib F}.

Lemma show_products_length (ps : list (product_doc F)) :
  (3 * length ps <= length (concat (map show_product ps)) <= 5 * length ps)%nat.
Proof.
  induction ps as [|p ps IH]; [cbn; lia|].
  cbn [map concat]. rewrite length_app.
  pose proof (show_product_length p). cbn [length]. lia.
Qed.

Lemma show_product_title (p : product_doc F) :
  st_subheader (get_default (pd_title p) "Unnamed product") ∈ show_product p.
Proof.
  unfold show_product. apply elem_of_app. right.
  apply elem_of_app. right. apply elem_of_app. left. left.
Qed.

Lemma elem_of_concat {A} (x : A) (l : list A) (ls : list (list A)) :
  x ∈ l -> l ∈ ls -> x ∈ concat ls.
Proof.
  intros Hx. induction ls as [|l' ls IH]; intros Hl; [inversion Hl|].
  cbn [concat]. apply elem_of_app. apply elem_of_cons in Hl as [<-|Hl].
  - left. exact Hx.
  - right. apply IH, Hl.
Qed.

Lemma for_each_shows {A} (body : A -> list (st_call F) * outcome) l calls x c :
  for_each body l = (calls, Done) -> x ∈ l -> c ∈ (body x).1 -> c ∈ calls.
Proof.
  revert calls. induction l as [|y l IH]; intros calls Hrun Hx Hc; [inversion Hx|].
  cbn [for_each] in Hrun. destruct (body y) as [cs [|e]] eqn:Ey; [|discriminate].
  destruct (for_each body l) as [cs' o] eqn:El. injection Hrun as <- ->.
  apply elem_of_app. apply elem_of_cons in Hx as [->|Hx].
  - left. rewrite Ey in Hc. exact Hc.
  - right. apply (IH cs' eq_refl Hx Hc).
Qed.

(** X21. On the file a run of the scraper wrote, the Products view and
    the Testimonials view return normally. After its header the Products
    view makes three to five calls per product of the snapshot, and shows
    the title of each; after its subheader the Testimonials view makes
    four calls per testimonial of the snapshot, and shows the text of
    each. *)
Theorem dashboard_reads_snapshot (s : Scrape.snapshot F) (selected : string) :
  let data := load_data s in
  (exists calls,
      main Products selected data = (st_header "Products" :: calls, Done)
      /\ (3 * length (Scrape.s_products s) <= length calls
          <= 5 * length (Scrape.s_products s))%nat
      /\ forall p, p ∈ Scrape.s_products s ->
                   st_subheader (Some (Scrape.p_title p)) ∈ calls)
  /\ (exists calls,
         main Testimonials selected data
         = (st_subheader (Some "Testimonials") :: calls, Done)
         /\ length calls = (4 * length (Scrape.s_testimonials s))%nat
         /\ forall t, t ∈ Scrape.s_testimonials s ->
                      st_write (Some (Scrape.t_text t)) ∈ calls).
Proof.
  cbv zeta. split.
  - cbn [main]. unfold products_view, load_data. cbn [d_products getitem].
    eexists. split; [reflexivity|]. split.
    + pose proof (show_products_length
                    (map product_doc_of (Scrape.s_products s))) as Hlen.
      rewrite length_map in Hlen. exact Hlen.
    + intros p Hp.
      apply (elem_of_concat _ (show_product (product_doc_of p))).
      * apply (show_product_title (product_doc_of p)).
      * apply list_elem_of_fmap. exists (product_doc_of p).
        split; [reflexivity|]. apply list_elem_of_fmap. eauto.
  - cbn [main]. unfold testimonials_view, load_data.
    cbn [d_testimonials get_default].
    destruct (for_each_testimonials (F := F)
                (map testimonial_doc_of (Scrape.s_testimonials s))) as [Hok _].
    destruct Hok as (calls & Hrun & Hlen).
    { apply Forall_fmap, Forall_forall. intros t _. cbn. discriminate. }
    rewrite Hrun. exists calls. split; [reflexivity|].
    split; [rewrite Hlen, length_map; reflexivity|].
    intros t Ht.
    apply (for_each_shows show_testimonial _ calls (testimonial_doc_of t) _ Hrun).
    + apply list_elem_of_fmap. eauto.
    + cbn. right. left.
Qed.

End SnapshotViews.

Lemma dashboard_reads_snapshot_witness :
  exists s,
    (Scrape.main (lib := Scrape.toy_lib) (site := Scrape.scripted_site)
       "2026-01-01T00:00:00+00:00" Demo.whole_site).1.1 = Ok s
    /\ length (Scrape.s_products s) = 2%nat
    /\ length (Scrape.s_testimonials s) = 2%nat
    /\ (exists calls,
          App.main (applib := Demo.toy_applib) App.Products "Mar 2023"
            (App.load_data s)
          = (App.st_header "Products" :: calls, App.Done)
          /\ (6 <= length calls <= 10)%nat)
    /\ (exists calls,
          App.main (applib := Demo.toy_applib) App.Testimonials "Mar 2023"
            (App.load_data s)
          = (App.st_subheader (Some "Testimonials"%string) :: calls, App.Done)
          /\ length calls = 8%nat).
Proof.
  eexists.
  assert (Hrun : (Scrape.main (lib := Scrape.toy_lib)
                    (site := Scrape.scripted_site)
                    "2026-01-01T00:00:00+00:00" Demo.whole_site).1.1 = Ok _)
    by (vm_compute; reflexivity).
  split; [exact Hrun|]. split; [reflexivity|]. split; [reflexivity|].
  match goal with
  | |- context [App.load_data ?s] =>
      destruct (dashboard_reads_snapshot (applib := Demo.toy_applib) s "Mar 2023")
        as [(calls1 & H1 & Hlen1 & _) (calls2 & H2 & Hlen2 & _)]
  end.
  split; [exists calls1|exists calls2]; (split; [assumption|]).
  - exact Hlen1.
  - exact Hlen2.
Defined.
